(** * Red social académica: the analytical core of [red_social_academica.py]

    A shallow embedding of the in-memory graph state of the program (the
    module-level [nodes], [collaborations] and [removed_nodes]), of the
    functions that score, rank and analyse it, and of the button handlers
    that mutate it, followed by the properties of that code.

    Conventions of the embedding.
    - Python [str] is [string] (the UTF-8 bytes of the text); comparing
      UTF-8 byte sequences lexicographically orders them as Python orders
      the code points, so [<=] on [str] is [String.leb].
    - Python [float] is the primitive binary64 [float]; [int] is [Z].
    - A [set] of strings is a [gset string]; a [dict] keyed by strings is an
      insertion-ordered association list ([pydict]); a [list] is a [list].
    - A function body runs in the monad [M]: it threads the module-level
      state and may raise a Python exception.
    - The Tk widgets are outside the embedding: a handler takes the values it
      reads from its entry fields (already stripped and parsed) as arguments
      and returns which message it shows; redrawing and table refreshes,
      which only read the state, are left out. *)

From Stdlib Require Import ZArith String Floats Uint63 Lia Bool.
From stdpp Require Import base gmap strings list sorting.

Local Open Scope Z_scope.

(** ** Python values *)

Module Py.

(** [a <= b] on [str]. *)
Definition str_le (a b : string) : bool := String.leb a b.

(** [sorted(s)] for a set of strings: insertion sort of its elements. *)
Fixpoint insert_str (x : string) (l : list string) : list string :=
  match l with
  | [] => [x]
  | y :: l' => if str_le x y then x :: y :: l' else y :: insert_str x l'
  end.

Definition sorted (s : gset string) : list string :=
  foldr insert_str [] (elements s).

(** [sep.join(l)]. *)
Definition join (sep : string) (l : list string) : string := String.concat sep l.

(** [len(s)] as an [int]. *)
Definition len_set (s : gset string) : Z := Z.of_nat (size s).
Definition len_list {A} (l : list A) : Z := Z.of_nat (length l).

(** Truth value of a set: [bool(s)] is [len(s) != 0]. *)
Definition truthy_set (s : gset string) : bool := negb (len_set s =? 0).

(** [float(n)] for a non-negative [int] that fits a machine word, as every
    length does; the conversion is exact below [2^53]. *)
Definition float_of_int (z : Z) : float := PrimFloat.of_uint63 (Uint63.of_Z z).

(** [max(a, b)] on floats: the first argument unless the second is greater. *)
Definition max_float (a b : float) : float := if (a <? b)%float then b else a.

(** [l[:n]]: a negative bound counts from the end. *)
Definition slice_to {A} (n : Z) (l : list A) : list A :=
  if 0 <=? n then take (Z.to_nat n) l
  else take (Z.to_nat (len_list l + n)) l.

(** A [dict] with string keys, in insertion order. *)
Definition pydict (V : Type) : Type := list (string * V).

Fixpoint dict_get {V} (k : string) (d : pydict V) : option V :=
  match d with
  | [] => None
  | (k', v) :: d' => if decide (k = k') then Some v else dict_get k d'
  end.

Definition dict_contains {V} (k : string) (d : pydict V) : bool :=
  match dict_get k d with Some _ => true | None => false end.

(** [d[k] = v]: overwrite in place, or append a new key. *)
Fixpoint dict_set {V} (k : string) (v : V) (d : pydict V) : pydict V :=
  match d with
  | [] => [(k, v)]
  | (k', v') :: d' =>
      if decide (k = k') then (k, v) :: d' else (k', v') :: dict_set k v d'
  end.

Definition dict_keys {V} (d : pydict V) : list string := map fst d.

(** [d.get(k, default)]. *)
Definition dict_get_default {V} (k : string) (default : V) (d : pydict V) : V :=
  match dict_get k d with Some v => v | None => default end.

(** [x in l] on a list. *)
Definition list_contains {A} `{EqDecision A} (x : A) (l : list A) : bool :=
  bool_decide (x ∈ l).

(** [l.remove(x)]: drops the first occurrence; [None] stands for the
    [ValueError] of an absent element. *)
Fixpoint list_remove {A} `{EqDecision A} (x : A) (l : list A) : option (list A) :=
  match l with
  | [] => None
  | y :: l' =>
      if decide (x = y) then Some l'
      else match list_remove x l' with
           | Some r => Some (y :: r)
           | None => None
           end
  end.

(** [enumerate(l)]. *)
Definition enumerate {A} (l : list A) : list (nat * A) :=
  zip (seq 0 (length l)) l.

End Py.

(** ** The part of networkx the program uses

    [nx.Graph] keeps its nodes in insertion order and each undirected edge
    once. The three graph algorithms the program calls are library code; they
    are an interface here, and every property below holds for any
    implementation of it. *)

Module Nx.

Record Graph : Type := mkGraph {
  g_nodes : list string;
  g_edges : list (string * string)
}.

Definition empty : Graph := mkGraph [] [].

Definition has_node (n : string) (G : Graph) : bool :=
  Py.list_contains n (g_nodes G).

Definition has_edge (a b : string) (G : Graph) : bool :=
  Py.list_contains (a, b) (g_edges G) || Py.list_contains (b, a) (g_edges G).

(** [G.add_node(n)]: no effect on a node already present. *)
Definition add_node (n : string) (G : Graph) : Graph :=
  if has_node n G then G else mkGraph (g_nodes G ++ [n]) (g_edges G).

(** [G.add_edge(a, b)]: adds missing endpoints, then the edge unless present. *)
Definition add_edge (a b : string) (G : Graph) : Graph :=
  let G' := add_node b (add_node a G) in
  if has_edge a b G' then G' else mkGraph (g_nodes G') (g_edges G' ++ [(a, b)]).

(** [len(G)] and [G.number_of_nodes()]. *)
Definition number_of_nodes (G : Graph) : Z := Py.len_list (g_nodes G).

(** [G.number_of_edges()]. *)
Definition number_of_edges (G : Graph) : Z := Py.len_list (g_edges G).

Class Algorithms : Type := {
  number_connected_components : Graph → Z;
  degree_centrality : Graph → Py.pydict float;
  betweenness_centrality : Graph → Py.pydict float
}.

End Nx.

(** ** Module-level state *)

Record node_info : Type := mkInfo {
  carrera : string;
  intereses : gset string
}.

(** [nodes], [collaborations] and [removed_nodes]. The two display globals
    ([suggested_connections], [visualization_mode]) belong to the drawing
    code and are not part of the graph state. *)
Record State : Type := mkState {
  nodes : Py.pydict node_info;
  collaborations : list (string * string);
  removed_nodes : gset string
}.

(** ** Function bodies: state and exceptions *)

Inductive exn : Type :=
  | KeyError (k : string)
  | ValueError
  | ZeroDivisionError.

Definition M (A : Type) : Type := State → (exn + A) * State.

Definition ret {A} (a : A) : M A := λ st, (inr a, st).

Definition raise {A} (e : exn) : M A := λ st, (inl e, st).

Definition bind {A B} (m : M A) (k : A → M B) : M B :=
  λ st, match m st with
        | (inr a, st') => k a st'
        | (inl e, st') => (inl e, st')
        end.

(** Reading a module-level name. *)
Definition read {A} (f : State → A) : M A := λ st, (inr (f st), st).

(** Mutating the object a module-level name is bound to. *)
Definition update (f : State → State) : M unit := λ st, (inr tt, f st).

Declare Scope py_scope.
Delimit Scope py_scope with py.
Notation "x <- m ;; k" := (bind m (λ x, k))
  (at level 100, m at next level, right associativity) : py_scope.
Notation "m ;;; k" := (bind m (λ _, k))
  (at level 100, right associativity) : py_scope.
Local Open Scope py_scope.

(** [for x in l: acc = body(x, acc)]: the loop's local variables are [acc]. *)
Fixpoint for_loop {A B} (l : list A) (body : A → B → M B) (acc : B) : M B :=
  match l with
  | [] => ret acc
  | x :: l' => acc' <- body x acc ;; for_loop l' body acc'
  end.

(** [d[k]]. *)
Definition getitem {V} (d : Py.pydict V) (k : string) : M V :=
  match Py.dict_get k d with
  | Some v => ret v
  | None => raise (KeyError k)
  end.

(** [a / b] on two [int]s: [ZeroDivisionError] on a zero divisor; on
    operands below [2^53] Python divides the two exact conversions. *)
Definition int_truediv (a b : Z) : M float :=
  if b =? 0 then raise ZeroDivisionError
  else ret (Py.float_of_int a / Py.float_of_int b)%float.

(** [sort(key=..., reverse=True)]: stable, descending. Every stable sort
    orders a list the same way, so an insertion sort stands for Python's. *)
Fixpoint insert_desc {A} (key : A → float) (x : A) (l : list A) : list A :=
  match l with
  | [] => [x]
  | y :: l' =>
      if (key x <? key y)%float then y :: insert_desc key x l'
      else x :: y :: l'
  end.

Definition sort_desc {A} (key : A → float) (l : list A) : list A :=
  foldr (insert_desc key) [] l.

(** ** Utilities *)

Definition normalize_pair (a b : string) : string * string :=
  if Py.str_le a b then (a, b) else (b, a).

(** ** 1. Interdisciplinary recommendation *)

Definition calculate_interdisciplinary_score (n1 n2 : string) : M float :=
  ns <- read nodes ;;
  if negb (Py.dict_contains n1 ns) || negb (Py.dict_contains n2 ns)
  then ret 0.0%float
  else
    info1 <- getitem ns n1 ;;
    info2 <- getitem ns n2 ;;
    let score := 0.0%float in
    let score :=
      if bool_decide (carrera info1 ≠ carrera info2)
      then (score + 3.0)%float else score in
    let int1 := intereses info1 in
    let int2 := intereses info2 in
    if Py.truthy_set int1 || Py.truthy_set int2 then
      let intersection := Py.len_set (int1 ∩ int2) in
      let union := Py.len_set (int1 ∪ int2) in
      if 0 <? union then
        jaccard <- int_truediv intersection union ;;
        ret (score + jaccard * 2.0)%float
      else ret score
    else ret score.

Definition recommendation : Type := string * string * float.

Definition recommend_interdisciplinary_connections (top_n : Z)
  : M (list recommendation) :=
  ns <- read nodes ;;
  let node_list := Py.dict_keys ns in
  recommendations <-
    for_loop (Py.enumerate node_list) (λ '(i, n1) recommendations,
      for_loop (drop (S i) node_list) (λ n2 recommendations,
        let pair := normalize_pair n1 n2 in
        cs <- read collaborations ;;
        if negb (Py.list_contains pair cs) then
          score <- calculate_interdisciplinary_score n1 n2 ;;
          if (0 <? score)%float
          then ret (recommendations ++ [(n1, n2, score)])
          else ret recommendations
        else ret recommendations) recommendations) [] ;;
  ret (Py.slice_to top_n (sort_desc snd recommendations)).

(** ** 2. Resilience analysis *)

Record metrics : Type := mkMetrics {
  nodos : Z;
  aristas : Z;
  componentes : Z
}.

(** The loop that builds the graph of the non-removed part of the network;
    the program repeats it verbatim in [calculate_centrality_metrics] and
    twice in [run_simulation]. *)
Definition active_graph : M Nx.Graph :=
  ns <- read nodes ;;
  G <- for_loop (Py.dict_keys ns) (λ n G,
         removed <- read removed_nodes ;;
         if negb (bool_decide (n ∈ removed))
         then ret (Nx.add_node n G) else ret G) Nx.empty ;;
  cs <- read collaborations ;;
  for_loop cs (λ '(a, b) G,
    removed <- read removed_nodes ;;
    if negb (bool_decide (a ∈ removed)) && negb (bool_decide (b ∈ removed))
    then ret (Nx.add_edge a b G) else ret G) G.

Section Analysis.
Context `{Nx.Algorithms}.

Definition calculate_network_metrics (G : Nx.Graph) : metrics :=
  if Nx.number_of_nodes G =? 0 then mkMetrics 0 0 0
  else mkMetrics (Nx.number_of_nodes G) (Nx.number_of_edges G)
                 (Nx.number_connected_components G).

(** ** 3. Gap detection: centrality and suggestions *)

Record centrality_entry : Type := mkCentrality {
  grado : float;
  intermediacion : float;
  score_total : float
}.

Definition calculate_centrality_metrics : M (Py.pydict centrality_entry) :=
  G <- active_graph ;;
  if (Nx.number_of_nodes G =? 0) || (Nx.number_of_edges G =? 0) then ret []
  else
    let degree_cent := Nx.degree_centrality G in
    let betweenness_cent := Nx.betweenness_centrality G in
    for_loop (Nx.g_nodes G) (λ node combined,
      ret (Py.dict_set node
             (mkCentrality
                (Py.dict_get_default node 0%float degree_cent)
                (Py.dict_get_default node 0%float betweenness_cent)
                (Py.dict_get_default node 0%float degree_cent * 0.5
                 + Py.dict_get_default node 0%float betweenness_cent * 0.5)%float)
             combined)) [].

Definition suggestion : Type := string * string * float * string.

(** [centrality.get(n, {}).get("score_total", 0)]. *)
Definition centrality_of (centrality : Py.pydict centrality_entry) (n : string)
  : float :=
  match Py.dict_get n centrality with
  | Some entry => score_total entry
  | None => 0%float
  end.

Definition suggest_gap_filling_connections (top_n : Z) : M (list suggestion) :=
  ns <- read nodes ;;
  removed <- read removed_nodes ;;
  let node_list :=
    filter (λ n, n ∉ removed) (Py.dict_keys ns) in
  centrality <- calculate_centrality_metrics ;;
  suggestions <-
    for_loop (Py.enumerate node_list) (λ '(i, n1) suggestions,
      for_loop (drop (S i) node_list) (λ n2 suggestions,
        let pair := normalize_pair n1 n2 in
        cs <- read collaborations ;;
        if negb (Py.list_contains pair cs) then
          ns <- read nodes ;;
          info1 <- getitem ns n1 ;;
          info2 <- getitem ns n2 ;;
          let int1 := intereses info1 in
          let int2 := intereses info2 in
          let common := int1 ∩ int2 in
          if Py.truthy_set common then
            similarity <-
              int_truediv (Py.len_set common)
                          (Z.max (Py.len_set int1) (Py.len_set int2)) ;;
            let cent_bonus :=
              match centrality with
              | [] => 0%float
              | _ :: _ =>
                  let cent1 := centrality_of centrality n1 in
                  let cent2 := centrality_of centrality n2 in
                  (Py.max_float cent1 cent2 * 0.5)%float
              end in
            let total_score := (similarity + cent_bonus)%float in
            let reason :=
              ("Intereses: " ++ Py.join ", " (Py.sorted common))%string in
            ret (suggestions ++ [(n1, n2, total_score, reason)])
          else ret suggestions
        else ret suggestions) suggestions) [] ;;
  ret (Py.slice_to top_n (sort_desc (λ x, snd (fst x)) suggestions)).

End Analysis.

(** ** Handlers of the basic actions *)

Definition with_nodes (f : Py.pydict node_info → Py.pydict node_info)
  (st : State) : State :=
  mkState (f (nodes st)) (collaborations st) (removed_nodes st).

Definition with_collaborations
  (f : list (string * string) → list (string * string)) (st : State) : State :=
  mkState (nodes st) (f (collaborations st)) (removed_nodes st).

Definition with_removed_nodes (f : gset string → gset string)
  (st : State) : State :=
  mkState (nodes st) (collaborations st) (f (removed_nodes st)).

(** The message a handler ends with. *)
Inductive node_notice : Type :=
  | NodeMissingFields        (* "Campos obligatorios" *)
  | NodeSaved.               (* "Éxito" *)

Inductive add_notice : Type :=
  | AddMissingFields         (* "Campos obligatorios" *)
  | AddSameNode              (* "Seleccione dos nodos distintos." *)
  | AddUnknownNode           (* "Ambos nodos deben existir." *)
  | AddDuplicate             (* "La colaboración ya existe." *)
  | AddDone (pair : string * string).  (* "Agregado" *)

Inductive delete_notice : Type :=
  | DeleteMissingFields      (* "Campos obligatorios" *)
  | DeleteNotFound           (* "No se encontró esa colaboración." *)
  | DeleteDone (pair : string * string).  (* "Eliminado" *)

Inductive apply_notice : Type :=
  | ApplyUnknownNode         (* "Nodos no existen" *)
  | ApplyDuplicate           (* "Ya existe" *)
  | ApplyDone.               (* "Éxito" *)

Definition add_or_update_node (nombre carrera_ : string)
  (intereses_ : gset string) : M node_notice :=
  if bool_decide (nombre = "") || bool_decide (carrera_ = "")
  then ret NodeMissingFields
  else
    update (with_nodes (Py.dict_set nombre (mkInfo carrera_ intereses_))) ;;;
    update (with_removed_nodes (λ removed, removed ∖ {[nombre]})) ;;;
    ret NodeSaved.

Definition add_collaboration (n1 n2 : string) : M add_notice :=
  if bool_decide (n1 = "") || bool_decide (n2 = "") then ret AddMissingFields
  else if bool_decide (n1 = n2) then ret AddSameNode
  else
    ns <- read nodes ;;
    if negb (Py.dict_contains n1 ns) || negb (Py.dict_contains n2 ns)
    then ret AddUnknownNode
    else
      let pair := normalize_pair n1 n2 in
      cs <- read collaborations ;;
      if Py.list_contains pair cs then ret AddDuplicate
      else
        update (with_collaborations (λ cs, cs ++ [pair])) ;;;
        ret (AddDone pair).

Definition delete_collaboration (n1 n2 : string) : M delete_notice :=
  if bool_decide (n1 = "") || bool_decide (n2 = "")
  then ret DeleteMissingFields
  else
    let pair := normalize_pair n1 n2 in
    cs <- read collaborations ;;
    if negb (Py.list_contains pair cs) then ret DeleteNotFound
    else
      match Py.list_remove pair cs with
      | Some cs' =>
          update (with_collaborations (λ _, cs')) ;;;
          ret (DeleteDone pair)
      | None => raise ValueError
      end.

(** [apply_connection] of the recommendations window, on the two names of
    its entry field. *)
Definition apply_connection (n1 n2 : string) : M apply_notice :=
  ns <- read nodes ;;
  if negb (Py.dict_contains n1 ns) || negb (Py.dict_contains n2 ns)
  then ret ApplyUnknownNode
  else
    let pair := normalize_pair n1 n2 in
    cs <- read collaborations ;;
    if Py.list_contains pair cs then ret ApplyDuplicate
    else
      update (with_collaborations (λ cs, cs ++ [pair])) ;;;
      ret ApplyDone.

(** ** Handlers of the resilience window *)

Record simulation_report : Type := mkReport {
  metrics_before : metrics;
  metrics_after : metrics;
  comp_change : Z;
  edge_change : Z
}.

Inductive simulation_notice : Type :=
  | SimSelectNode            (* "Por favor seleccione un nodo." *)
  | SimUnavailable           (* "El nodo ... no está disponible." *)
  | SimDone (report : simulation_report).

Inductive restore_notice : Type :=
  | RestoreNothing
  | RestoreDone.             (* "Nodo ... restaurado." *)

Section Resilience.
Context `{Nx.Algorithms}.

Definition run_simulation (node_name : string) : M simulation_notice :=
  if bool_decide (node_name = "") then ret SimSelectNode
  else
    ns <- read nodes ;;
    removed <- read removed_nodes ;;
    if negb (Py.dict_contains node_name ns) || bool_decide (node_name ∈ removed)
    then ret SimUnavailable
    else
      G_before <- active_graph ;;
      let before := calculate_network_metrics G_before in
      update (with_removed_nodes (λ removed, {[node_name]} ∪ removed)) ;;;
      G_after <- active_graph ;;
      let after := calculate_network_metrics G_after in
      let comp := componentes after - componentes before in
      let edge := aristas before - aristas after in
      ret (SimDone (mkReport before after comp edge)).

End Resilience.

(** [removed_nodes.remove(x)] raises [KeyError] on an absent element. *)
Definition set_remove (x : string) : M unit :=
  removed <- read removed_nodes ;;
  if bool_decide (x ∈ removed)
  then update (with_removed_nodes (λ removed, removed ∖ {[x]}))
  else raise (KeyError x).

Definition restore_node (node_name : string) : M restore_notice :=
  removed <- read removed_nodes ;;
  if bool_decide (node_name ∈ removed)
  then set_remove node_name ;;; ret RestoreDone
  else ret RestoreNothing.

(** [reset_normal_mode], also run by "Cerrar y Restaurar Todo": on the graph
    state it is [removed_nodes.clear()]. *)
Definition reset_normal_mode : M unit :=
  update (with_removed_nodes (λ _, ∅)).

(** ** Example data *)

Definition example : list (string * string * list string) :=
  [ ("María", "Ing.", ["IA"; "Programación"; "Algoritmos"]);
    ("Ana", "Ing.", ["Sistemas"; "IA"; "Bases de datos"]);
    ("Luis", "Int.", ["Redes"; "Seguridad"]);
    ("Carlos", "Ing.", ["Programación"; "Web"]);
    ("Sofía", "Int.", ["Datos"; "IA"; "Estadística"]);
    ("Elena", "Med.", ["Biología"; "Genética"]);
    ("Jorge", "Adm.", ["Gestión"; "Economía"]);
    ("Pedro", "Mat.", ["Álgebra"; "Algoritmos"; "Lógica"]);
    ("Laura", "Eco.", ["Economía"; "Estadística"; "Datos"]) ]%string.

Definition seed_example_data : M unit :=
  for_loop example (λ '(nombre, carrera_, intereses_) _,
    update (with_nodes
      (Py.dict_set nombre (mkInfo carrera_ (list_to_set intereses_))))) tt ;;;
  for_loop [("Ana", "María"); ("Carlos", "María"); ("Sofía", "Ana");
            ("Pedro", "María")]%string (λ '(a, b) _,
    update (with_collaborations (λ cs, cs ++ [normalize_pair a b]))) tt.

(** The state when the window opens: the module-level initial values, then
    [seed_example_data()]. *)
Definition empty_state : State := mkState [] [] ∅.

Definition initial_state : State := snd (seed_example_data empty_state).

(** ** Runs of the program

    What a user can do to the graph state, one handler call at a time. *)

Inductive action : Type :=
  | DoAddOrUpdateNode (nombre carrera_ : string) (intereses_ : gset string)
  | DoAddCollaboration (n1 n2 : string)
  | DoDeleteCollaboration (n1 n2 : string)
  | DoApplyConnection (n1 n2 : string)
  | DoRunSimulation (node_name : string)
  | DoRestoreNode (node_name : string)
  | DoResetNormalMode.

Section Runs.
Context `{Nx.Algorithms}.

Definition perform (a : action) (st : State) : State :=
  match a with
  | DoAddOrUpdateNode nombre carrera_ intereses_ =>
      snd (add_or_update_node nombre carrera_ intereses_ st)
  | DoAddCollaboration n1 n2 => snd (add_collaboration n1 n2 st)
  | DoDeleteCollaboration n1 n2 => snd (delete_collaboration n1 n2 st)
  | DoApplyConnection n1 n2 => snd (apply_connection n1 n2 st)
  | DoRunSimulation node_name => snd (run_simulation node_name st)
  | DoRestoreNode node_name => snd (restore_node node_name st)
  | DoResetNormalMode => snd (reset_normal_mode st)
  end.

Inductive reachable : State → Prop :=
  | reachable_initial : reachable initial_state
  | reachable_step st a : reachable st → reachable (perform a st).

End Runs.

(** The shape every reachable state has: [nodes] has no empty name, and
    every stored collaboration is a canonical pair of stored names. *)
Record wf_state (st : State) : Prop := mkWf {
  wf_keys_nodup : NoDup (Py.dict_keys (nodes st));
  wf_names_nonempty : ""%string ∉ Py.dict_keys (nodes st);
  wf_endpoints : ∀ a b, (a, b) ∈ collaborations st →
      a ∈ Py.dict_keys (nodes st) ∧ b ∈ Py.dict_keys (nodes st);
  wf_canonical : ∀ a b, (a, b) ∈ collaborations st → Py.str_le a b = true;
  wf_collaborations_nodup : NoDup (collaborations st)
}.

(** Whether the graph of the non-removed part of the network has the edge. *)
Definition active_edge (st : State) (a b : string) : Prop :=
  ∃ G, active_graph st = (inr G, st) ∧ Nx.has_edge a b G = true.

(** ** The scores as the specification words them *)

(** "3.0 if the two disciplines differ, else 0". *)
Definition discipline_bonus (info1 info2 : node_info) : float :=
  if bool_decide (carrera info1 = carrera info2) then 0.0%float else 3.0%float.

(** "2.0 x |intersection| / |union|, 0 when both interest sets are empty". *)
Definition interest_term (int1 int2 : gset string) : float :=
  if bool_decide (int1 = ∅ ∧ int2 = ∅) then 0.0%float
  else (2.0 * (Py.float_of_int (Py.len_set (int1 ∩ int2))
             / Py.float_of_int (Py.len_set (int1 ∪ int2))))%float.

Definition interdisciplinary_score_spec (info1 info2 : node_info) : float :=
  (discipline_bonus info1 info2
   + interest_term (intereses info1) (intereses info2))%float.

(** "|common| / max(|interests1|, |interests2|) plus 0.5 x the larger of the
    two combined centralities"; [cent1], [cent2] are the two centralities. *)
Definition gap_filling_score_spec (int1 int2 : gset string)
  (cent1 cent2 : float) : float :=
  (Py.float_of_int (Py.len_set (int1 ∩ int2))
   / Py.float_of_int (Z.max (Py.len_set int1) (Py.len_set int2))
   + 0.5 * Py.max_float cent1 cent2)%float.

(** "0.5 x degree centrality plus 0.5 x betweenness centrality". *)
Definition combined_score_spec (degree betweenness : float) : float :=
  (0.5 * degree + 0.5 * betweenness)%float.

(** ** An implementation of the graph algorithms, for worked examples

    Component counting by merging labels; degree centrality as networkx
    computes it ([d * (1.0 / (n - 1))], and 1 on graphs of at most one node);
    and betweenness 0.0 for every node, which is its value on the graphs
    where no node lies between two others (no path of two edges). The
    examples call the centralities on such graphs only. *)

Module NxExamples.

Definition merge_labels (labels : Py.pydict string) (e : string * string)
  : Py.pydict string :=
  match Py.dict_get (fst e) labels, Py.dict_get (snd e) labels with
  | Some la, Some lb =>
      map (λ nl, (fst nl, if decide (snd nl = lb) then la else snd nl)) labels
  | _, _ => labels
  end.

Definition component_labels (G : Nx.Graph) : list string :=
  remove_dups
    (map snd (foldl merge_labels (map (λ n, (n, n)) (Nx.g_nodes G))
                    (Nx.g_edges G))).

Definition degree (G : Nx.Graph) (n : string) : Z :=
  Py.len_list (filter (λ e, fst e = n) (Nx.g_edges G))
  + Py.len_list (filter (λ e, snd e = n) (Nx.g_edges G)).

Definition degree_centrality (G : Nx.Graph) : Py.pydict float :=
  if Nx.number_of_nodes G <=? 1
  then map (λ n, (n, 1%float)) (Nx.g_nodes G)
  else
    let s := (1 / (Py.float_of_int (Nx.number_of_nodes G) - 1))%float in
    map (λ n, (n, (Py.float_of_int (degree G n) * s)%float)) (Nx.g_nodes G).

Definition algorithms : Nx.Algorithms := {|
  Nx.number_connected_components G := Py.len_list (component_labels G);
  Nx.degree_centrality := degree_centrality;
  Nx.betweenness_centrality G := map (λ n, (n, 0%float)) (Nx.g_nodes G)
|}.

End NxExamples.

(** ** Vocabulary of the statements *)

(** [m] runs to a value satisfying [P], raises nothing and leaves the
    state as it found it. *)
Definition returns {A} (m : M A) (st : State) (P : A → Prop) : Prop :=
  ∃ a, m st = (inr a, st) ∧ P a.

(** Every stored interest set is far below the sizes at which Python's
    [int / int] stops being the quotient of the two conversions. *)
Definition small_interests (st : State) : Prop :=
  ∀ n info, Py.dict_get n (nodes st) = Some info →
    Py.len_set (intereses info) < 2 ^ 52.

(** A binary64 value that is a zero, a positive number or [+inf]. *)
Definition sf_nonneg (x : spec_float) : bool :=
  match x with
  | S754_zero _ => true
  | S754_infinity s => negb s
  | S754_finite s _ _ => negb s
  | S754_nan => false
  end.

(** [x] is [sx] times a magnitude: a signed zero, number or infinity. *)
Definition sf_signed (sx : bool) (x : spec_float) : Prop :=
  match x with
  | S754_zero s | S754_infinity s | S754_finite s _ _ => s = sx
  | S754_nan => False
  end.

(** The state after simulating the removal of Ana and then of María. *)
Definition two_removed : State :=
  perform (H := NxExamples.algorithms) (DoRunSimulation "María")
    (perform (H := NxExamples.algorithms) (DoRunSimulation "Ana") initial_state).

(** The state after simulating the removal of Elena. *)
Definition elena_removed : State :=
  perform (H := NxExamples.algorithms) (DoRunSimulation "Elena") initial_state.

(** Three people and one collaboration: A works with B and shares an
    interest with C. *)
Definition trio : State :=
  mkState
    [("A", mkInfo "Ing." {["IA"; "Datos"]});
     ("B", mkInfo "Int." {["IA"]});
     ("C", mkInfo "Med." {["Datos"]})]%string
    [("A", "B")]%string
    ∅.

(** A path A - B - C - D of four people. *)
Definition path4 : State :=
  mkState
    [("A", mkInfo "Ing." ∅); ("B", mkInfo "Ing." ∅);
     ("C", mkInfo "Ing." ∅); ("D", mkInfo "Ing." ∅)]%string
    [("A", "B"); ("B", "C"); ("C", "D")]%string
    ∅.

(** What holds of every entry [recommend_interdisciplinary_connections]
    collects: two stored names that are not yet a collaboration, with their
    positive score. *)
Definition recommended (st : State) (r : recommendation) : Prop :=
  let '(n1, n2, score) := r in
  n1 ∈ Py.dict_keys (nodes st)
  ∧ n2 ∈ Py.dict_keys (nodes st)
  ∧ (normalize_pair n1 n2 ∉ collaborations st)
  ∧ calculate_interdisciplinary_score n1 n2 st = (inr score, st)
  ∧ (0 <? score)%float = true.

(** What holds of every entry [suggest_gap_filling_connections] collects,
    given the centrality mapping it computed: two stored, non-removed names
    that are not yet a collaboration and share an interest, scored and
    explained as the specification says. *)
Definition suggested (st : State) (centrality : Py.pydict centrality_entry)
  (s : suggestion) : Prop :=
  let '(n1, n2, score, reason) := s in
  (n1 ∈ Py.dict_keys (nodes st) ∧ n1 ∉ removed_nodes st)
  ∧ (n2 ∈ Py.dict_keys (nodes st) ∧ n2 ∉ removed_nodes st)
  ∧ (normalize_pair n1 n2 ∉ collaborations st)
  ∧ ∃ info1 info2,
      Py.dict_get n1 (nodes st) = Some info1
      ∧ Py.dict_get n2 (nodes st) = Some info2
      ∧ intereses info1 ∩ intereses info2 ≠ ∅
      ∧ score = gap_filling_score_spec (intereses info1) (intereses info2)
                  (centrality_of centrality n1) (centrality_of centrality n2)
      ∧ reason = ("Intereses: "
                  ++ Py.join ", "
                       (Py.sorted (intereses info1 ∩ intereses info2)))%string.

(** The value [active_graph] computes, as a fold over the stored names and
    then over the stored collaborations. *)
Definition keep_node (removed : gset string) (G : Nx.Graph) (n : string)
  : Nx.Graph :=
  if negb (bool_decide (n ∈ removed)) then Nx.add_node n G else G.

Definition keep_edge (removed : gset string) (G : Nx.Graph)
  (e : string * string) : Nx.Graph :=
  if negb (bool_decide (e.1 ∈ removed)) && negb (bool_decide (e.2 ∈ removed))
  then Nx.add_edge e.1 e.2 G else G.

Definition active_graph_of (st : State) : Nx.Graph :=
  foldl (keep_edge (removed_nodes st))
    (foldl (keep_node (removed_nodes st)) Nx.empty (Py.dict_keys (nodes st)))
    (collaborations st).

(** The stored names that are not removed, in insertion order. *)
Definition active_names (st : State) : list string :=
  filter (λ n, n ∉ removed_nodes st) (Py.dict_keys (nodes st)).

(** How many stored pairs stand for the undirected edge between [a] and
    [b], in either order. *)
Definition edge_count (a b : string) (cs : list (string * string)) : nat :=
  length (filter (λ e, e = (a, b) ∨ e = (b, a)) cs).

(** The two ways of passing the names [a] and [b] to a handler. *)
Definition either_order (a b : string) (p : string * string) : Prop :=
  p = (a, b) ∨ p = (b, a).

(** ** Vocabulary of the further properties *)

(** The stored collaborations whose two ends are both not removed. *)
Definition active_collaborations (st : State) : list (string * string) :=
  filter (λ e, (e.1 ∉ removed_nodes st) ∧ (e.2 ∉ removed_nodes st))
    (collaborations st).

(** The pair has [x] as one of its ends. *)
Definition touches (x : string) (e : string * string) : Prop :=
  e.1 = x ∨ e.2 = x.

(** The value [calculate_interdisciplinary_score] returns. *)
Definition score_value (st : State) (n1 n2 : string) : float :=
  match Py.dict_get n1 (nodes st), Py.dict_get n2 (nodes st) with
  | Some info1, Some info2 => interdisciplinary_score_spec info1 info2
  | _, _ => 0%float
  end.

(** What the two nested loops of the ranking functions collect: the entries
    [g n1 n2] for the names [n1] before [n2] in [l], in loop order. *)
Definition pair_loop {A} (l : list string) (g : string → string → list A)
  : list A :=
  Py.enumerate l ≫= λ '(i, n1), drop (S i) l ≫= g n1.

(** The entry, if any, that [recommend_interdisciplinary_connections]
    appends for the names [n1], [n2]. *)
Definition recommendation_for (st : State) (n1 n2 : string)
  : list recommendation :=
  if negb (Py.list_contains (normalize_pair n1 n2) (collaborations st))
     && (0 <? score_value st n1 n2)%float
  then [(n1, n2, score_value st n1 n2)] else [].

(** The entry, if any, that [suggest_gap_filling_connections] appends for
    the names [n1], [n2], given the centrality mapping. *)
Definition suggestion_for (st : State) (centrality : Py.pydict centrality_entry)
  (n1 n2 : string) : list suggestion :=
  match Py.dict_get n1 (nodes st), Py.dict_get n2 (nodes st) with
  | Some info1, Some info2 =>
      if negb (Py.list_contains (normalize_pair n1 n2) (collaborations st))
         && Py.truthy_set (intereses info1 ∩ intereses info2)
      then [(n1, n2,
             (Py.float_of_int (Py.len_set (intereses info1 ∩ intereses info2))
              / Py.float_of_int (Z.max (Py.len_set (intereses info1))
                                       (Py.len_set (intereses info2)))
              + match centrality with
                | [] => 0
                | _ :: _ =>
                    Py.max_float (centrality_of centrality n1)
                      (centrality_of centrality n2) * 0.5
                end)%float,
             ("Intereses: "
              ++ Py.join ", "
                   (Py.sorted (intereses info1 ∩ intereses info2)))%string)]
      else []
  | _, _ => []
  end.

(** No entry has a smaller score than a later one. *)
Definition descending {A} (key : A → float) (l : list A) : Prop :=
  StronglySorted (λ x y, (key x <? key y)%float = false) l.


(** Only stored names are marked as removed. *)
Definition removed_stored (st : State) : Prop :=
  ∀ x, x ∈ removed_nodes st → x ∈ Py.dict_keys (nodes st).

Section CentralityValue.
Context `{Nx.Algorithms}.

(** The mapping [calculate_centrality_metrics] returns. *)
Definition centrality_value (st : State) : Py.pydict centrality_entry :=
  let G := active_graph_of st in
  if (Nx.number_of_nodes G =? 0) || (Nx.number_of_edges G =? 0) then []
  else map (λ node,
         (node,
          mkCentrality
            (Py.dict_get_default node 0%float (Nx.degree_centrality G))
            (Py.dict_get_default node 0%float (Nx.betweenness_centrality G))
            (Py.dict_get_default node 0%float (Nx.degree_centrality G) * 0.5
             + Py.dict_get_default node 0%float (Nx.betweenness_centrality G)
               * 0.5)%float))
         (Nx.g_nodes G).

(** The library's two centralities give no negative number and no NaN on
    the active graph. *)
Definition centralities_nonneg (st : State) : Prop :=
  Forall (λ kv, sf_nonneg (Prim2SF kv.2) = true)
    (Nx.degree_centrality (active_graph_of st))
  ∧ Forall (λ kv, sf_nonneg (Prim2SF kv.2) = true)
      (Nx.betweenness_centrality (active_graph_of st)).

End CentralityValue.

(** Four people and one collaboration: A works with B; A, C and D share
    interests in several ways. *)
Definition quartet : State :=
  mkState
    [("A", mkInfo "Ing." {["IA"; "Datos"]});
     ("B", mkInfo "Int." {["IA"]});
     ("C", mkInfo "Med." {["Datos"]});
     ("D", mkInfo "Mat." {["IA"; "Datos"; "Web"]})]%string
    [("A", "B")]%string
    ∅.

(** * Properties *)

(** ** The monad *)

Lemma bind_inr {A B} (m : M A) (k : A → M B) st a st' :
  m st = (inr a, st') → bind m k st = k a st'.
Proof. intros Hm. unfold bind. by rewrite Hm. Qed.

Lemma returns_ret {A} (a : A) st (P : A → Prop) : P a → returns (ret a) st P.
Proof. intros HP. by exists a. Qed.

Lemma returns_read {A} (f : State → A) st (P : A → Prop) :
  P (f st) → returns (read f) st P.
Proof. intros HP. by exists (f st). Qed.

Lemma returns_bind {A B} (m : M A) (k : A → M B) st
    (P : A → Prop) (Q : B → Prop) :
  returns m st P → (∀ a, P a → returns (k a) st Q) → returns (bind m k) st Q.
Proof.
  intros (a & Hm & HP) Hk.
  destruct (Hk a HP) as (b & Hb & HQ).
  exists b. split; [|done]. by rewrite (bind_inr _ _ _ _ _ Hm).
Qed.

Lemma returns_read_bind {A B} (f : State → A) (k : A → M B) st
    (Q : B → Prop) :
  returns (k (f st)) st Q → returns (bind (read f) k) st Q.
Proof.
  intros Hk. apply (returns_bind _ _ _ (λ a, a = f st)).
  - by apply returns_read.
  - by intros a ->.
Qed.

Lemma returns_self {A} (m : M A) st (P : A → Prop) :
  returns m st P → returns m st (λ a, m st = (inr a, st) ∧ P a).
Proof. intros (a & Hm & HP). by exists a. Qed.

Lemma returns_weaken {A} (m : M A) st (P Q : A → Prop) :
  returns m st P → (∀ a, P a → Q a) → returns m st Q.
Proof. intros (a & Hm & HP) HPQ. exists a. eauto. Qed.

Lemma returns_state {A} (m : M A) st (P : A → Prop) :
  returns m st P → snd (m st) = st.
Proof. intros (a & Hm & _). by rewrite Hm. Qed.

(** A loop whose body keeps [Inv] and the state keeps both. *)
Lemma returns_for_loop {A B} (Inv : B → Prop) (l : list A)
    (body : A → B → M B) (acc : B) st :
  Inv acc →
  (∀ x b, x ∈ l → Inv b → returns (body x b) st Inv) →
  returns (for_loop l body acc) st Inv.
Proof.
  revert acc. induction l as [|x l IH]; intros acc Hacc Hbody; simpl.
  - by apply returns_ret.
  - eapply returns_bind.
    + apply Hbody; [left | done].
    + intros b Hb. apply IH; [done|].
      intros y b' Hy. apply Hbody. by right.
Qed.

(** A loop whose body only computes is a fold. *)
Lemma for_loop_pure {A B} (l : list A) (body : A → B → M B)
    (f : B → A → B) (acc : B) st :
  (∀ x b, x ∈ l → body x b st = (inr (f b x), st)) →
  for_loop l body acc st = (inr (foldl f acc l), st).
Proof.
  revert acc. induction l as [|x l IH]; intros acc Hbody; simpl; [done|].
  rewrite (bind_inr _ _ _ _ _ (Hbody x acc ltac:(left))).
  apply IH. intros y b Hy. apply Hbody. by right.
Qed.

(** ** Binary64 arithmetic

    Signs of sums, products and quotients, read off the specification of
    the primitive operations. *)

Lemma SF64mul_comm x y : SF64mul x y = SF64mul y x.
Proof.
  destruct x as [sx|sx| |sx mx ex], y as [sy|sy| |sy my ey]; simpl;
    rewrite ?(xorb_comm sx sy); try reflexivity.
  by rewrite (Pos.mul_comm mx my), (Z.add_comm ex ey).
Qed.

Lemma float_mul_comm (x y : float) : (x * y)%float = (y * x)%float.
Proof. apply Prim2SF_inj. by rewrite !FloatAxioms.mul_spec, SF64mul_comm. Qed.

Lemma iter_pos_inv {A} (P : A → Prop) (f : A → A) :
  (∀ x, P x → P (f x)) → ∀ n x, P x → P (SpecFloat.iter_pos f n x).
Proof.
  intros Hf n. induction n as [n IH|n IH|]; intros x Hx; simpl; auto.
Qed.

Lemma shr_1_nonneg mrs : 0 ≤ shr_m mrs → 0 ≤ shr_m (shr_1 mrs).
Proof.
  destruct mrs as [m r s]. simpl.
  destruct m as [|[p|p|]|[p|p|]]; simpl; lia.
Qed.

Lemma shr_nonneg mrs e n : 0 ≤ shr_m mrs → 0 ≤ shr_m (fst (shr mrs e n)).
Proof.
  intros Hm. destruct n as [|p|p]; simpl; try done.
  by apply iter_pos_inv; [apply shr_1_nonneg|].
Qed.

Lemma shr_fexp_nonneg p e m ex l :
  0 ≤ m → 0 ≤ shr_m (fst (shr_fexp p e m ex l)).
Proof.
  intros Hm. unfold shr_fexp. apply shr_nonneg.
  by destruct l as [|[]].
Qed.

Lemma round_nearest_even_nonneg m l : 0 ≤ m → 0 ≤ round_nearest_even m l.
Proof.
  intros Hm. destruct l as [|[]]; simpl; try done; [|lia].
  destruct (Z.even m); lia.
Qed.

Lemma binary_round_aux_signed p e sx mx ex lx :
  0 ≤ mx → sf_signed sx (binary_round_aux p e sx mx ex lx).
Proof.
  intros Hm. unfold binary_round_aux.
  pose proof (shr_fexp_nonneg p e mx ex lx Hm) as H1.
  destruct (shr_fexp p e mx ex lx) as [mrs' e']. simpl in H1.
  pose proof (shr_fexp_nonneg p e _ e' loc_Exact
    (round_nearest_even_nonneg _ (loc_of_shr_record mrs') H1)) as H2.
  destruct (shr_fexp p e (round_nearest_even _ _) e' loc_Exact) as [mrs'' e''].
  simpl in H2. destruct (shr_m mrs'') as [|m|m]; simpl; try done; try lia.
  by destruct (e'' <=? e - p).
Qed.

Lemma binary_round_signed p e sx mx ex :
  sf_signed sx (binary_round p e sx mx ex).
Proof.
  unfold binary_round. destruct (shl_align mx ex _) as [mz ez].
  by apply binary_round_aux_signed.
Qed.

Lemma binary_normalize_nonneg p e m ex :
  0 ≤ m → sf_nonneg (binary_normalize p e m ex false) = true.
Proof.
  intros Hm. destruct m as [|m|m]; simpl; [done| |lia].
  pose proof (binary_round_signed p e false m ex) as Hs.
  by destruct (binary_round p e false m ex) as [s|s| |s ? ?]; simpl in *; subst.
Qed.

Lemma sf_signed_nonneg x : sf_signed false x → sf_nonneg x = true.
Proof. by destruct x as [s|s| |s ? ?]; simpl; intros; subst. Qed.

Lemma SFdiv_core_binary_nonneg p e mx ex my ey :
  0 ≤ (SFdiv_core_binary p e (Zpos mx) ex (Zpos my) ey).1.1.
Proof.
  unfold SFdiv_core_binary.
  set (s := _ - _ - _).
  set (m' := match s with Z0 => _ | Zpos _ => _ | Zneg _ => _ end).
  assert (0 ≤ m') as Hm'.
  { subst m'. destruct s; [lia| |lia]. apply Z.shiftl_nonneg. lia. }
  pose proof (Z.div_pos m' (Zpos my) Hm' ltac:(lia)) as Hq.
  unfold Z.div in Hq. by destruct (Z.div_eucl m' (Z.pos my)) as [q r].
Qed.

(** Division of a non-negative value by a positive number. *)
Lemma SF64div_nonneg x my ey :
  sf_nonneg x = true → sf_nonneg (SF64div x (S754_finite false my ey)) = true.
Proof.
  destruct x as [s|s| |s mx ex]; simpl; try done.
  - by rewrite xorb_false_r.
  - intros Hs. apply negb_true_iff in Hs as ->.
    pose proof (SFdiv_core_binary_nonneg prec emax mx ex my ey) as Hq.
    destruct (SFdiv_core_binary prec emax (Zpos mx) ex (Zpos my) ey)
      as [[mz ez] lz]. simpl in Hq.
    apply sf_signed_nonneg. by apply binary_round_aux_signed.
Qed.

Lemma SF64mul_nonneg x my ey :
  sf_nonneg x = true → sf_nonneg (SF64mul x (S754_finite false my ey)) = true.
Proof.
  destruct x as [s|s| |s mx ex]; simpl; try done.
  - by rewrite xorb_false_r.
  - intros Hs. apply negb_true_iff in Hs as ->.
    apply sf_signed_nonneg. by apply binary_round_aux_signed.
Qed.

Lemma SF64add_nonneg x y :
  sf_nonneg x = true → sf_nonneg y = true → sf_nonneg (SF64add x y) = true.
Proof.
  destruct x as [sx|sx| |sx mx ex], y as [sy|sy| |sy my ey]; simpl; try done.
  - by destruct sx, sy.
  - by destruct sx, sy.
  - intros Hx Hy. apply negb_true_iff in Hx as ->, Hy as ->. simpl.
    apply sf_signed_nonneg, binary_round_signed.
Qed.

Lemma sf_nonneg_leb x : sf_nonneg x = true → SFleb (S754_zero false) x = true.
Proof. by destruct x as [s|[]| |[] ? ?]. Qed.

(** A value that is not NaN equals itself under [==]. *)
Lemma float_eqb_refl (x : float) :
  sf_nonneg (Prim2SF x) = true → (x =? x)%float = true.
Proof.
  rewrite FloatAxioms.eqb_spec. unfold SFeqb.
  destruct (Prim2SF x) as [s|[]| |[] m e]; simpl; try done.
  by rewrite Z.compare_refl, Pos.compare_cont_refl.
Qed.

Lemma digits2_pos_bound m n :
  0 ≤ n → Zpos m < 2 ^ n → Zpos (digits2_pos m) ≤ n.
Proof.
  revert n. induction m as [m IH|m IH|]; intros n Hn Hm; simpl.
  - assert (n ≠ 0) by (intros ->; simpl in Hm; lia).
    replace n with (Z.succ (n - 1)) in Hm by lia.
    rewrite Z.pow_succ_r in Hm by lia.
    specialize (IH (n - 1)). rewrite Pos2Z.inj_succ. lia.
  - assert (n ≠ 0) by (intros ->; simpl in Hm; lia).
    replace n with (Z.succ (n - 1)) in Hm by lia.
    rewrite Z.pow_succ_r in Hm by lia.
    specialize (IH (n - 1)). rewrite Pos2Z.inj_succ. lia.
  - destruct (decide (n = 0)) as [->|]; [simpl in Hm; lia|lia].
Qed.

Lemma digits2_pos_iter_xO m k :
  Zpos (digits2_pos (Pos.iter xO m k)) = Zpos (digits2_pos m) + Zpos k.
Proof.
  induction k as [|k IH] using Pos.peano_ind.
  - simpl. rewrite Pos2Z.inj_succ. lia.
  - rewrite Pos.iter_succ. simpl. rewrite !Pos2Z.inj_succ, IH. lia.
Qed.

(** A full-width mantissa in the exponent range is kept as it is. *)
Lemma binary_round_aux_canonical mz ez :
  Zpos (digits2_pos mz) = 53 → -1074 ≤ ez ≤ 971 →
  binary_round_aux prec emax false (Zpos mz) ez loc_Exact
  = S754_finite false mz ez.
Proof.
  intros Hd He.
  assert (∀ l, shr_fexp prec emax (Zpos mz) ez l
               = (shr_record_of_loc (Zpos mz) l, ez)) as Hshr.
  { intros l. unfold shr_fexp.
    replace (fexp prec emax (Zdigits2 (Zpos mz) + ez) - ez) with 0; [done|].
    unfold fexp, emin, prec, emax. simpl Zdigits2. lia. }
  unfold binary_round_aux. rewrite Hshr. simpl. rewrite Hshr. simpl.
  replace (ez <=? emax - prec) with true; [done|].
  symmetry. apply Z.leb_le. unfold emax, prec. lia.
Qed.

(** An integer from 1 to [2^53 - 1] converts to a positive number. *)
Lemma binary_round_exact m :
  Zpos m < 2 ^ 53 →
  ∃ mz ez, binary_round prec emax false m 0 = S754_finite false mz ez.
Proof.
  intros Hm.
  pose proof (digits2_pos_bound m 53 ltac:(lia) Hm) as Hd.
  assert (0 < Zpos (digits2_pos m)) as Hd0 by lia.
  unfold binary_round.
  replace (fexp prec emax (Zpos (digits2_pos m) + 0))
    with (Zpos (digits2_pos m) - 53)
    by (unfold fexp, emin, prec, emax; lia).
  unfold shl_align.
  destruct (Zpos (digits2_pos m) - 53 - 0) as [|k|k] eqn:Hk; try lia.
  - eexists _, _. apply binary_round_aux_canonical; lia.
  - eexists _, _. apply binary_round_aux_canonical; [|lia].
    rewrite digits2_pos_iter_xO. lia.
Qed.

Lemma float_of_int_nonneg z :
  sf_nonneg (Prim2SF (Py.float_of_int z)) = true.
Proof.
  unfold Py.float_of_int. rewrite of_uint63_spec.
  apply binary_normalize_nonneg.
  pose proof (Uint63.to_Z_bounded (Uint63.of_Z z)). lia.
Qed.

Lemma float_of_int_positive z :
  0 < z < 2 ^ 53 →
  ∃ mz ez, Prim2SF (Py.float_of_int z) = S754_finite false mz ez.
Proof.
  intros Hz. unfold Py.float_of_int. rewrite of_uint63_spec.
  rewrite Uint63.of_Z_spec, Z.mod_small.
  - destruct z as [|m|m]; try lia. simpl. apply binary_round_exact. lia.
  - change wB with (2 ^ 63). split; [lia|].
    apply Z.lt_trans with (2 ^ 53); [lia|]. by apply Z.pow_lt_mono_r.
Qed.

(** ** Sets and dictionaries *)

Lemma truthy_set_false s : Py.truthy_set s = false ↔ s = ∅.
Proof.
  unfold Py.truthy_set, Py.len_set. rewrite negb_false_iff, Z.eqb_eq.
  rewrite <- (leibniz_equiv_iff s ∅), <- size_empty_iff. lia.
Qed.

Lemma truthy_set_true s : Py.truthy_set s = true ↔ s ≠ ∅.
Proof.
  rewrite <- truthy_set_false. destruct (Py.truthy_set s); naive_solver.
Qed.

Lemma len_set_pos s : s ≠ ∅ → 0 < Py.len_set s.
Proof.
  intros Hs. unfold Py.len_set.
  assert (size s ≠ 0%nat)
    by (rewrite size_non_empty_iff; by rewrite leibniz_equiv_iff).
  lia.
Qed.

Lemma dict_contains_true {V} k (d : Py.pydict V) :
  Py.dict_contains k d = true ↔ k ∈ Py.dict_keys d.
Proof.
  unfold Py.dict_contains, Py.dict_keys.
  induction d as [|[k' v] d IH]; simpl.
  - split; [done|]. by rewrite elem_of_nil.
  - rewrite elem_of_cons. destruct (decide (k = k')) as [->|Hk].
    + split; [by left | done].
    + rewrite IH. split; [by right | by intros [? | ?]].
Qed.

Lemma dict_get_is_Some {V} k (d : Py.pydict V) :
  is_Some (Py.dict_get k d) ↔ k ∈ Py.dict_keys d.
Proof.
  rewrite <- dict_contains_true. unfold Py.dict_contains.
  destruct (Py.dict_get k d); split; try done; by eauto.
Qed.

(** ** The interdisciplinary score *)

Lemma score_unknown n1 n2 st :
  Py.dict_get n1 (nodes st) = None ∨ Py.dict_get n2 (nodes st) = None →
  calculate_interdisciplinary_score n1 n2 st = (inr 0%float, st).
Proof.
  intros Hn. unfold calculate_interdisciplinary_score, bind, read, ret.
  unfold Py.dict_contains.
  destruct Hn as [-> | ->]; [done|].
  by destruct (Py.dict_get n1 (nodes st)).
Qed.

Lemma score_known n1 n2 st info1 info2 :
  Py.dict_get n1 (nodes st) = Some info1 →
  Py.dict_get n2 (nodes st) = Some info2 →
  calculate_interdisciplinary_score n1 n2 st
  = (inr (interdisciplinary_score_spec info1 info2), st).
Proof.
  intros H1 H2.
  unfold calculate_interdisciplinary_score, bind, read, getitem, ret.
  unfold Py.dict_contains. rewrite H1, H2. simpl.
  unfold interdisciplinary_score_spec, discipline_bonus, interest_term.
  destruct (decide (intereses info1 = ∅ ∧ intereses info2 = ∅)) as [[E1 E2]|Hne].
  - rewrite (proj2 (truthy_set_false _) E1), (proj2 (truthy_set_false _) E2).
    rewrite (bool_decide_eq_true_2 (_ ∧ _)) by done. simpl.
    by repeat case_bool_decide.
  - assert (intereses info1 ∪ intereses info2 ≠ ∅) as Hu
      by (intros Hu; apply Hne; set_solver).
    pose proof (len_set_pos _ Hu) as Hpos.
    replace (Py.truthy_set (intereses info1) || Py.truthy_set (intereses info2))
      with true.
    2: { symmetry. apply orb_true_iff. rewrite !truthy_set_true.
         destruct (decide (intereses info1 = ∅)); [right|left]; naive_solver. }
    rewrite (bool_decide_eq_false_2 (_ ∧ _)) by done.
    replace (0 <? Py.len_set (intereses info1 ∪ intereses info2))
      with true by (symmetry; apply Z.ltb_lt; lia).
    unfold int_truediv, ret.
    replace (Py.len_set (intereses info1 ∪ intereses info2) =? 0)
      with false by (symmetry; apply Z.eqb_neq; lia).
    rewrite (float_mul_comm _ 2).
    by repeat case_bool_decide.
Qed.

Lemma len_union_small (s1 s2 : gset string) :
  Py.len_set s1 < 2 ^ 52 → Py.len_set s2 < 2 ^ 52 →
  Py.len_set (s1 ∪ s2) < 2 ^ 53.
Proof.
  unfold Py.len_set. intros H1 H2.
  pose proof (size_union_alt s1 s2) as Hu.
  assert (size (s2 ∖ s1) ≤ size s2)%nat as Hd.
  { apply subseteq_size. intros x. rewrite elem_of_difference. tauto. }
  change (2 ^ 53) with (2 ^ 52 + 2 ^ 52). lia.
Qed.

Lemma interest_term_nonneg (int1 int2 : gset string) :
  Py.len_set (int1 ∪ int2) < 2 ^ 53 →
  sf_nonneg (Prim2SF (interest_term int1 int2)) = true.
Proof.
  intros Hsmall. unfold interest_term. case_bool_decide as Hempty; [done|].
  assert (int1 ∪ int2 ≠ ∅) as Hu by (intros Hu; apply Hempty; set_solver).
  pose proof (len_set_pos _ Hu) as Hpos.
  assert (0 < Py.len_set (int1 ∪ int2) < 2 ^ 53) as Hrange by lia.
  destruct (float_of_int_positive _ Hrange) as (mu & eu & Hfu).
  rewrite FloatAxioms.mul_spec, SF64mul_comm, FloatAxioms.div_spec, Hfu.
  change (Prim2SF 2) with (S754_finite false 4503599627370496 (-51)).
  apply SF64mul_nonneg, SF64div_nonneg, float_of_int_nonneg.
Qed.

Lemma score_spec_sf_nonneg info1 info2 :
  Py.len_set (intereses info1 ∪ intereses info2) < 2 ^ 53 →
  sf_nonneg (Prim2SF (interdisciplinary_score_spec info1 info2)) = true.
Proof.
  intros Hsmall.
  unfold interdisciplinary_score_spec. rewrite FloatAxioms.add_spec.
  apply SF64add_nonneg; [|by apply interest_term_nonneg].
  unfold discipline_bonus. by case_bool_decide.
Qed.

Lemma score_spec_nonneg info1 info2 :
  Py.len_set (intereses info1 ∪ intereses info2) < 2 ^ 53 →
  (0 <=? interdisciplinary_score_spec info1 info2)%float = true.
Proof.
  intros Hsmall. rewrite FloatAxioms.leb_spec.
  change (Prim2SF 0) with (S754_zero false).
  by apply sf_nonneg_leb, score_spec_sf_nonneg.
Qed.

Lemma discipline_bonus_comm info1 info2 :
  discipline_bonus info1 info2 = discipline_bonus info2 info1.
Proof. unfold discipline_bonus. repeat case_bool_decide; congruence. Qed.

Lemma interest_term_comm (int1 int2 : gset string) :
  interest_term int1 int2 = interest_term int2 int1.
Proof.
  unfold interest_term.
  rewrite (comm_L (∩) int1 int2), (comm_L (∪) int1 int2).
  repeat case_bool_decide; try done; exfalso; tauto.
Qed.

(** C2. [calculate_interdisciplinary_score] returns 0.0 when either name is
    not a key of [nodes]; for two stored people it returns the discipline
    bonus (3.0 for different disciplines, else 0) plus 2.0 times the Jaccard
    similarity of the interest sets, the interest term being 0 when both sets
    are empty; it never raises (no division by zero), leaves the state alone,
    and its result is at least 0. *)
Theorem interdisciplinary_score_correct (n1 n2 : string) (st : State) :
  (Py.dict_get n1 (nodes st) = None ∨ Py.dict_get n2 (nodes st) = None →
   calculate_interdisciplinary_score n1 n2 st = (inr 0%float, st))
  ∧ (∀ info1 info2,
       Py.dict_get n1 (nodes st) = Some info1 →
       Py.dict_get n2 (nodes st) = Some info2 →
       calculate_interdisciplinary_score n1 n2 st
       = (inr (interdisciplinary_score_spec info1 info2), st))
  ∧ (small_interests st →
     returns (calculate_interdisciplinary_score n1 n2) st
       (λ score, (0 <=? score)%float = true)).
Proof.
  split; [apply score_unknown|]. split; [apply score_known|].
  intros Hsmall.
  destruct (Py.dict_get n1 (nodes st)) as [info1|] eqn:H1;
    [destruct (Py.dict_get n2 (nodes st)) as [info2|] eqn:H2|].
  - exists (interdisciplinary_score_spec info1 info2).
    split; [by apply score_known|].
    apply score_spec_nonneg, len_union_small; by eapply Hsmall.
  - exists 0%float. split; [|done]. apply score_unknown. by right.
  - exists 0%float. split; [|done]. apply score_unknown. by left.
Qed.

(** C7. The interdisciplinary score is symmetric in its two names: the two
    calls end alike, and their results (never NaN for interest sets of the
    sizes [small_interests] allows) compare equal with [==]. *)
Theorem interdisciplinary_score_symmetric (n1 n2 : string) (st : State) :
  calculate_interdisciplinary_score n1 n2 st
  = calculate_interdisciplinary_score n2 n1 st
  ∧ (small_interests st →
     ∃ s12 s21,
       calculate_interdisciplinary_score n1 n2 st = (inr s12, st)
       ∧ calculate_interdisciplinary_score n2 n1 st = (inr s21, st)
       ∧ (s12 =? s21)%float = true).
Proof.
  destruct (Py.dict_get n1 (nodes st)) as [info1|] eqn:H1;
    [destruct (Py.dict_get n2 (nodes st)) as [info2|] eqn:H2|].
  - rewrite (score_known _ _ _ _ _ H1 H2), (score_known _ _ _ _ _ H2 H1).
    assert (interdisciplinary_score_spec info2 info1
            = interdisciplinary_score_spec info1 info2) as ->.
    { unfold interdisciplinary_score_spec.
      by rewrite discipline_bonus_comm, interest_term_comm. }
    split; [done|]. intros Hsmall. eexists _, _. do 2 (split; [done|]).
    apply float_eqb_refl, score_spec_sf_nonneg, len_union_small;
      by eapply Hsmall.
  - rewrite !score_unknown by auto. split; [done|]. intros _.
    by exists 0%float, 0%float.
  - rewrite !score_unknown by auto. split; [done|]. intros _.
    by exists 0%float, 0%float.
Qed.

(** ** Sorting and slicing keep the elements *)

Lemma elem_of_insert_desc {A} (key : A → float) x y l :
  x ∈ insert_desc key y l ↔ x = y ∨ x ∈ l.
Proof.
  induction l as [|z l IH]; simpl.
  - by rewrite list_elem_of_singleton, elem_of_nil; intuition.
  - destruct (key y <? key z)%float.
    + rewrite !elem_of_cons, IH. intuition.
    + rewrite !elem_of_cons. intuition.
Qed.

Lemma elem_of_sort_desc {A} (key : A → float) x l :
  x ∈ sort_desc key l ↔ x ∈ l.
Proof.
  unfold sort_desc. induction l as [|y l IH]; simpl; [done|].
  by rewrite elem_of_insert_desc, IH, elem_of_cons.
Qed.

Lemma elem_of_slice_to {A} n (l : list A) x : x ∈ Py.slice_to n l → x ∈ l.
Proof.
  unfold Py.slice_to. destruct (0 <=? n); apply subseteq_take.
Qed.

Lemma elem_of_enumerate {A} (l : list A) i x :
  (i, x) ∈ Py.enumerate l → x ∈ l.
Proof. unfold Py.enumerate. apply elem_of_zip_r. Qed.

Lemma elem_of_drop {A} n (l : list A) x : x ∈ drop n l → x ∈ l.
Proof. apply subseteq_drop. Qed.

(** ** Graphs built by [add_node] and [add_edge] *)

Lemma has_node_true n G : Nx.has_node n G = true ↔ n ∈ Nx.g_nodes G.
Proof. unfold Nx.has_node, Py.list_contains. apply bool_decide_eq_true. Qed.

Lemma add_node_present n G : n ∈ Nx.g_nodes G → Nx.add_node n G = G.
Proof.
  intros Hn. unfold Nx.add_node. by rewrite (proj2 (has_node_true n G) Hn).
Qed.

Lemma add_node_absent n G :
  n ∉ Nx.g_nodes G →
  Nx.add_node n G = Nx.mkGraph (Nx.g_nodes G ++ [n]) (Nx.g_edges G).
Proof.
  intros Hn. unfold Nx.add_node.
  destruct (Nx.has_node n G) eqn:Hh; [|done]. by apply has_node_true in Hh.
Qed.

Lemma add_node_edges n G : Nx.g_edges (Nx.add_node n G) = Nx.g_edges G.
Proof. unfold Nx.add_node. by destruct (Nx.has_node n G). Qed.

Lemma add_node_NoDup n G :
  NoDup (Nx.g_nodes G) → NoDup (Nx.g_nodes (Nx.add_node n G)).
Proof.
  intros HG. destruct (decide (n ∈ Nx.g_nodes G)) as [Hn|Hn].
  - by rewrite add_node_present.
  - rewrite add_node_absent by done. simpl. apply NoDup_app.
    split; [done|]. split; [|apply NoDup_singleton].
    intros x Hx ->%list_elem_of_singleton. done.
Qed.

Lemma add_edge_nodes a b G :
  Nx.g_nodes (Nx.add_edge a b G) = Nx.g_nodes (Nx.add_node b (Nx.add_node a G)).
Proof. unfold Nx.add_edge. simpl. by destruct (Nx.has_edge a b _). Qed.

Lemma add_edge_nodes_present a b G :
  a ∈ Nx.g_nodes G → b ∈ Nx.g_nodes G →
  Nx.g_nodes (Nx.add_edge a b G) = Nx.g_nodes G.
Proof.
  intros Ha Hb. by rewrite add_edge_nodes, (add_node_present a), add_node_present.
Qed.

Lemma has_edge_true a b G :
  Nx.has_edge a b G = true ↔ (a, b) ∈ Nx.g_edges G ∨ (b, a) ∈ Nx.g_edges G.
Proof.
  unfold Nx.has_edge, Py.list_contains.
  by rewrite orb_true_iff, !bool_decide_eq_true.
Qed.

Lemma add_edge_has_edge a b G : Nx.has_edge a b (Nx.add_edge a b G) = true.
Proof.
  unfold Nx.add_edge. cbv zeta.
  destruct (Nx.has_edge a b (Nx.add_node b (Nx.add_node a G))) eqn:He; [done|].
  apply has_edge_true. left. simpl. apply elem_of_app. right. by left.
Qed.

Lemma add_edge_edges_incl a b G e :
  e ∈ Nx.g_edges G → e ∈ Nx.g_edges (Nx.add_edge a b G).
Proof.
  intros He. unfold Nx.add_edge. simpl.
  destruct (Nx.has_edge a b _); simpl; rewrite ?elem_of_app, !add_node_edges;
    auto.
Qed.

Lemma keep_edge_has_edge removed G e a b :
  Nx.has_edge a b G = true → Nx.has_edge a b (keep_edge removed G e) = true.
Proof.
  rewrite !has_edge_true. unfold keep_edge.
  destruct (_ && _); [|done].
  intros [He|He]; [left|right]; by apply add_edge_edges_incl.
Qed.

Lemma foldl_keep_edge_has_edge removed cs G a b :
  Nx.has_edge a b G = true →
  Nx.has_edge a b (foldl (keep_edge removed) G cs) = true.
Proof.
  revert G. induction cs as [|e cs IH]; intros G HG; simpl; [done|].
  by apply IH, keep_edge_has_edge.
Qed.

(** A stored collaboration between two non-removed names is an edge. *)
Lemma foldl_keep_edge_adds removed cs G a b :
  (a, b) ∈ cs → a ∉ removed → b ∉ removed →
  Nx.has_edge a b (foldl (keep_edge removed) G cs) = true.
Proof.
  revert G. induction cs as [|e cs IH]; intros G Hin Ha Hb; simpl.
  - by apply elem_of_nil in Hin.
  - apply elem_of_cons in Hin as [<-|Hin]; [|by apply IH].
    apply foldl_keep_edge_has_edge. unfold keep_edge. simpl.
    rewrite !bool_decide_eq_false_2 by done. simpl. apply add_edge_has_edge.
Qed.

Lemma add_edge_edges a b G x :
  x ∈ Nx.g_edges (Nx.add_edge a b G) → x ∈ Nx.g_edges G ∨ x = (a, b).
Proof.
  unfold Nx.add_edge. cbv zeta.
  destruct (Nx.has_edge a b (Nx.add_node b (Nx.add_node a G))); simpl;
    rewrite ?elem_of_app, !add_node_edges, ?list_elem_of_singleton; auto.
Qed.

Lemma keep_edge_edges removed G e x :
  x ∈ Nx.g_edges (keep_edge removed G e) →
  x ∈ Nx.g_edges G ∨ (x = e ∧ (e.1 ∉ removed) ∧ (e.2 ∉ removed)).
Proof.
  unfold keep_edge.
  destruct (decide (e.1 ∈ removed)) as [H1|H1];
    [rewrite (bool_decide_eq_true_2 _ H1); by left|].
  destruct (decide (e.2 ∈ removed)) as [H2|H2];
    [rewrite (bool_decide_eq_true_2 _ H2), andb_false_r; by left|].
  rewrite !bool_decide_eq_false_2 by done. simpl.
  intros [Hx| ->]%add_edge_edges; [by left|right].
  by destruct e.
Qed.

(** An edge of the built graph joins two non-removed names. *)
Lemma foldl_keep_edge_edges removed cs G x :
  x ∈ Nx.g_edges (foldl (keep_edge removed) G cs) →
  x ∈ Nx.g_edges G ∨ (x ∈ cs ∧ (x.1 ∉ removed) ∧ (x.2 ∉ removed)).
Proof.
  revert G. induction cs as [|e cs IH]; intros G Hin; simpl in *; [by left|].
  destruct (IH _ Hin) as [HG|(Hcs & Ha & Hb)].
  - apply keep_edge_edges in HG as [HG|(-> & H1 & H2)]; [by left|].
    right. repeat split; try done. by left.
  - right. repeat split; try done. by right.
Qed.

Lemma foldl_keep_node_edges removed l G :
  Nx.g_edges (foldl (keep_node removed) G l) = Nx.g_edges G.
Proof.
  revert G. induction l as [|n l IH]; intros G; simpl; [done|].
  rewrite IH. unfold keep_node. destruct (negb _); [|done].
  apply add_node_edges.
Qed.

Lemma foldl_keep_node_nodes removed l G :
  NoDup (Nx.g_nodes G ++ l) →
  Nx.g_nodes (foldl (keep_node removed) G l)
  = Nx.g_nodes G ++ filter (λ n, n ∉ removed) l.
Proof.
  revert G. induction l as [|n l IH]; intros G Hnd; simpl.
  - by rewrite app_nil_r.
  - pose proof Hnd as Hall.
    apply NoDup_app in Hnd as (HG & Hdisj & Hl).
    apply NoDup_cons in Hl as [Hn Hl].
    assert (n ∉ Nx.g_nodes G) as HnG
      by (intros HnG; apply (Hdisj n HnG); by left).
    unfold keep_node at 2. rewrite filter_cons.
    destruct (decide (n ∉ removed)) as [Hr|Hr].
    + rewrite bool_decide_eq_false_2 by done. simpl.
      rewrite add_node_absent by done. rewrite IH; simpl.
      * by rewrite <- app_assoc.
      * by rewrite <- app_assoc.
    + rewrite bool_decide_eq_true_2 by (by apply dec_stable). simpl.
      apply IH. apply NoDup_app. split; [done|]. split; [|done].
      intros x Hx Hin. apply (Hdisj x Hx). by right.
Qed.

Lemma foldl_keep_edge_nodes removed cs G :
  (∀ a b, (a, b) ∈ cs → a ∉ removed → b ∉ removed →
     a ∈ Nx.g_nodes G ∧ b ∈ Nx.g_nodes G) →
  Nx.g_nodes (foldl (keep_edge removed) G cs) = Nx.g_nodes G.
Proof.
  revert G. induction cs as [|[a b] cs IH]; intros G Hends; simpl; [done|].
  assert (Nx.g_nodes (keep_edge removed G (a, b)) = Nx.g_nodes G) as Hstep.
  { unfold keep_edge. simpl.
    destruct (decide (a ∈ removed)) as [Ha|Ha];
      [by rewrite (bool_decide_eq_true_2 _ Ha)|].
    destruct (decide (b ∈ removed)) as [Hb|Hb];
      [by rewrite (bool_decide_eq_true_2 _ Hb), andb_false_r|].
    rewrite !bool_decide_eq_false_2 by done. simpl.
    destruct (Hends a b ltac:(left) Ha Hb). by apply add_edge_nodes_present. }
  rewrite IH; [done|]. intros a' b' Hin Ha' Hb'. rewrite Hstep.
  apply Hends; [by right|done|done].
Qed.

(** ** The graph of the non-removed part *)

Lemma active_graph_eq st : active_graph st = (inr (active_graph_of st), st).
Proof.
  unfold active_graph, active_graph_of.
  rewrite (bind_inr _ _ st (nodes st) st) by done.
  erewrite bind_inr.
  2: { apply (for_loop_pure _ _ (keep_node (removed_nodes st))).
       intros n G _. unfold keep_node.
       rewrite (bind_inr _ _ st (removed_nodes st) st) by done.
       by destruct (negb _). }
  rewrite (bind_inr _ _ st (collaborations st) st) by done.
  apply (for_loop_pure _ _ (keep_edge (removed_nodes st))).
  intros [a b] G _. unfold keep_edge.
  rewrite (bind_inr _ _ st (removed_nodes st) st) by done.
  by destruct (_ && _).
Qed.

Lemma active_graph_nodes st :
  wf_state st → Nx.g_nodes (active_graph_of st) = active_names st.
Proof.
  intros Hwf. unfold active_graph_of, active_names.
  rewrite foldl_keep_edge_nodes.
  - rewrite foldl_keep_node_nodes; [done|]. simpl. apply Hwf.
  - intros a b Hin Ha Hb.
    rewrite foldl_keep_node_nodes by (simpl; apply Hwf). simpl.
    destruct (wf_endpoints _ Hwf a b Hin) as [Hka Hkb].
    split; by apply list_elem_of_filter.
Qed.

Lemma active_graph_edge st a b :
  (a, b) ∈ collaborations st → a ∉ removed_nodes st → b ∉ removed_nodes st →
  Nx.has_edge a b (active_graph_of st) = true.
Proof. apply foldl_keep_edge_adds. Qed.

Lemma active_graph_edges st a b :
  (a, b) ∈ Nx.g_edges (active_graph_of st) →
  (a, b) ∈ collaborations st
  ∧ (a ∉ removed_nodes st) ∧ (b ∉ removed_nodes st).
Proof.
  intros Hin. apply foldl_keep_edge_edges in Hin as [Hin|Hin]; [|done].
  rewrite foldl_keep_node_edges in Hin. by apply elem_of_nil in Hin.
Qed.

(** A removed name has no edge in the active graph. *)
Lemma removed_has_no_active_edge st x a b :
  x ∈ removed_nodes st → a = x ∨ b = x →
  (a, b) ∉ Nx.g_edges (active_graph_of st).
Proof.
  intros Hx Htouch (_ & Ha & Hb)%active_graph_edges.
  by destruct Htouch as [-> | ->].
Qed.

Lemma keep_node_NoDup removed G n :
  NoDup (Nx.g_nodes G) → NoDup (Nx.g_nodes (keep_node removed G n)).
Proof.
  intros HG. unfold keep_node. destruct (negb _); [|done].
  by apply add_node_NoDup.
Qed.

Lemma keep_edge_NoDup removed G e :
  NoDup (Nx.g_nodes G) → NoDup (Nx.g_nodes (keep_edge removed G e)).
Proof.
  intros HG. unfold keep_edge. destruct (_ && _); [|done].
  rewrite add_edge_nodes. by do 2 apply add_node_NoDup.
Qed.

Lemma foldl_NoDup {A} (f : Nx.Graph → A → Nx.Graph) l G :
  (∀ G x, NoDup (Nx.g_nodes G) → NoDup (Nx.g_nodes (f G x))) →
  NoDup (Nx.g_nodes G) → NoDup (Nx.g_nodes (foldl f G l)).
Proof.
  intros Hf. revert G. induction l as [|x l IH]; intros G HG; simpl; auto.
Qed.

Lemma active_graph_NoDup st : NoDup (Nx.g_nodes (active_graph_of st)).
Proof.
  unfold active_graph_of.
  apply foldl_NoDup; [intros; by apply keep_edge_NoDup|].
  apply foldl_NoDup; [intros; by apply keep_node_NoDup|].
  apply NoDup_nil_2.
Qed.

Lemma active_graph_returns st : returns active_graph st (λ _, True).
Proof. exists (active_graph_of st). split; [apply active_graph_eq|done]. Qed.

Section AnalysisFacts.
Context `{Nx.Algorithms}.

Lemma centrality_returns st :
  returns calculate_centrality_metrics st (λ _, True).
Proof.
  unfold calculate_centrality_metrics.
  eapply returns_bind; [apply active_graph_returns|]. intros G _.
  destruct (_ || _); [by eexists|].
  apply (returns_for_loop (λ _, True)); [done|]. intros node combined _ _.
  by eexists.
Qed.

End AnalysisFacts.

(** ** The ranked recommendations *)

Lemma score_returns n1 n2 st :
  returns (calculate_interdisciplinary_score n1 n2) st
    (λ score, calculate_interdisciplinary_score n1 n2 st = (inr score, st)).
Proof.
  destruct (Py.dict_get n1 (nodes st)) as [info1|] eqn:H1;
    [destruct (Py.dict_get n2 (nodes st)) as [info2|] eqn:H2|].
  - eexists. split; by apply score_known.
  - eexists. split; apply score_unknown; by right.
  - eexists. split; apply score_unknown; by left.
Qed.

Lemma recommend_returns top_n st :
  returns (recommend_interdisciplinary_connections top_n) st
    (λ recs, ∀ r, r ∈ recs → recommended st r).
Proof.
  unfold recommend_interdisciplinary_connections.
  apply returns_read_bind.
  eapply returns_bind.
  { apply (returns_for_loop (λ recs, ∀ r, r ∈ recs → recommended st r)).
    { intros r Hr. by apply elem_of_nil in Hr. }
    intros [i n1] recs Hn1%elem_of_enumerate Hrecs.
    apply returns_for_loop; [done|].
    intros n2 recs' Hn2%elem_of_drop Hrecs'.
    apply returns_read_bind.
    unfold Py.list_contains. case_bool_decide as Hpair; simpl;
      [by apply returns_ret|].
    eapply returns_bind; [apply score_returns|]. intros score Hscore.
    destruct (0 <? score)%float eqn:Hpos; apply returns_ret; [|done].
    intros r [Hr| ->%list_elem_of_singleton]%elem_of_app; [by apply Hrecs'|].
    by repeat split. }
  intros recs Hrecs. apply returns_ret.
  intros r Hr%elem_of_slice_to%elem_of_sort_desc. by apply Hrecs.
Qed.

(** ** The ranked gap-filling suggestions *)

Lemma getitem_returns {V} (d : Py.pydict V) k st :
  k ∈ Py.dict_keys d →
  returns (getitem d k) st (λ v, Py.dict_get k d = Some v).
Proof.
  intros [v Hv]%dict_get_is_Some. unfold getitem. rewrite Hv. by exists v.
Qed.

Lemma int_truediv_returns a b st :
  b ≠ 0 →
  returns (int_truediv a b) st
    (λ q, q = (Py.float_of_int a / Py.float_of_int b)%float).
Proof.
  intros Hb. unfold int_truediv.
  replace (b =? 0) with false by (symmetry; by apply Z.eqb_neq).
  by eexists.
Qed.

Lemma max_len_pos (int1 int2 : gset string) :
  int1 ∩ int2 ≠ ∅ → Z.max (Py.len_set int1) (Py.len_set int2) ≠ 0.
Proof.
  intros Hc. pose proof (len_set_pos _ Hc) as Hpos. unfold Py.len_set in *.
  assert (size (int1 ∩ int2) ≤ size int1)%nat
    by (apply subseteq_size, intersection_subseteq_l).
  lia.
Qed.

Section SuggestionFacts.
Context `{Nx.Algorithms}.

Lemma suggest_returns top_n st :
  ∃ centrality,
    calculate_centrality_metrics st = (inr centrality, st)
    ∧ returns (suggest_gap_filling_connections top_n) st
        (λ suggestions, ∀ s, s ∈ suggestions → suggested st centrality s).
Proof.
  destruct (returns_self _ _ _ (centrality_returns st))
    as (centrality & Hc & _).
  exists centrality. split; [done|].
  unfold suggest_gap_filling_connections.
  do 2 apply returns_read_bind.
  apply (returns_bind _ _ _ (λ c, c = centrality)); [by exists centrality|].
  intros ? ->.
  set (node_list := filter _ _).
  assert (∀ n, n ∈ node_list →
            n ∈ Py.dict_keys (nodes st) ∧ n ∉ removed_nodes st) as Hlist.
  { intros n Hn. apply list_elem_of_filter in Hn. tauto. }
  eapply returns_bind.
  { apply (returns_for_loop (λ acc, ∀ s, s ∈ acc → suggested st centrality s)).
    { intros s Hs. by apply elem_of_nil in Hs. }
    intros [i n1] acc Hn1%elem_of_enumerate%Hlist Hacc.
    apply returns_for_loop; [done|].
    intros n2 acc' Hn2%elem_of_drop%Hlist Hacc'.
    apply returns_read_bind.
    unfold Py.list_contains. case_bool_decide as Hpair; simpl;
      [by apply returns_ret|].
    apply returns_read_bind.
    eapply returns_bind; [apply getitem_returns; tauto|]. intros info1 Hi1.
    eapply returns_bind; [apply getitem_returns; tauto|]. intros info2 Hi2.
    destruct (Py.truthy_set _) eqn:Hcommon; [|by apply returns_ret].
    apply truthy_set_true in Hcommon.
    eapply returns_bind; [by apply int_truediv_returns, max_len_pos|].
    intros similarity ->. apply returns_ret.
    intros s [Hs| ->%list_elem_of_singleton]%elem_of_app; [by apply Hacc'|].
    repeat (split; [done|]). exists info1, info2.
    repeat (split; [done|]). split; [|done].
    unfold gap_filling_score_spec. f_equal.
    destruct centrality as [|entry centrality]; [done|].
    apply float_mul_comm. }
  intros suggestions Hs. apply returns_ret.
  intros s Hin%elem_of_slice_to%elem_of_sort_desc. by apply Hs.
Qed.

End SuggestionFacts.

(** C9. The two ranking queries are read-only: each call returns its list
    with the graph state (people, collaborations and removed names) exactly
    as it was before the call. *)
Theorem ranking_queries_read_only `{Nx.Algorithms} (top_n : Z) (st : State) :
  (∃ recommendations,
     recommend_interdisciplinary_connections top_n st
     = (inr recommendations, st))
  ∧ (∃ suggestions,
       suggest_gap_filling_connections top_n st = (inr suggestions, st)).
Proof.
  split.
  - destruct (recommend_returns top_n st) as (recs & Hrun & _). by exists recs.
  - destruct (suggest_returns top_n st)
      as (centrality & _ & suggestions & Hrun & _).
    by exists suggestions.
Qed.

(** The recommendations never propose an existing collaboration. *)
Lemma recommend_excludes_collaborations (top_n : Z) (st : State) :
  returns (recommend_interdisciplinary_connections top_n) st
    (λ recs, ∀ n1 n2 score,
       (n1, n2, score) ∈ recs → normalize_pair n1 n2 ∉ collaborations st).
Proof.
  eapply returns_weaken; [apply recommend_returns|].
  intros recs Hrecs n1 n2 score Hin.
  by destruct (Hrecs _ Hin) as (_ & _ & Hpair & _).
Qed.

(** The gap-filling suggestions never name a removed person. *)
Lemma suggest_excludes_removed `{Nx.Algorithms} (top_n : Z) (st : State) :
  returns (suggest_gap_filling_connections top_n) st
    (λ suggestions, ∀ n1 n2 score reason,
       (n1, n2, score, reason) ∈ suggestions →
       (n1 ∉ removed_nodes st) ∧ (n2 ∉ removed_nodes st)).
Proof.
  destruct (suggest_returns top_n st) as (centrality & _ & Hrun).
  eapply returns_weaken; [apply Hrun|].
  intros suggestions Hall n1 n2 score reason Hin.
  destruct (Hall _ Hin) as ((_ & Hr1) & (_ & Hr2) & _). done.
Qed.

Lemma elena_removed_reachable :
  reachable (H := NxExamples.algorithms) elena_removed.
Proof. apply reachable_step, reachable_initial. Qed.

(** C1, on the state reached by simulating the removal of Elena: she is in
    [removed_nodes], and [recommend_interdisciplinary_connections(8)] still
    returns a pair with her name. The returned pairs are never existing
    collaborations, but they are drawn from all stored people, removed or
    not. *)
Theorem recommend_keeps_removed_names :
  "Elena" ∈ removed_nodes elena_removed
  ∧ fst (recommend_interdisciplinary_connections 8 elena_removed)
    = inr [ ("Sofía", "Laura", 4%float);
            ("Jorge", "Laura", 3.5%float);
            ("María", "Sofía", 0x1.b333333333333p+1%float);
            ("María", "Luis", 3%float);
            ("María", "Elena", 3%float);
            ("María", "Jorge", 3%float);
            ("María", "Laura", 3%float);
            ("Ana", "Luis", 3%float) ]%string.
Proof.
  split.
  - by vm_compute.
  - by vm_compute.
Qed.

(** ** Dictionaries filled key by key *)

Lemma dict_set_absent {V} k (v : V) d :
  k ∉ Py.dict_keys d → Py.dict_set k v d = d ++ [(k, v)].
Proof.
  unfold Py.dict_keys. induction d as [|[k' v'] d IH]; simpl; [done|].
  intros Hk. apply not_elem_of_cons in Hk as [Hne Hk].
  destruct (decide (k = k')); [done|]. by rewrite IH.
Qed.

Lemma foldl_dict_set {V} (f : string → V) l d :
  NoDup (Py.dict_keys d ++ l) →
  foldl (λ acc k, Py.dict_set k (f k) acc) d l = d ++ map (λ k, (k, f k)) l.
Proof.
  revert d. induction l as [|k l IH]; intros d Hnd; simpl.
  - by rewrite app_nil_r.
  - assert (k ∉ Py.dict_keys d) as Hk.
    { apply NoDup_app in Hnd as (_ & Hdisj & _).
      intros Hin. apply (Hdisj k Hin). by left. }
    rewrite dict_set_absent by done. rewrite IH.
    + by rewrite <- app_assoc.
    + unfold Py.dict_keys in *. rewrite map_app, <- app_assoc. done.
Qed.

Lemma dict_get_map {V} (f : string → V) l k :
  k ∈ l → Py.dict_get k (map (λ k, (k, f k)) l) = Some (f k).
Proof.
  induction l as [|k' l IH]; simpl.
  - by intros ?%elem_of_nil.
  - intros Hin. destruct (decide (k = k')) as [->|Hne]; [done|].
    apply elem_of_cons in Hin as [?|Hin]; [done|]. by apply IH.
Qed.

Lemma dict_keys_map {V} (f : string → V) l :
  Py.dict_keys (map (λ k, (k, f k)) l) = l.
Proof.
  unfold Py.dict_keys. rewrite map_map. simpl. apply map_id.
Qed.

Section CentralityFacts.
Context `{Nx.Algorithms}.

(** The entry [calculate_centrality_metrics] stores for a node of [G]. *)
Lemma centrality_eq st :
  let G := active_graph_of st in
  calculate_centrality_metrics st
  = (inr (if (Nx.number_of_nodes G =? 0) || (Nx.number_of_edges G =? 0)
          then []
          else map (λ node,
                 (node,
                  mkCentrality
                    (Py.dict_get_default node 0%float (Nx.degree_centrality G))
                    (Py.dict_get_default node 0%float
                       (Nx.betweenness_centrality G))
                    (Py.dict_get_default node 0%float (Nx.degree_centrality G)
                       * 0.5
                     + Py.dict_get_default node 0%float
                         (Nx.betweenness_centrality G) * 0.5)%float))
                 (Nx.g_nodes G)), st).
Proof.
  intros G. unfold calculate_centrality_metrics.
  rewrite (bind_inr _ _ _ _ _ (active_graph_eq st)). fold G.
  destruct (_ || _); [done|].
  erewrite for_loop_pure by (intros node combined _; reflexivity).
  rewrite (foldl_dict_set
    (λ node, mkCentrality
       (Py.dict_get_default node 0%float (Nx.degree_centrality G))
       (Py.dict_get_default node 0%float (Nx.betweenness_centrality G))
       (Py.dict_get_default node 0%float (Nx.degree_centrality G) * 0.5
        + Py.dict_get_default node 0%float (Nx.betweenness_centrality G) * 0.5)
       %float)); [done|].
  simpl. apply active_graph_NoDup.
Qed.

End CentralityFacts.

(** ** Resilience simulation *)

Section ResilienceFacts.
Context `{Nx.Algorithms}.

Lemma run_simulation_select st :
  run_simulation "" st = (inr SimSelectNode, st).
Proof. done. Qed.

Lemma run_simulation_unavailable node_name st :
  node_name ≠ ""%string →
  node_name ∉ Py.dict_keys (nodes st) ∨ node_name ∈ removed_nodes st →
  run_simulation node_name st = (inr SimUnavailable, st).
Proof.
  intros Hne Hbad. unfold run_simulation.
  rewrite bool_decide_eq_false_2 by done.
  unfold bind, read. simpl.
  replace (negb (Py.dict_contains node_name (nodes st))
           || bool_decide (node_name ∈ removed_nodes st)) with true; [done|].
  symmetry. apply orb_true_iff. destruct Hbad as [Hk|Hr].
  - left. apply negb_true_iff, not_true_is_false.
    by rewrite dict_contains_true.
  - right. by apply bool_decide_eq_true.
Qed.

Lemma run_simulation_done node_name st :
  node_name ≠ ""%string →
  node_name ∈ Py.dict_keys (nodes st) →
  node_name ∉ removed_nodes st →
  let st' := with_removed_nodes (λ removed, {[node_name]} ∪ removed) st in
  let before := calculate_network_metrics (active_graph_of st) in
  let after := calculate_network_metrics (active_graph_of st') in
  run_simulation node_name st
  = (inr (SimDone (mkReport before after
                     (componentes after - componentes before)
                     (aristas before - aristas after))), st').
Proof.
  intros Hne Hk Hr st' before after. unfold run_simulation.
  rewrite bool_decide_eq_false_2 by done.
  rewrite (bind_inr _ _ st (nodes st) st) by done.
  rewrite (bind_inr _ _ st (removed_nodes st) st) by done.
  rewrite (proj2 (dict_contains_true _ _) Hk).
  rewrite bool_decide_eq_false_2 by done. simpl.
  rewrite (bind_inr _ _ _ _ _ (active_graph_eq st)).
  rewrite (bind_inr _ _ st tt st') by done.
  by rewrite (bind_inr _ _ _ _ _ (active_graph_eq st')).
Qed.

(** C8. For a graph without nodes [calculate_network_metrics] reports 0
    nodes, 0 edges and 0 connected components, whatever the component count
    of the library is. *)
Theorem empty_graph_metrics (G : Nx.Graph) :
  Nx.number_of_nodes G = 0 →
  calculate_network_metrics G = mkMetrics 0 0 0.
Proof.
  intros Hzero. unfold calculate_network_metrics. by rewrite Hzero.
Qed.

(** When every stored person is removed, the active graph is that graph. *)
Lemma all_removed_metrics (st : State) :
  wf_state st →
  (∀ n, n ∈ Py.dict_keys (nodes st) → n ∈ removed_nodes st) →
  Nx.g_nodes (active_graph_of st) = []
  ∧ calculate_network_metrics (active_graph_of st) = mkMetrics 0 0 0.
Proof.
  intros Hwf Hall.
  assert (Nx.g_nodes (active_graph_of st) = []) as Hnodes.
  { rewrite active_graph_nodes by done. unfold active_names.
    destruct (filter _ _) as [|n l] eqn:Hf; [done|].
    assert (n ∈ filter (λ n, n ∉ removed_nodes st) (Py.dict_keys (nodes st)))
      as [Hr Hn]%list_elem_of_filter by (rewrite Hf; by left).
    by destruct Hr; apply Hall. }
  split; [done|]. unfold calculate_network_metrics, Nx.number_of_nodes.
  by rewrite Hnodes.
Qed.

End ResilienceFacts.

Lemma empty_graph_metrics_witness :
  Nx.number_of_nodes (active_graph_of empty_state) = 0
  ∧ calculate_network_metrics (H := NxExamples.algorithms)
      (active_graph_of empty_state) = mkMetrics 0 0 0.
Proof.
  split; [reflexivity|].
  apply (empty_graph_metrics (H := NxExamples.algorithms)
           (active_graph_of empty_state)).
  reflexivity.
Defined.

(** ** Removing and restoring a node *)

Lemma restore_node_eq x st :
  restore_node x st
  = if bool_decide (x ∈ removed_nodes st)
    then (inr RestoreDone,
          with_removed_nodes (λ removed, removed ∖ {[x]}) st)
    else (inr RestoreNothing, st).
Proof.
  unfold restore_node, set_remove, bind, read. simpl.
  case_bool_decide; [|done]. simpl.
  by rewrite bool_decide_eq_true_2 by done.
Qed.

Lemma active_edge_iff st a b :
  active_edge st a b ↔ Nx.has_edge a b (active_graph_of st) = true.
Proof.
  unfold active_edge. rewrite active_graph_eq. split.
  - intros (G & HG & Hedge). by injection HG as <-.
  - intros Hedge. by eexists.
Qed.

Lemma two_removed_reachable :
  reachable (H := NxExamples.algorithms) two_removed.
Proof. do 2 apply reachable_step. apply reachable_initial. Qed.

Section RemovalFacts.
Context `{Nx.Algorithms}.

Lemma run_simulation_collaborations x st :
  collaborations (snd (run_simulation x st)) = collaborations st.
Proof.
  destruct (decide (x = ""%string)) as [->|Hne]; [done|].
  destruct (decide (x ∈ Py.dict_keys (nodes st))) as [Hk|Hk].
  - destruct (decide (x ∈ removed_nodes st)) as [Hr|Hr].
    + rewrite run_simulation_unavailable; auto.
    + pose proof (run_simulation_done x st Hne Hk Hr) as Hrun.
      cbv zeta in Hrun. by rewrite Hrun.
  - rewrite run_simulation_unavailable; auto.
Qed.

(** C10, amended. Simulating a removal, restoring a node, resetting the view
    and saving a person leave the list of collaborations as it is; and once a
    removed name [x] is restored, every stored collaboration of [x] whose
    other end is not itself removed is an edge of the active graph again. *)
Theorem removal_keeps_collaborations (st : State) (x : string) :
  collaborations (snd (run_simulation x st)) = collaborations st
  ∧ collaborations (snd (restore_node x st)) = collaborations st
  ∧ collaborations (snd (reset_normal_mode st)) = collaborations st
  ∧ (∀ carrera_ intereses_,
       collaborations (snd (add_or_update_node x carrera_ intereses_ st))
       = collaborations st)
  ∧ (x ∈ removed_nodes st →
     ∀ a b, (a, b) ∈ collaborations st → a = x ∨ b = x →
       (a ∉ removed_nodes st ∖ {[x]}) → (b ∉ removed_nodes st ∖ {[x]}) →
       active_edge (snd (restore_node x st)) a b).
Proof.
  split; [apply run_simulation_collaborations|].
  split; [rewrite restore_node_eq; by case_bool_decide|].
  split; [done|].
  split.
  { intros carrera_ intereses_. unfold add_or_update_node.
    by destruct (_ || _). }
  intros Hx a b Hin Htouch Ha Hb.
  rewrite restore_node_eq, bool_decide_eq_true_2 by done. simpl.
  by apply active_edge_iff, active_graph_edge.
Qed.

End RemovalFacts.

(** C10 as first stated fails: with Ana and María both removed, restoring
    Ana does not bring the stored collaboration Ana - María back into the
    active graph, because María is still removed. *)
Lemma restored_edge_still_inactive :
  reachable (H := NxExamples.algorithms) two_removed
  ∧ "Ana"%string ∈ removed_nodes two_removed
  ∧ ("Ana", "María")%string ∈ collaborations two_removed
  ∧ ¬ active_edge (snd (restore_node "Ana" two_removed)) "Ana" "María".
Proof.
  split; [apply two_removed_reachable|].
  split; [by vm_compute|].
  split; [vm_compute; by left|].
  intros Hedge%active_edge_iff. by vm_compute in Hedge.
Qed.

(** ** Canonical pairs *)

Lemma normalize_pair_cases a b :
  (Py.str_le a b = true ∧ normalize_pair a b = (a, b))
  ∨ (Py.str_le b a = true ∧ normalize_pair a b = (b, a)).
Proof.
  unfold normalize_pair, Py.str_le.
  destruct (String.leb a b) eqn:Hab; [by left|right].
  destruct (String.leb_total a b) as [H1|H1]; [congruence|done].
Qed.

Lemma normalize_pair_comm a b : normalize_pair a b = normalize_pair b a.
Proof.
  unfold normalize_pair, Py.str_le.
  destruct (String.leb a b) eqn:Hab, (String.leb b a) eqn:Hba; try done.
  - by rewrite (String.leb_antisym a b Hab Hba).
  - destruct (String.leb_total a b); congruence.
Qed.

Lemma normalize_pair_either a b p :
  either_order a b p → normalize_pair p.1 p.2 = normalize_pair a b.
Proof. intros [-> | ->]; simpl; [done|apply normalize_pair_comm]. Qed.

(** ** Adding and deleting a collaboration *)

Lemma list_remove_app_last {A} `{EqDecision A} (x : A) l :
  x ∉ l → Py.list_remove x (l ++ [x]) = Some l.
Proof.
  induction l as [|y l IH]; simpl; intros Hx.
  - by rewrite decide_True.
  - apply not_elem_of_cons in Hx as [Hne Hx].
    rewrite decide_False by done. by rewrite IH.
Qed.

Lemma list_remove_sublist {A} `{EqDecision A} (x : A) l l' :
  Py.list_remove x l = Some l' → l' `sublist_of` l.
Proof.
  revert l'. induction l as [|y l IH]; simpl; intros l' Hr; [done|].
  destruct (decide (x = y)).
  - injection Hr as <-. by apply sublist_cons.
  - destruct (Py.list_remove x l) as [r|]; [|done].
    injection Hr as <-. by apply sublist_skip, IH.
Qed.

Lemma add_collaboration_done n1 n2 st :
  n1 ≠ ""%string → n2 ≠ ""%string → n1 ≠ n2 →
  n1 ∈ Py.dict_keys (nodes st) → n2 ∈ Py.dict_keys (nodes st) →
  normalize_pair n1 n2 ∉ collaborations st →
  add_collaboration n1 n2 st
  = (inr (AddDone (normalize_pair n1 n2)),
     with_collaborations (λ cs, cs ++ [normalize_pair n1 n2]) st).
Proof.
  intros H1 H2 Hne Hk1 Hk2 Hnew. unfold add_collaboration.
  rewrite !bool_decide_eq_false_2 by done. simpl.
  unfold bind, read. simpl.
  rewrite (proj2 (dict_contains_true _ _) Hk1).
  rewrite (proj2 (dict_contains_true _ _) Hk2). simpl.
  unfold Py.list_contains. by rewrite bool_decide_eq_false_2 by done.
Qed.

Lemma list_remove_elem {A} `{EqDecision A} (x : A) l l' :
  Py.list_remove x l = Some l' → x ∈ l.
Proof.
  revert l'. induction l as [|y l IH]; simpl; intros l' Hr; [done|].
  destruct (decide (x = y)) as [->|]; [by left|].
  destruct (Py.list_remove x l) as [r|]; [|done]. right. by eapply IH.
Qed.

Lemma delete_collaboration_done n1 n2 st cs' :
  n1 ≠ ""%string → n2 ≠ ""%string →
  Py.list_remove (normalize_pair n1 n2) (collaborations st) = Some cs' →
  delete_collaboration n1 n2 st
  = (inr (DeleteDone (normalize_pair n1 n2)),
     with_collaborations (λ _, cs') st).
Proof.
  intros H1 H2 Hrm. unfold delete_collaboration.
  rewrite !bool_decide_eq_false_2 by done. simpl.
  unfold bind, read. simpl. unfold Py.list_contains.
  rewrite bool_decide_eq_true_2 by (by eapply list_remove_elem).
  simpl. by rewrite Hrm.
Qed.

Lemma filter_none {A} (P : A → Prop) `{∀ x, Decision (P x)} (l : list A) :
  (∀ x, x ∈ l → ¬ P x) → filter P l = [].
Proof.
  induction l as [|x l IH]; intros Hl; [done|].
  rewrite filter_cons_False by (apply Hl; by left).
  apply IH. intros y Hy. apply Hl. by right.
Qed.

(** C6. From a state where two distinct stored people are not yet
    collaborating, adding their collaboration, deleting it and adding it
    again all succeed, whichever of the two orders the names are given in at
    each step, and the edge is then stored exactly once. *)
Theorem collaboration_round_trip (st : State) (a b : string)
    (p1 p2 p3 : string * string) :
  wf_state st →
  a ∈ Py.dict_keys (nodes st) → b ∈ Py.dict_keys (nodes st) → a ≠ b →
  normalize_pair a b ∉ collaborations st →
  either_order a b p1 → either_order a b p2 → either_order a b p3 →
  ∃ st1 st2 st3,
    add_collaboration p1.1 p1.2 st
    = (inr (AddDone (normalize_pair a b)), st1)
    ∧ delete_collaboration p2.1 p2.2 st1
      = (inr (DeleteDone (normalize_pair a b)), st2)
    ∧ add_collaboration p3.1 p3.2 st2
      = (inr (AddDone (normalize_pair a b)), st3)
    ∧ edge_count a b (collaborations st3) = 1%nat
    ∧ normalize_pair a b ∈ collaborations st3
    ∧ nodes st3 = nodes st
    ∧ removed_nodes st3 = removed_nodes st.
Proof.
  intros Hwf Ha Hb Hne Hnew Hp1 Hp2 Hp3.
  assert (a ≠ ""%string ∧ b ≠ ""%string) as [Ha0 Hb0].
  { split; intros ->; by apply (wf_names_nonempty _ Hwf). }
  assert (∀ p, either_order a b p →
            p.1 ≠ ""%string ∧ p.2 ≠ ""%string ∧ p.1 ≠ p.2
            ∧ p.1 ∈ Py.dict_keys (nodes st) ∧ p.2 ∈ Py.dict_keys (nodes st))
    as Hargs.
  { intros p [-> | ->]; simpl; repeat split; done. }
  set (pair := normalize_pair a b) in *.
  set (st1 := with_collaborations (λ cs, cs ++ [pair]) st).
  exists st1, st, st1.
  destruct (Hargs p1 Hp1) as (? & ? & ? & ? & ?).
  destruct (Hargs p2 Hp2) as (? & ? & ? & ? & ?).
  destruct (Hargs p3 Hp3) as (? & ? & ? & ? & ?).
  split.
  { rewrite add_collaboration_done;
      rewrite ?(normalize_pair_either a b p1 Hp1); done. }
  split.
  { rewrite (delete_collaboration_done _ _ _ (collaborations st)); try done.
    - rewrite (normalize_pair_either a b p2 Hp2). fold pair.
      do 2 f_equal. subst st1. by destruct st.
    - rewrite (normalize_pair_either a b p2 Hp2). simpl.
      by apply list_remove_app_last. }
  split.
  { rewrite add_collaboration_done;
      rewrite ?(normalize_pair_either a b p3 Hp3); done. }
  split; [|split; [|done]].
  - unfold edge_count. simpl. rewrite filter_app, filter_none.
    + rewrite filter_cons_True; [done|].
      subst pair. destruct (normalize_pair_cases a b) as [[_ ->]|[_ ->]]; auto.
    + intros e He [-> | ->].
      * destruct (normalize_pair_cases a b) as [[_ Hn]|[Hba Hn]];
          [subst pair; by rewrite Hn in Hnew|].
        pose proof (wf_canonical _ Hwf a b He) as Hab.
        by apply Hne, String.leb_antisym.
      * destruct (normalize_pair_cases a b) as [[Hab Hn]|[_ Hn]];
          [|subst pair; by rewrite Hn in Hnew].
        pose proof (wf_canonical _ Hwf b a He) as Hba.
        by apply Hne, String.leb_antisym.
  - simpl. apply elem_of_app. right. by left.
Qed.

(** ** The shape of reachable states *)

Lemma dict_set_keys {V} k (v : V) d x :
  x ∈ Py.dict_keys (Py.dict_set k v d) ↔ x = k ∨ x ∈ Py.dict_keys d.
Proof.
  unfold Py.dict_keys. induction d as [|[k' v'] d IH]; simpl.
  - rewrite list_elem_of_singleton, elem_of_nil. tauto.
  - destruct (decide (k = k')) as [->|Hne]; simpl.
    + rewrite !elem_of_cons. tauto.
    + rewrite !elem_of_cons, IH. tauto.
Qed.

Lemma dict_set_NoDup {V} k (v : V) d :
  NoDup (Py.dict_keys d) → NoDup (Py.dict_keys (Py.dict_set k v d)).
Proof.
  intros Hd. destruct (decide (k ∈ Py.dict_keys d)) as [Hk|Hk].
  - revert Hd Hk. unfold Py.dict_keys.
    induction d as [|[k' v'] d IH]; simpl; intros Hd Hk.
    + by apply elem_of_nil in Hk.
    + apply NoDup_cons in Hd as [Hk' Hd].
      destruct (decide (k = k')) as [->|Hne]; simpl.
      * by apply NoDup_cons.
      * apply elem_of_cons in Hk as [?|Hk]; [done|].
        apply NoDup_cons. split; [|by apply IH].
        intros Hin. apply Hk'.
        apply (dict_set_keys k v d k') in Hin as [?|?]; [congruence|done].
  - rewrite dict_set_absent by done. unfold Py.dict_keys in *.
    rewrite map_app. simpl. apply NoDup_app. split; [done|].
    split; [|apply NoDup_singleton].
    by intros x Hx ->%list_elem_of_singleton.
Qed.

Lemma wf_initial_state : wf_state initial_state.
Proof.
  split.
  - apply (bool_decide_unpack _). by vm_compute.
  - apply (bool_decide_unpack _). by vm_compute.
  - intros a b Hin.
    assert (Forall (λ e, e.1 ∈ Py.dict_keys (nodes initial_state)
                         ∧ e.2 ∈ Py.dict_keys (nodes initial_state))
              (collaborations initial_state)) as Hall
      by (apply (bool_decide_unpack _); by vm_compute).
    by apply (proj1 (Forall_forall _ _) Hall (a, b)).
  - intros a b Hin.
    assert (Forall (λ e, Py.str_le e.1 e.2 = true)
              (collaborations initial_state)) as Hall
      by (apply (bool_decide_unpack _); by vm_compute).
    by apply (proj1 (Forall_forall _ _) Hall (a, b)).
  - apply (bool_decide_unpack _). by vm_compute.
Qed.

Lemma wf_with_removed_nodes f st :
  wf_state st → wf_state (with_removed_nodes f st).
Proof. by intros []. Qed.

Lemma wf_add_pair n1 n2 st :
  wf_state st →
  n1 ∈ Py.dict_keys (nodes st) → n2 ∈ Py.dict_keys (nodes st) →
  normalize_pair n1 n2 ∉ collaborations st →
  wf_state (with_collaborations (λ cs, cs ++ [normalize_pair n1 n2]) st).
Proof.
  intros [Hnd Hne Hends Hcan Hcs] H1 H2 Hnew. split; simpl; try done.
  - intros a b [Hin|Heq%list_elem_of_singleton]%elem_of_app;
      [by apply Hends|].
    destruct (normalize_pair_cases n1 n2) as [[_ Hn]|[_ Hn]];
      rewrite Hn in Heq; injection Heq as -> ->; done.
  - intros a b [Hin|Heq%list_elem_of_singleton]%elem_of_app;
      [by eapply Hcan|].
    destruct (normalize_pair_cases n1 n2) as [[Hle Hn]|[Hle Hn]];
      rewrite Hn in Heq; injection Heq as -> ->; done.
  - apply NoDup_app. split; [done|]. split; [|apply NoDup_singleton].
    by intros x Hx ->%list_elem_of_singleton.
Qed.

Lemma wf_add_or_update_node nombre carrera_ intereses_ st :
  wf_state st →
  wf_state (snd (add_or_update_node nombre carrera_ intereses_ st)).
Proof.
  intros Hwf. unfold add_or_update_node.
  destruct (decide (nombre = ""%string)) as [->|Hne]; [done|].
  rewrite (bool_decide_eq_false_2 (nombre = _)) by done. simpl.
  case_bool_decide; [done|]. simpl.
  destruct Hwf as [Hnd Hempty Hends Hcan Hcs]. split; simpl; try done.
  - by apply dict_set_NoDup.
  - rewrite dict_set_keys. by intros [?|?].
  - intros a b Hin. rewrite !dict_set_keys.
    destruct (Hends a b Hin). auto.
Qed.

Lemma wf_add_collaboration n1 n2 st :
  wf_state st → wf_state (snd (add_collaboration n1 n2 st)).
Proof.
  intros Hwf. unfold add_collaboration.
  destruct (_ || _); [done|]. case_bool_decide; [done|].
  unfold bind, read. simpl.
  destruct (Py.dict_contains n1 (nodes st)) eqn:H1; [|done].
  destruct (Py.dict_contains n2 (nodes st)) eqn:H2; [|done]. simpl.
  unfold Py.list_contains. case_bool_decide; [done|]. simpl.
  apply wf_add_pair; try done; by apply dict_contains_true.
Qed.

Lemma wf_apply_connection n1 n2 st :
  wf_state st → wf_state (snd (apply_connection n1 n2 st)).
Proof.
  intros Hwf. unfold apply_connection, bind, read. simpl.
  destruct (Py.dict_contains n1 (nodes st)) eqn:H1; [|done].
  destruct (Py.dict_contains n2 (nodes st)) eqn:H2; [|done]. simpl.
  unfold Py.list_contains. case_bool_decide; [done|]. simpl.
  apply wf_add_pair; try done; by apply dict_contains_true.
Qed.

Lemma wf_delete_collaboration n1 n2 st :
  wf_state st → wf_state (snd (delete_collaboration n1 n2 st)).
Proof.
  intros Hwf. unfold delete_collaboration.
  destruct (_ || _); [done|]. unfold bind, read. simpl.
  destruct (negb _); [done|].
  destruct (Py.list_remove _ _) as [cs'|] eqn:Hrm; [|done]. simpl.
  apply list_remove_sublist in Hrm.
  destruct Hwf as [Hnd Hempty Hends Hcan Hcs]. split; simpl; try done.
  - intros a b Hin. apply Hends. by eapply sublist_subseteq.
  - intros a b Hin. apply Hcan. by eapply sublist_subseteq.
  - by eapply sublist_NoDup.
Qed.

Section RunFacts.
Context `{Nx.Algorithms}.

Lemma wf_run_simulation x st :
  wf_state st → wf_state (snd (run_simulation x st)).
Proof.
  intros Hwf.
  destruct (decide (x = ""%string)) as [->|Hne]; [done|].
  destruct (decide (x ∈ Py.dict_keys (nodes st))) as [Hk|Hk].
  - destruct (decide (x ∈ removed_nodes st)) as [Hr|Hr].
    + rewrite run_simulation_unavailable; auto.
    + pose proof (run_simulation_done x st Hne Hk Hr) as Hrun.
      cbv zeta in Hrun. rewrite Hrun. by apply wf_with_removed_nodes.
  - rewrite run_simulation_unavailable; auto.
Qed.

Lemma wf_perform a st : wf_state st → wf_state (perform a st).
Proof.
  intros Hwf. destruct a; simpl.
  - by apply wf_add_or_update_node.
  - by apply wf_add_collaboration.
  - by apply wf_delete_collaboration.
  - by apply wf_apply_connection.
  - by apply wf_run_simulation.
  - rewrite restore_node_eq. case_bool_decide; [|done].
    by apply wf_with_removed_nodes.
  - by apply wf_with_removed_nodes.
Qed.

(** Every state a run of the program reaches is well formed. *)
Lemma reachable_wf st : reachable st → wf_state st.
Proof.
  induction 1 as [|st a _ IH]; [apply wf_initial_state|by apply wf_perform].
Qed.

End RunFacts.

(** ** Worked examples *)

Lemma dict_get_elem {V} k (v : V) d : Py.dict_get k d = Some v → (k, v) ∈ d.
Proof.
  induction d as [|[k' v'] d IH]; simpl; [done|].
  destruct (decide (k = k')) as [->|]; [intros [= ->]; by left|].
  intros Hget. right. by apply IH.
Qed.

Lemma small_interests_initial_state : small_interests initial_state.
Proof.
  intros n info Hget%dict_get_elem.
  assert (Forall (λ kv, Py.len_set (intereses kv.2) < 2 ^ 52)
            (nodes initial_state)) as Hall
    by (apply (bool_decide_unpack _); by vm_compute).
  by apply (proj1 (Forall_forall _ _) Hall (n, info)).
Qed.

Lemma interdisciplinary_score_correct_witness :
  small_interests initial_state
  ∧ returns (calculate_interdisciplinary_score "María" "Sofía") initial_state
      (λ score, (0 <=? score)%float = true).
Proof.
  split; [apply small_interests_initial_state|].
  apply (interdisciplinary_score_correct "María" "Sofía" initial_state).
  apply small_interests_initial_state.
Defined.

Lemma interdisciplinary_score_symmetric_witness :
  small_interests initial_state
  ∧ ∃ s12 s21,
      calculate_interdisciplinary_score "María" "Sofía" initial_state
      = (inr s12, initial_state)
      ∧ calculate_interdisciplinary_score "Sofía" "María" initial_state
        = (inr s21, initial_state)
      ∧ (s12 =? s21)%float = true.
Proof.
  split; [apply small_interests_initial_state|].
  apply (interdisciplinary_score_symmetric "María" "Sofía" initial_state).
  apply small_interests_initial_state.
Defined.

Lemma wf_trio : wf_state trio.
Proof.
  split.
  - apply (bool_decide_unpack _). vm_compute. exact I.
  - apply (bool_decide_unpack _). vm_compute. exact I.
  - intros a b [[= -> ->]|[]%elem_of_nil]%elem_of_cons.
    split; apply (bool_decide_unpack _); vm_compute; exact I.
  - by intros a b [[= -> ->]|[]%elem_of_nil]%elem_of_cons.
  - apply (bool_decide_unpack _). vm_compute. exact I.
Qed.

Lemma collaboration_round_trip_witness :
  ∃ st3,
    edge_count "Luis" "Elena" (collaborations st3) = 1%nat
    ∧ normalize_pair "Luis" "Elena" ∈ collaborations st3.
Proof.
  assert ("Luis"%string ∈ Py.dict_keys (nodes initial_state)) as Ha
    by (apply (bool_decide_unpack _); vm_compute; exact I).
  assert ("Elena"%string ∈ Py.dict_keys (nodes initial_state)) as Hb
    by (apply (bool_decide_unpack _); vm_compute; exact I).
  assert (normalize_pair "Luis" "Elena" ∉ collaborations initial_state)
    as Hnew by (apply (bool_decide_unpack _); vm_compute; exact I).
  assert ("Luis"%string ≠ "Elena"%string) as Hne by discriminate.
  destruct (collaboration_round_trip initial_state "Luis" "Elena"
              ("Luis", "Elena")%string ("Elena", "Luis")%string
              ("Elena", "Luis")%string
              wf_initial_state Ha Hb Hne Hnew
              (or_introl eq_refl) (or_intror eq_refl) (or_intror eq_refl))
    as (st1 & st2 & st3 & _ & _ & _ & Hcount & Hin & _).
  exists st3. split; assumption.
Defined.

(** The scenario of two people of different disciplines sharing one of
    three interests: 3.0 + 2.0 x (1/3). *)
Example score_scenario :
  fst (calculate_interdisciplinary_score "A" "B"
         (mkState [("A", mkInfo "eng" {["x"; "y"]});
                   ("B", mkInfo "med" {["y"; "z"]})]%string [] ∅))
  = inr 0x1.d555555555555p+1%float.
Proof. vm_compute. reflexivity. Qed.

(** The scenario of the path A - B - C - D: removing B leaves 3 nodes, 1
    edge and 2 components, one component more and two edges fewer. *)
Example path_scenario :
  fst (run_simulation (H := NxExamples.algorithms) "B" path4)
  = inr (SimDone (mkReport (mkMetrics 4 3 1) (mkMetrics 3 1 2) 1 2)).
Proof. vm_compute. reflexivity. Qed.

(** With A - B the only edge among three people, A and B have degree
    centrality 0.5 and combined score 0.25, and the one suggestion is A - C:
    1/2 for the shared interest plus 0.5 x 0.25. *)
Example trio_scenario :
  fst (calculate_centrality_metrics (H := NxExamples.algorithms) trio)
  = inr [("A", mkCentrality 0.5 0 0.25); ("B", mkCentrality 0.5 0 0.25);
         ("C", mkCentrality 0 0 0)]%string
  ∧ fst (suggest_gap_filling_connections (H := NxExamples.algorithms) 10 trio)
    = inr [("A", "C", 0.625%float, "Intereses: Datos")]%string.
Proof. vm_compute. split; reflexivity. Qed.

(** The scenario of the empty graph. *)
Example empty_scenario :
  fst (recommend_interdisciplinary_connections 5 empty_state) = inr []
  ∧ fst (calculate_centrality_metrics (H := NxExamples.algorithms) empty_state)
    = inr []
  ∧ run_simulation (H := NxExamples.algorithms) "X" empty_state
    = (inr SimUnavailable, empty_state).
Proof. vm_compute. repeat split. Qed.

(** * Further properties of the code *)

(** ** [normalize_pair] *)

(** X1. [normalize_pair] does not depend on the order of its arguments; its
    result is the two names in lexicographic order, and normalizing a
    normalized pair changes nothing. *)
Theorem normalize_pair_canonical (a b : string) :
  normalize_pair a b = normalize_pair b a
  ∧ (normalize_pair a b = (a, b) ∨ normalize_pair a b = (b, a))
  ∧ Py.str_le (normalize_pair a b).1 (normalize_pair a b).2 = true
  ∧ normalize_pair (normalize_pair a b).1 (normalize_pair a b).2
    = normalize_pair a b.
Proof.
  split; [apply normalize_pair_comm|].
  destruct (normalize_pair_cases a b) as [[Hle Hn]|[Hle Hn]]; rewrite Hn; simpl.
  - split; [by left|]. split; [done|].
    unfold normalize_pair. by rewrite Hle.
  - split; [by right|]. split; [done|].
    unfold normalize_pair. by rewrite Hle.
Qed.

(** ** Saving a person *)

Lemma dict_get_set_eq {V} k (v : V) d : Py.dict_get k (Py.dict_set k v d) = Some v.
Proof.
  induction d as [|[k' v'] d IH]; simpl.
  - by rewrite decide_True.
  - destruct (decide (k = k')) as [->|Hne]; simpl.
    + by rewrite decide_True.
    + by rewrite decide_False.
Qed.

Lemma dict_get_set_ne {V} k k' (v : V) d :
  k' ≠ k → Py.dict_get k' (Py.dict_set k v d) = Py.dict_get k' d.
Proof.
  intros Hne. induction d as [|[k0 v0] d IH]; simpl.
  - by rewrite decide_False.
  - destruct (decide (k = k0)) as [->|Hk]; simpl.
    + by rewrite !decide_False.
    + destruct (decide (k' = k0)); [done|apply IH].
Qed.

Lemma dict_keys_set_present {V} k (v : V) d :
  k ∈ Py.dict_keys d → Py.dict_keys (Py.dict_set k v d) = Py.dict_keys d.
Proof.
  unfold Py.dict_keys. induction d as [|[k' v'] d IH]; simpl.
  - by intros ?%elem_of_nil.
  - intros Hin. destruct (decide (k = k')) as [->|Hne]; simpl; [done|].
    apply elem_of_cons in Hin as [?|Hin]; [done|]. by rewrite IH.
Qed.

Lemma dict_keys_set_absent {V} k (v : V) d :
  k ∉ Py.dict_keys d → Py.dict_keys (Py.dict_set k v d) = Py.dict_keys d ++ [k].
Proof.
  intros Hk. rewrite dict_set_absent by done.
  unfold Py.dict_keys. by rewrite map_app.
Qed.

Lemma dict_set_idemp {V} k (v : V) d :
  Py.dict_set k v (Py.dict_set k v d) = Py.dict_set k v d.
Proof.
  induction d as [|[k' v'] d IH]; simpl.
  - by rewrite decide_True.
  - destruct (decide (k = k')) as [->|Hne]; simpl.
    + by rewrite decide_True.
    + rewrite decide_False by done. by rewrite IH.
Qed.

Lemma add_or_update_node_saved nombre carrera_ intereses_ st :
  nombre ≠ ""%string → carrera_ ≠ ""%string →
  add_or_update_node nombre carrera_ intereses_ st
  = (inr NodeSaved,
     mkState (Py.dict_set nombre (mkInfo carrera_ intereses_) (nodes st))
       (collaborations st) (removed_nodes st ∖ {[nombre]})).
Proof.
  intros H1 H2. unfold add_or_update_node.
  by rewrite !bool_decide_eq_false_2 by done.
Qed.

Lemma add_or_update_node_rejected nombre carrera_ intereses_ st :
  nombre = ""%string ∨ carrera_ = ""%string →
  add_or_update_node nombre carrera_ intereses_ st = (inr NodeMissingFields, st).
Proof.
  intros Hbad. unfold add_or_update_node.
  replace (bool_decide (nombre = ""%string) || bool_decide (carrera_ = ""%string))
    with true; [done|].
  symmetry. apply orb_true_iff. rewrite !bool_decide_eq_true. done.
Qed.

(** X2. [add_or_update_node] with an empty name or an empty discipline
    changes nothing. Otherwise the name maps to the new discipline and
    interests afterwards, every other person is as before, an already stored
    name keeps its place in the insertion order and a new one goes last, the
    name is no longer marked as removed (the other marks stay), and the
    collaborations are untouched. *)
Theorem add_or_update_node_correct (nombre carrera_ : string)
    (intereses_ : gset string) (st : State) :
  (nombre = ""%string ∨ carrera_ = ""%string →
   add_or_update_node nombre carrera_ intereses_ st
   = (inr NodeMissingFields, st))
  ∧ (nombre ≠ ""%string → carrera_ ≠ ""%string →
     ∃ st',
       add_or_update_node nombre carrera_ intereses_ st = (inr NodeSaved, st')
       ∧ Py.dict_get nombre (nodes st') = Some (mkInfo carrera_ intereses_)
       ∧ (∀ k, k ≠ nombre →
            Py.dict_get k (nodes st') = Py.dict_get k (nodes st))
       ∧ Py.dict_keys (nodes st')
         = (if bool_decide (nombre ∈ Py.dict_keys (nodes st))
            then Py.dict_keys (nodes st)
            else Py.dict_keys (nodes st) ++ [nombre])
       ∧ removed_nodes st' = removed_nodes st ∖ {[nombre]}
       ∧ collaborations st' = collaborations st).
Proof.
  split; [apply add_or_update_node_rejected|].
  intros H1 H2. eexists. split; [by apply add_or_update_node_saved|]. simpl.
  split; [apply dict_get_set_eq|].
  split; [intros k Hk; by apply dict_get_set_ne|].
  split; [|done].
  case_bool_decide; [by apply dict_keys_set_present|by apply dict_keys_set_absent].
Qed.

(** X3. Saving the same person twice in a row is the same as saving once:
    the second call shows the same message and leaves the state of the first
    call as it is. *)
Theorem add_or_update_node_idempotent (nombre carrera_ : string)
    (intereses_ : gset string) (st : State) :
  add_or_update_node nombre carrera_ intereses_
    (snd (add_or_update_node nombre carrera_ intereses_ st))
  = add_or_update_node nombre carrera_ intereses_ st.
Proof.
  destruct (decide (nombre = ""%string)) as [H1|H1];
    [by rewrite !add_or_update_node_rejected by auto|].
  destruct (decide (carrera_ = ""%string)) as [H2|H2];
    [by rewrite !add_or_update_node_rejected by auto|].
  rewrite !add_or_update_node_saved by done. simpl.
  rewrite dict_set_idemp. do 2 f_equal. apply difference_twice_L.
Qed.

(** ** Adding and deleting a collaboration, all cases *)

Lemma add_collaboration_missing n1 n2 st :
  n1 = ""%string ∨ n2 = ""%string →
  add_collaboration n1 n2 st = (inr AddMissingFields, st).
Proof.
  intros Hbad. unfold add_collaboration.
  replace (bool_decide (n1 = ""%string) || bool_decide (n2 = ""%string))
    with true; [done|].
  symmetry. apply orb_true_iff. rewrite !bool_decide_eq_true. done.
Qed.

Lemma add_collaboration_same n st :
  n ≠ ""%string → add_collaboration n n st = (inr AddSameNode, st).
Proof.
  intros Hn. unfold add_collaboration.
  rewrite !bool_decide_eq_false_2 by done. simpl.
  by rewrite bool_decide_eq_true_2.
Qed.

Lemma add_collaboration_unknown n1 n2 st :
  n1 ≠ ""%string → n2 ≠ ""%string → n1 ≠ n2 →
  n1 ∉ Py.dict_keys (nodes st) ∨ n2 ∉ Py.dict_keys (nodes st) →
  add_collaboration n1 n2 st = (inr AddUnknownNode, st).
Proof.
  intros H1 H2 Hne Hbad. unfold add_collaboration.
  rewrite !bool_decide_eq_false_2 by done. simpl.
  unfold bind, read. simpl.
  replace (negb (Py.dict_contains n1 (nodes st))
           || negb (Py.dict_contains n2 (nodes st))) with true; [done|].
  symmetry. apply orb_true_iff. rewrite !negb_true_iff.
  destruct Hbad as [Hk|Hk]; [left|right];
    apply not_true_is_false; by rewrite dict_contains_true.
Qed.

Lemma add_collaboration_duplicate n1 n2 st :
  n1 ≠ ""%string → n2 ≠ ""%string → n1 ≠ n2 →
  n1 ∈ Py.dict_keys (nodes st) → n2 ∈ Py.dict_keys (nodes st) →
  normalize_pair n1 n2 ∈ collaborations st →
  add_collaboration n1 n2 st = (inr AddDuplicate, st).
Proof.
  intros H1 H2 Hne Hk1 Hk2 Hdup. unfold add_collaboration.
  rewrite !bool_decide_eq_false_2 by done. simpl.
  unfold bind, read. simpl.
  rewrite (proj2 (dict_contains_true _ _) Hk1).
  rewrite (proj2 (dict_contains_true _ _) Hk2). simpl.
  unfold Py.list_contains. by rewrite bool_decide_eq_true_2 by done.
Qed.

(** X4. [add_collaboration] is all or nothing. It appends the canonical pair
    and reports it exactly when both names are non-empty, distinct, stored
    and not yet collaborating; in every other case it shows a warning
    (missing field, same node, unknown node, duplicate, tested in this order)
    and the state is unchanged. *)
Theorem add_collaboration_all_or_nothing (n1 n2 : string) (st : State) :
  (n1 = ""%string ∨ n2 = ""%string →
   add_collaboration n1 n2 st = (inr AddMissingFields, st))
  ∧ (n1 ≠ ""%string → n2 ≠ ""%string →
     (n1 = n2 → add_collaboration n1 n2 st = (inr AddSameNode, st))
     ∧ (n1 ≠ n2 →
        (n1 ∉ Py.dict_keys (nodes st) ∨ n2 ∉ Py.dict_keys (nodes st) →
         add_collaboration n1 n2 st = (inr AddUnknownNode, st))
        ∧ (n1 ∈ Py.dict_keys (nodes st) → n2 ∈ Py.dict_keys (nodes st) →
           (normalize_pair n1 n2 ∈ collaborations st →
            add_collaboration n1 n2 st = (inr AddDuplicate, st))
           ∧ (normalize_pair n1 n2 ∉ collaborations st →
              add_collaboration n1 n2 st
              = (inr (AddDone (normalize_pair n1 n2)),
                 mkState (nodes st)
                   (collaborations st ++ [normalize_pair n1 n2])
                   (removed_nodes st)))))).
Proof.
  split; [apply add_collaboration_missing|]. intros H1 H2.
  split; [intros <-; by apply add_collaboration_same|]. intros Hne.
  split; [by apply add_collaboration_unknown|]. intros Hk1 Hk2.
  split; [by apply add_collaboration_duplicate|].
  intros Hnew. by rewrite add_collaboration_done.
Qed.

(** X5. Once a collaboration is added, adding it again is refused as a
    duplicate in whichever order the two names are given, and nothing
    changes. *)
Theorem add_collaboration_twice (n1 n2 : string) (st st' : State)
    (pair : string * string) :
  add_collaboration n1 n2 st = (inr (AddDone pair), st') →
  add_collaboration n1 n2 st' = (inr AddDuplicate, st')
  ∧ add_collaboration n2 n1 st' = (inr AddDuplicate, st').
Proof.
  intros Hadd.
  destruct (decide (n1 = ""%string ∨ n2 = ""%string)) as [Hbad|Hgood];
    [by rewrite add_collaboration_missing in Hadd|].
  assert (n1 ≠ ""%string ∧ n2 ≠ ""%string) as [H1 H2] by tauto.
  destruct (decide (n1 = n2)) as [->|Hne];
    [by rewrite add_collaboration_same in Hadd|].
  destruct (decide (n1 ∈ Py.dict_keys (nodes st))) as [Hk1|Hk1];
    [|by rewrite add_collaboration_unknown in Hadd by auto].
  destruct (decide (n2 ∈ Py.dict_keys (nodes st))) as [Hk2|Hk2];
    [|by rewrite add_collaboration_unknown in Hadd by auto].
  destruct (decide (normalize_pair n1 n2 ∈ collaborations st)) as [Hdup|Hnew];
    [by rewrite add_collaboration_duplicate in Hadd|].
  rewrite add_collaboration_done in Hadd by done.
  injection Hadd as <- <-. simpl.
  assert (normalize_pair n1 n2
          ∈ collaborations st ++ [normalize_pair n1 n2]) as Hin
    by (apply elem_of_app; right; by left).
  split.
  - by apply add_collaboration_duplicate.
  - apply add_collaboration_duplicate; try done.
    simpl. by rewrite (normalize_pair_comm n2 n1).
Qed.

Lemma delete_collaboration_missing n1 n2 st :
  n1 = ""%string ∨ n2 = ""%string →
  delete_collaboration n1 n2 st = (inr DeleteMissingFields, st).
Proof.
  intros Hbad. unfold delete_collaboration.
  replace (bool_decide (n1 = ""%string) || bool_decide (n2 = ""%string))
    with true; [done|].
  symmetry. apply orb_true_iff. rewrite !bool_decide_eq_true. done.
Qed.

Lemma delete_collaboration_not_found n1 n2 st :
  n1 ≠ ""%string → n2 ≠ ""%string →
  normalize_pair n1 n2 ∉ collaborations st →
  delete_collaboration n1 n2 st = (inr DeleteNotFound, st).
Proof.
  intros H1 H2 Hnot. unfold delete_collaboration.
  rewrite !bool_decide_eq_false_2 by done. simpl.
  unfold bind, read. simpl. unfold Py.list_contains.
  by rewrite bool_decide_eq_false_2 by done.
Qed.

Lemma list_remove_Some {A} `{EqDecision A} (x : A) l :
  x ∈ l → ∃ l', Py.list_remove x l = Some l'.
Proof.
  induction l as [|y l IH]; simpl.
  - by intros ?%elem_of_nil.
  - intros Hin. destruct (decide (x = y)); [by eexists|].
    apply elem_of_cons in Hin as [?|Hin]; [done|].
    destruct (IH Hin) as [r ->]. by eexists.
Qed.

(** On a list without repetition, [remove] drops the element for good and
    keeps the others in order. *)
Lemma list_remove_filter {A} `{EqDecision A} (x : A) l l' :
  NoDup l → Py.list_remove x l = Some l' → l' = filter (λ y, y ≠ x) l.
Proof.
  revert l'. induction l as [|y l IH]; simpl; intros l' Hnd Hrm; [done|].
  apply NoDup_cons in Hnd as [Hy Hnd].
  destruct (decide (x = y)) as [<-|Hne].
  - injection Hrm as <-. rewrite filter_cons_False by (by intros ?).
    symmetry. clear IH Hnd. induction l as [|z l IH]; [done|].
    apply not_elem_of_cons in Hy as [Hz Hy].
    rewrite filter_cons_True by (by apply not_eq_sym). by rewrite IH.
  - destruct (Py.list_remove x l) as [r|]; [|done].
    injection Hrm as <-. rewrite filter_cons_True by (by apply not_eq_sym).
    by rewrite (IH r).
Qed.

(** X6. [delete_collaboration] never raises: [list.remove] is only reached
    for a stored pair. With an empty field, or when the canonical pair is not
    stored, it changes nothing. Otherwise it reports the pair and removes its
    first occurrence, leaving people and removal marks alone; in a
    well-formed state the pair is then gone and the other collaborations
    keep their order. *)
Theorem delete_collaboration_correct (n1 n2 : string) (st : State) :
  (∃ notice st', delete_collaboration n1 n2 st = (inr notice, st'))
  ∧ (n1 = ""%string ∨ n2 = ""%string →
     delete_collaboration n1 n2 st = (inr DeleteMissingFields, st))
  ∧ (n1 ≠ ""%string → n2 ≠ ""%string →
     (normalize_pair n1 n2 ∉ collaborations st →
      delete_collaboration n1 n2 st = (inr DeleteNotFound, st))
     ∧ (normalize_pair n1 n2 ∈ collaborations st →
        ∃ cs',
          delete_collaboration n1 n2 st
          = (inr (DeleteDone (normalize_pair n1 n2)),
             mkState (nodes st) cs' (removed_nodes st))
          ∧ Py.list_remove (normalize_pair n1 n2) (collaborations st)
            = Some cs'
          ∧ (wf_state st →
             cs' = filter (λ e, e ≠ normalize_pair n1 n2) (collaborations st)
             ∧ normalize_pair n1 n2 ∉ cs'))).
Proof.
  assert (n1 ≠ ""%string → n2 ≠ ""%string →
          normalize_pair n1 n2 ∈ collaborations st →
          ∃ cs',
            delete_collaboration n1 n2 st
            = (inr (DeleteDone (normalize_pair n1 n2)),
               mkState (nodes st) cs' (removed_nodes st))
            ∧ Py.list_remove (normalize_pair n1 n2) (collaborations st)
              = Some cs') as Hdone.
  { intros H1 H2 Hin. destruct (list_remove_Some _ _ Hin) as [cs' Hrm].
    exists cs'. split; [|done]. by rewrite (delete_collaboration_done _ _ _ cs'). }
  split.
  { destruct (decide (n1 = ""%string ∨ n2 = ""%string)) as [Hbad|Hgood];
      [eexists _, _; by apply delete_collaboration_missing|].
    assert (n1 ≠ ""%string ∧ n2 ≠ ""%string) as [H1 H2] by tauto.
    destruct (decide (normalize_pair n1 n2 ∈ collaborations st)) as [Hin|Hnot].
    - destruct (Hdone H1 H2 Hin) as (cs' & Hrun & _). by eexists _, _.
    - eexists _, _. by apply delete_collaboration_not_found. }
  split; [apply delete_collaboration_missing|]. intros H1 H2.
  split; [by apply delete_collaboration_not_found|]. intros Hin.
  destruct (Hdone H1 H2 Hin) as (cs' & Hrun & Hrm).
  exists cs'. do 2 (split; [done|]). intros Hwf.
  pose proof (list_remove_filter _ _ _ (wf_collaborations_nodup _ Hwf) Hrm)
    as ->.
  split; [done|]. rewrite list_elem_of_filter. tauto.
Qed.

(** X7. Deleting a collaboration right after adding it, with the names in
    either order, gives back the state before the addition. *)
Theorem add_then_delete_restores (n1 n2 : string) (st st' : State)
    (pair p : string * string) :
  add_collaboration n1 n2 st = (inr (AddDone pair), st') →
  either_order n1 n2 p →
  delete_collaboration p.1 p.2 st' = (inr (DeleteDone pair), st).
Proof.
  intros Hadd Hp.
  destruct (decide (n1 = ""%string ∨ n2 = ""%string)) as [Hbad|Hgood];
    [by rewrite add_collaboration_missing in Hadd|].
  assert (n1 ≠ ""%string ∧ n2 ≠ ""%string) as [H1 H2] by tauto.
  destruct (decide (n1 = n2)) as [->|Hne];
    [by rewrite add_collaboration_same in Hadd|].
  destruct (decide (n1 ∈ Py.dict_keys (nodes st))) as [Hk1|Hk1];
    [|by rewrite add_collaboration_unknown in Hadd by auto].
  destruct (decide (n2 ∈ Py.dict_keys (nodes st))) as [Hk2|Hk2];
    [|by rewrite add_collaboration_unknown in Hadd by auto].
  destruct (decide (normalize_pair n1 n2 ∈ collaborations st)) as [Hdup|Hnew];
    [by rewrite add_collaboration_duplicate in Hadd|].
  rewrite add_collaboration_done in Hadd by done.
  injection Hadd as <- <-.
  rewrite (delete_collaboration_done _ _ _ (collaborations st)).
  - rewrite (normalize_pair_either n1 n2 p Hp). do 2 f_equal. by destruct st.
  - by destruct Hp as [-> | ->].
  - by destruct Hp as [-> | ->].
  - rewrite (normalize_pair_either n1 n2 p Hp). simpl.
    by apply list_remove_app_last.
Qed.

(** ** [apply_connection] against [add_collaboration] *)

Lemma apply_connection_done n1 n2 st :
  n1 ∈ Py.dict_keys (nodes st) → n2 ∈ Py.dict_keys (nodes st) →
  normalize_pair n1 n2 ∉ collaborations st →
  apply_connection n1 n2 st
  = (inr ApplyDone,
     with_collaborations (λ cs, cs ++ [normalize_pair n1 n2]) st).
Proof.
  intros Hk1 Hk2 Hnew. unfold apply_connection, bind, read. simpl.
  rewrite (proj2 (dict_contains_true _ _) Hk1).
  rewrite (proj2 (dict_contains_true _ _) Hk2). simpl.
  unfold Py.list_contains. by rewrite bool_decide_eq_false_2 by done.
Qed.

Lemma apply_connection_unchanged n1 n2 st :
  n1 ∉ Py.dict_keys (nodes st) ∨ n2 ∉ Py.dict_keys (nodes st)
  ∨ normalize_pair n1 n2 ∈ collaborations st →
  snd (apply_connection n1 n2 st) = st.
Proof.
  intros Hbad. unfold apply_connection, bind, read. simpl.
  destruct (Py.dict_contains n1 (nodes st)) eqn:H1; [|done].
  destruct (Py.dict_contains n2 (nodes st)) eqn:H2; [|done]. simpl.
  unfold Py.list_contains. case_bool_decide as Hin; [done|].
  apply dict_contains_true in H1, H2. tauto.
Qed.

(** X8. On two distinct non-empty names [apply_connection] changes the state
    exactly as [add_collaboration] does. It has no test for equal names,
    though: for a stored name [n] it stores the pair [(n, n)], a
    collaboration of a person with themself, which [add_collaboration]
    refuses. *)
Theorem apply_connection_vs_add_collaboration (n1 n2 : string) (st : State) :
  (n1 ≠ ""%string → n2 ≠ ""%string → n1 ≠ n2 →
   snd (apply_connection n1 n2 st) = snd (add_collaboration n1 n2 st))
  ∧ (n1 ≠ ""%string → n1 ∈ Py.dict_keys (nodes st) →
     (n1, n1) ∉ collaborations st →
     apply_connection n1 n1 st
     = (inr ApplyDone,
        mkState (nodes st) (collaborations st ++ [(n1, n1)])
          (removed_nodes st))
     ∧ add_collaboration n1 n1 st = (inr AddSameNode, st)).
Proof.
  split.
  - intros H1 H2 Hne.
    destruct (decide (n1 ∈ Py.dict_keys (nodes st))) as [Hk1|Hk1];
      [|by rewrite apply_connection_unchanged, add_collaboration_unknown
          by auto].
    destruct (decide (n2 ∈ Py.dict_keys (nodes st))) as [Hk2|Hk2];
      [|by rewrite apply_connection_unchanged, add_collaboration_unknown
          by auto].
    destruct (decide (normalize_pair n1 n2 ∈ collaborations st)) as [Hd|Hnew].
    + by rewrite apply_connection_unchanged, add_collaboration_duplicate
        by auto.
    + by rewrite apply_connection_done, add_collaboration_done.
  - intros H1 Hk Hnew.
    assert (normalize_pair n1 n1 = (n1, n1)) as Hn
      by (by destruct (normalize_pair_cases n1 n1) as [[_ ?]|[_ ?]]).
    split; [|by apply add_collaboration_same].
    rewrite apply_connection_done; rewrite ?Hn; done.
Qed.

(** ** Removing, restoring and resetting *)

Section RestoreFacts.
Context `{Nx.Algorithms}.

(** X9. [restore_node] never raises: [set.remove] is only reached for a
    removed name. It deletes the name from [removed_nodes] and touches
    nothing else, and on a name that is not removed it does nothing. Restoring
    a node right after simulating its removal gives back the state before
    the simulation. *)
Theorem restore_node_correct (x : string) (st : State) :
  (∃ notice,
     restore_node x st
     = (inr notice,
        mkState (nodes st) (collaborations st) (removed_nodes st ∖ {[x]}))
     ∧ (notice = RestoreDone ↔ x ∈ removed_nodes st))
  ∧ (x ∉ removed_nodes st → restore_node x st = (inr RestoreNothing, st))
  ∧ (∀ report st',
       run_simulation x st = (inr (SimDone report), st') →
       restore_node x st' = (inr RestoreDone, st)).
Proof.
  split; [|split].
  - rewrite restore_node_eq. case_bool_decide as Hx.
    + by exists RestoreDone.
    + exists RestoreNothing. split; [|done].
      f_equal. destruct st as [ns cs removed]. simpl in *. f_equal.
      apply set_eq. intros y. rewrite elem_of_difference, elem_of_singleton.
      split; [|tauto]. intros Hy. split; [done|]. by intros ->.
  - intros Hx. rewrite restore_node_eq. by rewrite bool_decide_eq_false_2.
  - intros report st' Hrun.
    destruct (decide (x = ""%string)) as [->|Hne];
      [by rewrite run_simulation_select in Hrun|].
    destruct (decide (x ∈ Py.dict_keys (nodes st))) as [Hk|Hk];
      [|by rewrite run_simulation_unavailable in Hrun by auto].
    destruct (decide (x ∈ removed_nodes st)) as [Hr|Hr];
      [by rewrite run_simulation_unavailable in Hrun by auto|].
    pose proof (run_simulation_done x st Hne Hk Hr) as Hdone.
    cbv zeta in Hdone. rewrite Hdone in Hrun. injection Hrun as _ <-.
    rewrite restore_node_eq. simpl.
    rewrite bool_decide_eq_true_2
      by (apply elem_of_union; left; by apply elem_of_singleton).
    f_equal. destruct st as [ns cs removed]. unfold with_removed_nodes.
    simpl in *. f_equal.
    apply set_eq. intros y.
    rewrite elem_of_difference, elem_of_union, elem_of_singleton.
    split; [tauto|]. intros Hy. split; [by right|]. by intros ->.
Qed.

End RestoreFacts.

Lemma filter_all {A} (P : A → Prop) `{∀ x, Decision (P x)} (l : list A) :
  (∀ x, x ∈ l → P x) → filter P l = l.
Proof.
  induction l as [|x l IH]; intros Hl; [done|].
  rewrite filter_cons_True by (apply Hl; by left).
  f_equal. apply IH. intros y Hy. apply Hl. by right.
Qed.

(** X10. [reset_normal_mode] empties [removed_nodes] and touches nothing
    else; resetting twice is resetting once. In a well-formed state the
    active graph then has every stored name as a node and every stored
    collaboration as an edge. *)
Theorem reset_normal_mode_correct (st : State) :
  reset_normal_mode st
  = (inr tt, mkState (nodes st) (collaborations st) ∅)
  ∧ reset_normal_mode (snd (reset_normal_mode st)) = reset_normal_mode st
  ∧ (wf_state st →
     ∃ G,
       active_graph (snd (reset_normal_mode st))
       = (inr G, snd (reset_normal_mode st))
       ∧ Nx.g_nodes G = Py.dict_keys (nodes st)
       ∧ ∀ a b, (a, b) ∈ collaborations st → Nx.has_edge a b G = true).
Proof.
  split; [done|]. split; [done|]. intros Hwf.
  set (st' := snd (reset_normal_mode st)).
  assert (wf_state st') as Hwf' by (by apply wf_with_removed_nodes).
  exists (active_graph_of st'). split; [apply active_graph_eq|]. split.
  - rewrite active_graph_nodes by done. unfold active_names. simpl.
    apply filter_all. intros n _. apply not_elem_of_empty.
  - intros a b Hin. apply active_graph_edge; [done| |];
      simpl; apply not_elem_of_empty.
Qed.

(** X11. The edges of the active graph are exactly the stored
    collaborations, read in either direction, whose two ends are both not
    removed. *)
Theorem active_graph_edges_exact (st : State) (a b : string) :
  ∃ G,
    active_graph st = (inr G, st)
    ∧ (Nx.has_edge a b G = true
       ↔ ((a, b) ∈ collaborations st ∨ (b, a) ∈ collaborations st)
         ∧ (a ∉ removed_nodes st) ∧ (b ∉ removed_nodes st)).
Proof.
  exists (active_graph_of st). split; [apply active_graph_eq|].
  split.
  - intros [Hin|Hin]%has_edge_true;
      apply active_graph_edges in Hin as (? & ? & ?); auto.
  - intros ([Hin|Hin] & Ha & Hb).
    + by apply active_graph_edge.
    + assert (Nx.has_edge b a (active_graph_of st) = true) as Hba
        by (by apply active_graph_edge).
      apply has_edge_true in Hba. apply has_edge_true. tauto.
Qed.

(** ** What the metrics count *)

Lemma add_edge_new a b G :
  (a, b) ∉ Nx.g_edges G → (b, a) ∉ Nx.g_edges G →
  Nx.g_edges (Nx.add_edge a b G) = Nx.g_edges G ++ [(a, b)].
Proof.
  intros Hab Hba. unfold Nx.add_edge. cbv zeta.
  destruct (Nx.has_edge a b (Nx.add_node b (Nx.add_node a G))) eqn:He.
  - apply has_edge_true in He. rewrite !add_node_edges in He. tauto.
  - simpl. by rewrite !add_node_edges.
Qed.

Lemma foldl_keep_edge_edges_eq removed cs G :
  NoDup cs →
  (∀ e, e ∈ cs → Py.str_le e.1 e.2 = true) →
  (∀ e, e ∈ Nx.g_edges G → (e ∉ cs) ∧ Py.str_le e.1 e.2 = true) →
  Nx.g_edges (foldl (keep_edge removed) G cs)
  = Nx.g_edges G
    ++ filter (λ e, (e.1 ∉ removed) ∧ (e.2 ∉ removed)) cs.
Proof.
  revert G. induction cs as [|e cs IH]; intros G Hnd Hcan HG; simpl.
  - by rewrite app_nil_r.
  - apply NoDup_cons in Hnd as [He Hnd].
    assert (∀ e', e' ∈ cs → Py.str_le e'.1 e'.2 = true) as Hcan'
      by (intros e' He'; apply Hcan; by right).
    assert (e ∉ Nx.g_edges G) as HeG
      by (intros Hin; destruct (HG e Hin) as [Hn _]; apply Hn; by left).
    rewrite filter_cons. unfold keep_edge at 2.
    destruct (decide ((e.1 ∉ removed) ∧ (e.2 ∉ removed))) as [[H1 H2]|Hno].
    + rewrite !bool_decide_eq_false_2 by done. simpl.
      assert (Nx.g_edges (Nx.add_edge e.1 e.2 G) = Nx.g_edges G ++ [e]) as Hadd.
      { destruct e as [a b]. simpl in *. apply add_edge_new; [done|].
        intros Hba. destruct (HG _ Hba) as [_ Hle]. simpl in Hle.
        pose proof (Hcan (a, b) ltac:(left)) as Hab. simpl in Hab.
        assert (a = b) as -> by (by apply String.leb_antisym). done. }
      rewrite IH; [by rewrite Hadd, <- app_assoc|done|done|].
      intros e' He'. rewrite Hadd in He'.
      apply elem_of_app in He' as [He'| ->%list_elem_of_singleton].
      * destruct (HG e' He') as [Hn Hle]. split; [|done].
        intros Hin. apply Hn. by right.
      * split; [done|]. apply Hcan. by left.
    + assert (negb (bool_decide (e.1 ∈ removed))
              && negb (bool_decide (e.2 ∈ removed)) = false) as ->.
      { apply andb_false_iff. rewrite !negb_false_iff, !bool_decide_eq_true.
        destruct (decide (e.1 ∈ removed)); [by left|right].
        destruct (decide (e.2 ∈ removed)); [done|tauto]. }
      apply IH; [done|done|].
      intros e' He'. destruct (HG e' He') as [Hn Hle]. split; [|done].
      intros Hin. apply Hn. by right.
Qed.

Lemma active_graph_edges_eq st :
  wf_state st → Nx.g_edges (active_graph_of st) = active_collaborations st.
Proof.
  intros Hwf. unfold active_graph_of, active_collaborations.
  rewrite foldl_keep_edge_edges_eq.
  - by rewrite foldl_keep_node_edges.
  - apply Hwf.
  - intros [a b] Hin. by apply (wf_canonical _ Hwf).
  - intros e. rewrite foldl_keep_node_edges. by intros ?%elem_of_nil.
Qed.

Section MetricsFacts.
Context `{Nx.Algorithms}.

Lemma metrics_of_active_graph st :
  wf_state st →
  nodos (calculate_network_metrics (active_graph_of st))
  = Py.len_list (active_names st)
  ∧ aristas (calculate_network_metrics (active_graph_of st))
    = Py.len_list (active_collaborations st).
Proof.
  intros Hwf. unfold calculate_network_metrics, Nx.number_of_nodes,
    Nx.number_of_edges.
  rewrite active_graph_nodes, active_graph_edges_eq by done.
  destruct (Py.len_list (active_names st) =? 0) eqn:Hz; simpl; [|done].
  apply Z.eqb_eq in Hz. split; [done|].
  destruct (active_collaborations st) as [|[a b] l] eqn:Hac; [done|].
  assert ((a, b) ∈ active_collaborations st) as Hin by (rewrite Hac; by left).
  apply list_elem_of_filter in Hin as [[Ha _] Hin]. simpl in Ha.
  destruct (wf_endpoints _ Hwf a b Hin) as [Hka _].
  assert (a ∈ active_names st) as Hact by (by apply list_elem_of_filter).
  destruct (active_names st); [by apply elem_of_nil in Hact|].
  unfold Py.len_list in Hz. simpl in Hz. lia.
Qed.

(** X12. In a well-formed state the metrics of the active graph count the
    stored people that are not removed and the stored collaborations whose
    two ends are both not removed. *)
Theorem network_metrics_count (st : State) :
  wf_state st →
  ∃ G,
    active_graph st = (inr G, st)
    ∧ nodos (calculate_network_metrics G) = Py.len_list (active_names st)
    ∧ aristas (calculate_network_metrics G)
      = Py.len_list (active_collaborations st).
Proof.
  intros Hwf. exists (active_graph_of st). split; [apply active_graph_eq|].
  by apply metrics_of_active_graph.
Qed.

Lemma length_filter_split {A} (P : A → Prop) `{∀ x, Decision (P x)}
    (l : list A) :
  length l = (length (filter P l) + length (filter (λ x, ¬ P x) l))%nat.
Proof.
  induction l as [|x l IH]; [done|]. rewrite !filter_cons.
  destruct (decide (P x)), (decide (¬ P x)); simpl; try tauto; lia.
Qed.

Lemma length_filter_ne (x : string) (l : list string) :
  NoDup l → x ∈ l → length l = S (length (filter (λ y, y ≠ x) l)).
Proof.
  induction l as [|y l IH]; intros Hnd Hin; [by apply elem_of_nil in Hin|].
  apply NoDup_cons in Hnd as [Hy Hnd]. rewrite filter_cons.
  destruct (decide (y ≠ x)) as [Hne|Heq%dec_stable]; simpl.
  - apply elem_of_cons in Hin as [?|Hin]; [congruence|]. by rewrite <- IH.
  - subst y. f_equal. symmetry. f_equal. apply filter_all.
    intros z Hz ->. done.
Qed.

(** X13. When [run_simulation] goes through in a well-formed state, the
    active graph loses exactly one node, and the reported number of lost
    connections is the number of active collaborations of the removed
    person: it is never negative. *)
Theorem run_simulation_deltas (x : string) (st st' : State)
    (report : simulation_report) :
  wf_state st →
  run_simulation x st = (inr (SimDone report), st') →
  nodos (metrics_after report) = nodos (metrics_before report) - 1
  ∧ edge_change report
    = Py.len_list (filter (touches x) (active_collaborations st))
  ∧ 0 ≤ edge_change report.
Proof.
  intros Hwf Hrun.
  destruct (decide (x = ""%string)) as [->|Hne];
    [by rewrite run_simulation_select in Hrun|].
  destruct (decide (x ∈ Py.dict_keys (nodes st))) as [Hk|Hk];
    [|by rewrite run_simulation_unavailable in Hrun by auto].
  destruct (decide (x ∈ removed_nodes st)) as [Hr|Hr];
    [by rewrite run_simulation_unavailable in Hrun by auto|].
  pose proof (run_simulation_done x st Hne Hk Hr) as Hdone.
  cbv zeta in Hdone. rewrite Hdone in Hrun. injection Hrun as <- <-.
  set (st' := with_removed_nodes (λ removed, {[x]} ∪ removed) st).
  assert (wf_state st') as Hwf' by (by apply wf_with_removed_nodes).
  destruct (metrics_of_active_graph st Hwf) as [Hn He].
  destruct (metrics_of_active_graph st' Hwf') as [Hn' He']. simpl.
  rewrite Hn, He, Hn', He'.
  assert (active_names st' = filter (λ y, y ≠ x) (active_names st)) as ->.
  { unfold active_names. rewrite list_filter_filter. simpl.
    apply list_filter_iff. intros y.
    rewrite elem_of_union, elem_of_singleton. tauto. }
  assert (active_collaborations st'
          = filter (λ e, ¬ touches x e) (active_collaborations st)) as ->.
  { unfold active_collaborations. rewrite list_filter_filter. simpl.
    apply list_filter_iff. intros [a b]. unfold touches. simpl.
    rewrite !elem_of_union, !elem_of_singleton. tauto. }
  assert (x ∈ active_names st) as Hact by (by apply list_elem_of_filter).
  assert (NoDup (active_names st)) as Hnd
    by (apply NoDup_filter, Hwf).
  pose proof (length_filter_ne x _ Hnd Hact) as Hlen.
  pose proof (length_filter_split (touches x) (active_collaborations st))
    as Hsplit.
  unfold Py.len_list in *. lia.
Qed.

End MetricsFacts.

(** ** The nested loops of the ranking functions *)

Lemma foldl_app_bind {A B} (g : A → list B) (l : list A) (acc : list B) :
  foldl (λ acc x, acc ++ g x) acc l = acc ++ (l ≫= g).
Proof.
  revert acc. induction l as [|x l IH]; intros acc.
  - simpl. by rewrite app_nil_r.
  - rewrite bind_cons. cbn [foldl]. by rewrite IH, app_assoc.
Qed.

Lemma pair_loop_eq {A} (l : list string)
    (body : string → string → list A → M (list A))
    (g : string → string → list A) st :
  (∀ n1 n2 acc, n1 ∈ l → n2 ∈ l →
     body n1 n2 acc st = (inr (acc ++ g n1 n2), st)) →
  for_loop (Py.enumerate l)
    (λ '(i, n1) acc, for_loop (drop (S i) l) (body n1) acc) [] st
  = (inr (pair_loop l g), st).
Proof.
  intros Hbody.
  rewrite (for_loop_pure _ _
    (λ acc x, acc ++ (λ '(i, n1), drop (S i) l ≫= g n1) x)).
  - unfold pair_loop.
    by rewrite (foldl_app_bind (λ '(i, n1), drop (S i) l ≫= g n1)).
  - intros [i n1] acc Hn1%elem_of_enumerate.
    rewrite (for_loop_pure _ _ (λ acc n2, acc ++ g n1 n2)).
    + by rewrite foldl_app_bind.
    + intros n2 acc' Hn2%elem_of_drop. by apply Hbody.
Qed.

Lemma elem_of_enumerate_iff {A} (l : list A) i x :
  (i, x) ∈ Py.enumerate l ↔ l !! i = Some x.
Proof.
  unfold Py.enumerate. rewrite list_elem_of_lookup. split.
  - intros (k & Hk). apply lookup_zip_with_Some in Hk
      as (j & y & [= -> ->] & Hj & Hy).
    apply lookup_seq in Hj as [-> _]. done.
  - intros Hx. exists i. apply lookup_zip_with_Some. exists i, x.
    split; [done|]. split; [|done]. apply lookup_seq. split; [done|].
    by eapply lookup_lt_Some.
Qed.

Lemma elem_of_pair_loop {A} (l : list string) (g : string → string → list A)
    (x : A) :
  x ∈ pair_loop l g
  ↔ ∃ i j n1 n2,
      (i < j)%nat ∧ l !! i = Some n1 ∧ l !! j = Some n2 ∧ x ∈ g n1 n2.
Proof.
  unfold pair_loop. rewrite list_elem_of_bind. split.
  - intros ([i n1] & Hx & Hi%elem_of_enumerate_iff).
    apply list_elem_of_bind in Hx as (n2 & Hx & Hn2).
    apply list_elem_of_lookup in Hn2 as [k Hk]. rewrite lookup_drop in Hk.
    exists i, (S i + k)%nat, n1, n2. repeat split; try done. lia.
  - intros (i & j & n1 & n2 & Hij & Hi & Hj & Hx).
    exists (i, n1). split; [|by apply elem_of_enumerate_iff].
    apply list_elem_of_bind. exists n2. split; [done|].
    apply list_elem_of_lookup. exists (j - S i)%nat.
    rewrite lookup_drop. by replace (S i + (j - S i))%nat with j by lia.
Qed.

(** ** The recommendations as a list *)

Lemma score_eq n1 n2 st :
  calculate_interdisciplinary_score n1 n2 st
  = (inr (score_value st n1 n2), st).
Proof.
  unfold score_value.
  destruct (Py.dict_get n1 (nodes st)) as [info1|] eqn:H1;
    [destruct (Py.dict_get n2 (nodes st)) as [info2|] eqn:H2|].
  - by apply score_known.
  - apply score_unknown. by right.
  - apply score_unknown. by left.
Qed.

Lemma score_value_comm st n1 n2 : score_value st n1 n2 = score_value st n2 n1.
Proof.
  unfold score_value.
  destruct (Py.dict_get n1 (nodes st)), (Py.dict_get n2 (nodes st)); try done.
  unfold interdisciplinary_score_spec.
  by rewrite discipline_bonus_comm, interest_term_comm.
Qed.

Lemma recommend_eq top_n st :
  recommend_interdisciplinary_connections top_n st
  = (inr (Py.slice_to top_n
            (sort_desc snd
               (pair_loop (Py.dict_keys (nodes st)) (recommendation_for st)))),
     st).
Proof.
  unfold recommend_interdisciplinary_connections.
  rewrite (bind_inr _ _ st (nodes st) st) by done.
  erewrite bind_inr; [done|].
  apply pair_loop_eq. intros n1 n2 acc _ _.
  rewrite (bind_inr _ _ st (collaborations st) st) by done.
  unfold recommendation_for.
  destruct (negb _); simpl; [|by rewrite app_nil_r].
  rewrite (bind_inr _ _ _ _ _ (score_eq n1 n2 st)).
  destruct (0 <? _)%float; [done|by rewrite app_nil_r].
Qed.

Lemma elem_of_recommendation_for st n1 n2 r :
  r ∈ recommendation_for st n1 n2
  ↔ r = (n1, n2, score_value st n1 n2)
    ∧ (normalize_pair n1 n2 ∉ collaborations st)
    ∧ (0 <? score_value st n1 n2)%float = true.
Proof.
  unfold recommendation_for, Py.list_contains.
  case_bool_decide as Hin; simpl.
  - rewrite elem_of_nil. tauto.
  - destruct (0 <? _)%float; simpl.
    + rewrite list_elem_of_singleton. tauto.
    + rewrite elem_of_nil. split; [done|]. by intros (_ & _ & ?).
Qed.

Lemma slice_to_all {A} (n : Z) (l : list A) :
  Py.len_list (Py.slice_to n l) < n → Py.slice_to n l = l.
Proof.
  unfold Py.slice_to, Py.len_list. intros Hlen.
  destruct (0 <=? n) eqn:Hn; [|apply Z.leb_gt in Hn; lia].
  apply Z.leb_le in Hn. rewrite length_take in Hlen.
  apply take_ge. lia.
Qed.

Lemma slice_to_length {A} (n : Z) (l : list A) :
  0 ≤ n → Py.len_list (Py.slice_to n l) ≤ n.
Proof.
  intros Hn. unfold Py.slice_to, Py.len_list.
  replace (0 <=? n) with true by (symmetry; by apply Z.leb_le).
  rewrite length_take. lia.
Qed.

(** ** Comparing scores *)

Lemma SFltb_asym a b :
  sf_nonneg a = true → sf_nonneg b = true →
  SFltb a b = true → SFltb b a = false.
Proof.
  unfold SFltb, SFcompare.
  destruct a as [sa|[]| |[] ma ea], b as [sb|[]| |[] mb eb];
    simpl; try done.
  intros _ _. change (Pos.compare_cont Eq ma mb) with (Pos.compare ma mb).
  change (Pos.compare_cont Eq mb ma) with (Pos.compare mb ma).
  destruct (Z.compare_spec ea eb), (Z.compare_spec eb ea); try done; try lia.
  destruct (Pos.compare_spec ma mb), (Pos.compare_spec mb ma);
    try done; lia.
Qed.

Lemma SFltb_negtrans a b c :
  sf_nonneg a = true → sf_nonneg b = true → sf_nonneg c = true →
  SFltb a b = false → SFltb b c = false → SFltb a c = false.
Proof.
  unfold SFltb, SFcompare.
  destruct a as [sa|[]| |[] ma ea], b as [sb|[]| |[] mb eb],
    c as [sc|[]| |[] mc ec]; simpl; try done.
  intros _ _ _.
  change (Pos.compare_cont Eq ma mb) with (Pos.compare ma mb).
  change (Pos.compare_cont Eq mb mc) with (Pos.compare mb mc).
  change (Pos.compare_cont Eq ma mc) with (Pos.compare ma mc).
  destruct (Z.compare_spec ea eb), (Z.compare_spec eb ec),
    (Z.compare_spec ea ec); try done; try lia;
    destruct (Pos.compare_spec ma mb), (Pos.compare_spec mb mc),
      (Pos.compare_spec ma mc); try done; lia.
Qed.

(** Among values that are not NaN, insertion keeps a list descending. *)
Lemma insert_desc_descending {A} (key : A → float) x l :
  sf_nonneg (Prim2SF (key x)) = true →
  Forall (λ y, sf_nonneg (Prim2SF (key y)) = true) l →
  descending key l → descending key (insert_desc key x l).
Proof.
  unfold descending. intros Hx Hl Hs.
  induction l as [|y l IH]; simpl.
  - apply StronglySorted_cons. split; [done|constructor].
  - apply Forall_cons in Hl as [Hy Hl].
    apply StronglySorted_cons in Hs as [Hyl Hs].
    destruct (key x <? key y)%float eqn:Hxy.
    + apply StronglySorted_cons. split; [|by apply IH].
      apply Forall_forall. intros z [->|Hz]%elem_of_insert_desc.
      * rewrite FloatAxioms.ltb_spec in *. by apply SFltb_asym.
      * by apply (proj1 (Forall_forall _ _) Hyl).
    + apply StronglySorted_cons. split; [|by apply StronglySorted_cons].
      apply Forall_cons. split; [done|].
      apply Forall_forall. intros z Hz.
      pose proof (proj1 (Forall_forall _ _) Hyl z Hz) as Hyz.
      pose proof (proj1 (Forall_forall _ _) Hl z Hz) as Hzn.
      simpl in Hyz. rewrite FloatAxioms.ltb_spec in *.
      by apply (SFltb_negtrans _ (Prim2SF (key y))).
Qed.

Lemma sort_desc_descending {A} (key : A → float) l :
  Forall (λ y, sf_nonneg (Prim2SF (key y)) = true) l →
  descending key (sort_desc key l).
Proof.
  unfold sort_desc. induction l as [|x l IH]; intros Hl; simpl.
  - constructor.
  - apply Forall_cons in Hl as [Hx Hl].
    apply insert_desc_descending; [done| |by apply IH].
    apply Forall_forall. intros y Hy%elem_of_sort_desc.
    by apply (proj1 (Forall_forall _ _) Hl).
Qed.

Lemma slice_to_descending {A} (key : A → float) n l :
  descending key l → descending key (Py.slice_to n l).
Proof.
  unfold descending, Py.slice_to. intros Hs.
  destruct (0 <=? n).
  - rewrite <- (take_drop (Z.to_nat n) l) in Hs.
    by apply StronglySorted_app_1_l in Hs.
  - rewrite <- (take_drop (Z.to_nat (Py.len_list l + n)) l) in Hs.
    by apply StronglySorted_app_1_l in Hs.
Qed.

Lemma score_value_nonneg st n1 n2 :
  small_interests st → sf_nonneg (Prim2SF (score_value st n1 n2)) = true.
Proof.
  intros Hsmall. unfold score_value.
  destruct (Py.dict_get n1 (nodes st)) as [info1|] eqn:H1; [|done].
  destruct (Py.dict_get n2 (nodes st)) as [info2|] eqn:H2; [|done].
  apply score_spec_sf_nonneg, len_union_small; by eapply Hsmall.
Qed.

(** ** Properties of the recommendations *)

(** X14. [recommend_interdisciplinary_connections] returns at most [top_n]
    entries (for [top_n] not negative); each is a pair of stored names, the
    first inserted before the second, that is not yet a collaboration,
    together with its score, which is positive. *)
Theorem recommend_entries (top_n : Z) (st : State) :
  ∃ recs,
    recommend_interdisciplinary_connections top_n st = (inr recs, st)
    ∧ (0 ≤ top_n → Py.len_list recs ≤ top_n)
    ∧ ∀ n1 n2 score, (n1, n2, score) ∈ recs →
        (∃ i j, (i < j)%nat
                ∧ Py.dict_keys (nodes st) !! i = Some n1
                ∧ Py.dict_keys (nodes st) !! j = Some n2)
        ∧ (normalize_pair n1 n2 ∉ collaborations st)
        ∧ calculate_interdisciplinary_score n1 n2 st = (inr score, st)
        ∧ (0 <? score)%float = true.
Proof.
  eexists. split; [apply recommend_eq|].
  split; [apply slice_to_length|].
  intros n1 n2 score Hin%elem_of_slice_to%elem_of_sort_desc.
  apply elem_of_pair_loop in Hin as (i & j & m1 & m2 & Hij & Hi & Hj & Hr).
  apply elem_of_recommendation_for in Hr as ([= -> -> ->] & Hnew & Hpos).
  split; [by exists i, j|]. split; [done|]. split; [apply score_eq|done].
Qed.

(** X15. For interest sets of the sizes [small_interests] allows, the
    recommendations come sorted by score, highest first. *)
Theorem recommend_sorted (top_n : Z) (st : State)
    (recs : list recommendation) :
  small_interests st →
  recommend_interdisciplinary_connections top_n st = (inr recs, st) →
  descending snd recs.
Proof.
  intros Hsmall Hrun. rewrite recommend_eq in Hrun. injection Hrun as <-.
  apply slice_to_descending, sort_desc_descending.
  apply Forall_forall. intros [[n1 n2] s] Hin.
  apply elem_of_pair_loop in Hin as (i & j & m1 & m2 & _ & _ & _ & Hr).
  apply elem_of_recommendation_for in Hr as ([= -> -> ->] & _). simpl.
  by apply score_value_nonneg.
Qed.

(** X16. Nothing that qualifies is left out: when the list is shorter than
    [top_n], every two distinct stored names that are not yet a
    collaboration and score above 0 are in it, in one order or the other. *)
Theorem recommend_complete (top_n : Z) (st : State)
    (recs : list recommendation) (a b : string) (score : float) :
  recommend_interdisciplinary_connections top_n st = (inr recs, st) →
  Py.len_list recs < top_n →
  a ∈ Py.dict_keys (nodes st) → b ∈ Py.dict_keys (nodes st) → a ≠ b →
  normalize_pair a b ∉ collaborations st →
  calculate_interdisciplinary_score a b st = (inr score, st) →
  (0 <? score)%float = true →
  (a, b, score) ∈ recs ∨ (b, a, score) ∈ recs.
Proof.
  intros Hrun Hlen Ha Hb Hne Hnew Hscore Hpos.
  rewrite recommend_eq in Hrun. injection Hrun as <-.
  rewrite slice_to_all by done. rewrite !elem_of_sort_desc.
  rewrite score_eq in Hscore. injection Hscore as <-.
  apply list_elem_of_lookup in Ha as [i Hi], Hb as [j Hj].
  destruct (decide (i < j)%nat) as [Hij|Hji].
  - left. apply elem_of_pair_loop. exists i, j, a, b.
    repeat split; try done. by apply elem_of_recommendation_for.
  - assert (i ≠ j) by (intros ->; congruence).
    right. rewrite (score_value_comm st a b).
    apply elem_of_pair_loop. exists j, i, b, a.
    repeat split; try done; [lia|].
    apply elem_of_recommendation_for.
    rewrite (normalize_pair_comm b a), (score_value_comm st b a). done.
Qed.

(** X17. The recommendations do not look at [removed_nodes]: whatever names
    are marked as removed, the call returns the same list. *)
Theorem recommend_ignores_removed (top_n : Z) (st : State)
    (removed : gset string) :
  fst (recommend_interdisciplinary_connections top_n
         (mkState (nodes st) (collaborations st) removed))
  = fst (recommend_interdisciplinary_connections top_n st).
Proof. by rewrite !recommend_eq. Qed.

(** X18. For two stored people with no interest in common the score is
    exactly 3.0 when their disciplines differ and exactly 0.0 when they are
    the same; in the second case the pair is never recommended. *)
Theorem disjoint_interests_score (n1 n2 : string) (st : State)
    (info1 info2 : node_info) :
  small_interests st →
  Py.dict_get n1 (nodes st) = Some info1 →
  Py.dict_get n2 (nodes st) = Some info2 →
  intereses info1 ∩ intereses info2 = ∅ →
  calculate_interdisciplinary_score n1 n2 st
  = (inr (if bool_decide (carrera info1 = carrera info2)
          then 0.0%float else 3.0%float), st)
  ∧ (carrera info1 = carrera info2 →
     ∀ top_n recs score,
       recommend_interdisciplinary_connections top_n st = (inr recs, st) →
       (n1, n2, score) ∉ recs).
Proof.
  intros Hsmall H1 H2 Hdisj.
  assert (interdisciplinary_score_spec info1 info2
          = if bool_decide (carrera info1 = carrera info2)
            then 0%float else 3%float) as Hval.
  { assert (interest_term (intereses info1) (intereses info2) = 0%float)
      as Hterm.
    { unfold interest_term. rewrite Hdisj.
      case_bool_decide as Hempty; [done|].
      assert (intereses info1 ∪ intereses info2 ≠ ∅) as Hu
        by (intros Hu; apply Hempty; set_solver).
      assert (0 < Py.len_set (intereses info1 ∪ intereses info2) < 2 ^ 53)
        as Hrange.
      { split; [by apply len_set_pos|].
        apply len_union_small; by eapply Hsmall. }
      destruct (float_of_int_positive _ Hrange) as (m & e & Hfu).
      assert ((Py.float_of_int (Py.len_set ∅)
               / Py.float_of_int
                   (Py.len_set (intereses info1 ∪ intereses info2)))%float
              = 0%float) as ->; [|done].
      apply Prim2SF_inj. rewrite FloatAxioms.div_spec, Hfu. done. }
    unfold interdisciplinary_score_spec, discipline_bonus.
    rewrite Hterm. by case_bool_decide. }
  split; [by rewrite (score_known _ _ _ _ _ H1 H2), Hval|].
  intros Hsame top_n recs score Hrun Hin.
  rewrite recommend_eq in Hrun. injection Hrun as <-.
  apply elem_of_slice_to, elem_of_sort_desc, elem_of_pair_loop in Hin
    as (i & j & m1 & m2 & _ & _ & _ & Hr).
  apply elem_of_recommendation_for in Hr as ([= -> -> ->] & _ & Hpos).
  unfold score_value in Hpos. rewrite H1, H2, Hval in Hpos.
  by rewrite bool_decide_eq_true_2 in Hpos.
Qed.

Lemma apply_connection_stored n1 n2 st st' :
  apply_connection n1 n2 st = (inr ApplyDone, st') →
  normalize_pair n1 n2 ∈ collaborations st'.
Proof.
  unfold apply_connection, bind, read. simpl.
  destruct (negb _ || negb _); [done|].
  destruct (Py.list_contains _ _); [done|]. simpl.
  intros [= <-]. simpl. apply elem_of_app. right. by left.
Qed.

Lemma add_collaboration_stored n1 n2 st st' pair :
  add_collaboration n1 n2 st = (inr (AddDone pair), st') →
  normalize_pair n1 n2 ∈ collaborations st'.
Proof.
  unfold add_collaboration, bind, read.
  destruct (_ || _); [done|]. destruct (bool_decide (n1 = n2)); [done|].
  simpl. destruct (negb _ || negb _); [done|].
  destruct (Py.list_contains _ _); [done|]. simpl.
  intros [= _ <-]. simpl. apply elem_of_app. right. by left.
Qed.

(** X19. A connection that has just been stored, through the
    recommendations window or through the collaboration form, is not
    recommended any more, in either order of its names. *)
Theorem stored_connection_not_recommended (a b : string) (st st' : State)
    (top_n : Z) (recs : list recommendation) (score : float) :
  (apply_connection a b st = (inr ApplyDone, st'))
  ∨ (∃ pair, add_collaboration a b st = (inr (AddDone pair), st')) →
  recommend_interdisciplinary_connections top_n st' = (inr recs, st') →
  ((a, b, score) ∉ recs) ∧ ((b, a, score) ∉ recs).
Proof.
  intros Hstored Hrun.
  assert (normalize_pair a b ∈ collaborations st') as Hin.
  { destruct Hstored as [Happly|[pair Hadd]].
    - by eapply apply_connection_stored.
    - by eapply add_collaboration_stored. }
  rewrite recommend_eq in Hrun. injection Hrun as <-.
  split; intros Hr;
    apply elem_of_slice_to, elem_of_sort_desc, elem_of_pair_loop in Hr
      as (i & j & m1 & m2 & _ & _ & _ & Hr);
    apply elem_of_recommendation_for in Hr as ([= -> -> ->] & Hnew & _).
  - done.
  - by rewrite normalize_pair_comm in Hnew.
Qed.

(** ** The suggestions as a list *)

Section SuggestionList.
Context `{Nx.Algorithms}.

Lemma centrality_value_eq st :
  calculate_centrality_metrics st = (inr (centrality_value st), st).
Proof. apply centrality_eq. Qed.

Lemma suggest_eq top_n st :
  suggest_gap_filling_connections top_n st
  = (inr (Py.slice_to top_n
            (sort_desc (λ x, snd (fst x))
               (pair_loop (active_names st)
                  (suggestion_for st (centrality_value st))))), st).
Proof.
  unfold suggest_gap_filling_connections.
  rewrite (bind_inr _ _ st (nodes st) st) by done.
  rewrite (bind_inr _ _ st (removed_nodes st) st) by done.
  rewrite (bind_inr _ _ _ _ _ (centrality_value_eq st)).
  erewrite bind_inr; [done|].
  apply pair_loop_eq. intros n1 n2 acc Hn1 Hn2.
  apply list_elem_of_filter in Hn1 as [_ [info1 Hi1]%dict_get_is_Some].
  apply list_elem_of_filter in Hn2 as [_ [info2 Hi2]%dict_get_is_Some].
  rewrite (bind_inr _ _ st (collaborations st) st) by done.
  unfold suggestion_for. rewrite Hi1, Hi2.
  destruct (negb _); simpl; [|by rewrite app_nil_r].
  rewrite (bind_inr _ _ st (nodes st) st) by done.
  unfold getitem. rewrite Hi1, Hi2.
  rewrite (bind_inr _ _ st info1 st) by done.
  rewrite (bind_inr _ _ st info2 st) by done.
  destruct (Py.truthy_set _) eqn:Hcommon; simpl; [|by rewrite app_nil_r].
  apply truthy_set_true in Hcommon.
  destruct (int_truediv_returns
              (Py.len_set (intereses info1 ∩ intereses info2))
              (Z.max (Py.len_set (intereses info1))
                     (Py.len_set (intereses info2)))
              st (max_len_pos _ _ Hcommon)) as (q & Hq & ->).
  by rewrite (bind_inr _ _ _ _ _ Hq).
Qed.

(** X20. [suggest_gap_filling_connections] returns at most [top_n] entries
    (for [top_n] not negative), and leaves out nothing that qualifies: when
    the list is shorter than [top_n], every two distinct stored, non-removed
    names that are not yet a collaboration and share an interest are in it,
    in one order or the other. *)
Theorem suggest_complete (top_n : Z) (st : State) :
  ∃ suggestions,
    suggest_gap_filling_connections top_n st = (inr suggestions, st)
    ∧ (0 ≤ top_n → Py.len_list suggestions ≤ top_n)
    ∧ (Py.len_list suggestions < top_n →
       ∀ a b info_a info_b,
         Py.dict_get a (nodes st) = Some info_a →
         Py.dict_get b (nodes st) = Some info_b →
         a ≠ b → a ∉ removed_nodes st → b ∉ removed_nodes st →
         normalize_pair a b ∉ collaborations st →
         intereses info_a ∩ intereses info_b ≠ ∅ →
         ∃ score reason,
           (a, b, score, reason) ∈ suggestions
           ∨ (b, a, score, reason) ∈ suggestions).
Proof.
  eexists. split; [apply suggest_eq|]. split; [apply slice_to_length|].
  intros Hlen a b info_a info_b Ha Hb Hne Hra Hrb Hnew Hcommon.
  rewrite slice_to_all by done.
  assert (∀ n info, Py.dict_get n (nodes st) = Some info →
            n ∉ removed_nodes st → n ∈ active_names st) as Hactive.
  { intros n info Hn Hr. apply list_elem_of_filter. split; [done|].
    apply dict_get_is_Some. by eexists. }
  apply (Hactive _ _ Ha), list_elem_of_lookup in Hra as [i Hi].
  apply (Hactive _ _ Hb), list_elem_of_lookup in Hrb as [j Hj].
  assert (∀ x y ix iy, Py.dict_get x (nodes st) = Some ix →
            Py.dict_get y (nodes st) = Some iy →
            normalize_pair x y ∉ collaborations st →
            intereses ix ∩ intereses iy ≠ ∅ →
            ∃ score reason,
              (x, y, score, reason)
              ∈ suggestion_for st (centrality_value st) x y) as Hfor.
  { intros x y ix iy Hx Hy Hxy Hc. unfold suggestion_for, Py.list_contains.
    rewrite Hx, Hy, bool_decide_eq_false_2 by done.
    rewrite (proj2 (truthy_set_true _) Hc). simpl.
    eexists _, _. by left. }
  destruct (decide (i < j)%nat) as [Hij|Hji].
  - destruct (Hfor a b _ _ Ha Hb Hnew Hcommon) as (score & reason & Hin).
    exists score, reason. left. apply elem_of_sort_desc, elem_of_pair_loop.
    by exists i, j, a, b.
  - assert (i ≠ j) by (intros ->; congruence).
    rewrite normalize_pair_comm in Hnew.
    rewrite (comm_L (∩)) in Hcommon.
    destruct (Hfor b a _ _ Hb Ha Hnew Hcommon) as (score & reason & Hin).
    exists score, reason. right. apply elem_of_sort_desc, elem_of_pair_loop.
    exists j, i, b, a. repeat split; try done. lia.
Qed.

Lemma dict_get_default_nonneg k (d : Py.pydict float) :
  Forall (λ kv, sf_nonneg (Prim2SF kv.2) = true) d →
  sf_nonneg (Prim2SF (Py.dict_get_default k 0%float d)) = true.
Proof.
  intros Hd. unfold Py.dict_get_default.
  destruct (Py.dict_get k d) as [v|] eqn:Hget; [|done].
  apply dict_get_elem in Hget.
  by apply (proj1 (Forall_forall _ _) Hd (k, v)).
Qed.

Lemma half_nonneg x :
  sf_nonneg (Prim2SF x) = true → sf_nonneg (Prim2SF (x * 0.5)) = true.
Proof.
  intros Hx. rewrite FloatAxioms.mul_spec.
  change (Prim2SF 0.5) with (S754_finite false 4503599627370496 (-53)).
  by apply SF64mul_nonneg.
Qed.

Lemma centrality_of_nonneg st n :
  centralities_nonneg st →
  sf_nonneg (Prim2SF (centrality_of (centrality_value st) n)) = true.
Proof.
  intros [Hd Hb]. unfold centrality_of.
  destruct (Py.dict_get n (centrality_value st)) as [entry|] eqn:Hget; [|done].
  apply dict_get_elem in Hget. unfold centrality_value in Hget.
  destruct (_ || _); [by apply elem_of_nil in Hget|].
  apply list_elem_of_fmap in Hget as (node & [= -> ->] & _). simpl.
  rewrite FloatAxioms.add_spec.
  apply SF64add_nonneg; by apply half_nonneg, dict_get_default_nonneg.
Qed.

Lemma max_float_nonneg a b :
  sf_nonneg (Prim2SF a) = true → sf_nonneg (Prim2SF b) = true →
  sf_nonneg (Prim2SF (Py.max_float a b)) = true.
Proof. intros Ha Hb. unfold Py.max_float. by destruct (a <? b)%float. Qed.

(** X21. When the library's centralities are neither negative nor NaN, and
    the interest sets have the sizes [small_interests] allows, the
    suggestions come sorted by score, highest first. *)
Theorem suggest_sorted (top_n : Z) (st : State)
    (suggestions : list suggestion) :
  small_interests st → centralities_nonneg st →
  suggest_gap_filling_connections top_n st = (inr suggestions, st) →
  descending (λ x, snd (fst x)) suggestions.
Proof.
  intros Hsmall Hcent Hrun. rewrite suggest_eq in Hrun. injection Hrun as <-.
  apply slice_to_descending, sort_desc_descending.
  apply Forall_forall. intros [[[n1 n2] s] r] Hin.
  apply elem_of_pair_loop in Hin as (i & j & m1 & m2 & _ & _ & _ & Hr).
  unfold suggestion_for in Hr.
  destruct (Py.dict_get m1 (nodes st)) as [info1|] eqn:H1;
    [|by apply elem_of_nil in Hr].
  destruct (Py.dict_get m2 (nodes st)) as [info2|] eqn:H2;
    [|by apply elem_of_nil in Hr].
  destruct (negb _ && Py.truthy_set _) eqn:Hc; [|by apply elem_of_nil in Hr].
  apply andb_true_iff in Hc as [_ Hc%truthy_set_true].
  apply list_elem_of_singleton in Hr as [= -> -> -> ->]. simpl.
  rewrite FloatAxioms.add_spec. apply SF64add_nonneg.
  - assert (0 < Z.max (Py.len_set (intereses info1))
                      (Py.len_set (intereses info2)) < 2 ^ 53) as Hrange.
    { pose proof (max_len_pos _ _ Hc).
      pose proof (Hsmall _ _ H1). pose proof (Hsmall _ _ H2).
      unfold Py.len_set in *. lia. }
    destruct (float_of_int_positive _ Hrange) as (m & e & Hf).
    rewrite FloatAxioms.div_spec, Hf.
    apply SF64div_nonneg, float_of_int_nonneg.
  - destruct (centrality_value st) eqn:Hcv; [done|]. rewrite <- Hcv.
    by apply half_nonneg, max_float_nonneg; apply centrality_of_nonneg.
Qed.

End SuggestionList.

(** ** What every reachable state satisfies *)

Lemma add_collaboration_frame n1 n2 st :
  nodes (snd (add_collaboration n1 n2 st)) = nodes st
  ∧ removed_nodes (snd (add_collaboration n1 n2 st)) = removed_nodes st.
Proof.
  unfold add_collaboration, bind, read.
  destruct (_ || _); [done|]. destruct (bool_decide (n1 = n2)); [done|].
  simpl. destruct (negb _ || negb _); [done|].
  by destruct (Py.list_contains _ _).
Qed.

Lemma delete_collaboration_frame n1 n2 st :
  nodes (snd (delete_collaboration n1 n2 st)) = nodes st
  ∧ removed_nodes (snd (delete_collaboration n1 n2 st)) = removed_nodes st.
Proof.
  unfold delete_collaboration, bind, read.
  destruct (_ || _); [done|]. simpl.
  destruct (negb _); [done|]. by destruct (Py.list_remove _ _).
Qed.

Lemma apply_connection_frame n1 n2 st :
  nodes (snd (apply_connection n1 n2 st)) = nodes st
  ∧ removed_nodes (snd (apply_connection n1 n2 st)) = removed_nodes st.
Proof.
  unfold apply_connection, bind, read. simpl.
  destruct (negb _ || negb _); [done|].
  by destruct (Py.list_contains _ _).
Qed.

Lemma removed_stored_perform `{Nx.Algorithms} a st :
  removed_stored st → removed_stored (perform a st).
Proof.
  intros Hst x. destruct a; simpl.
  - destruct (decide (nombre = ""%string ∨ carrera_ = ""%string)) as [Hbad|Hok].
    + rewrite add_or_update_node_rejected by done. apply Hst.
    + rewrite add_or_update_node_saved by tauto. simpl.
      intros [Hx _]%elem_of_difference. apply dict_set_keys. right.
      by apply Hst.
  - destruct (add_collaboration_frame n1 n2 st) as [-> ->]. apply Hst.
  - destruct (delete_collaboration_frame n1 n2 st) as [-> ->]. apply Hst.
  - destruct (apply_connection_frame n1 n2 st) as [-> ->]. apply Hst.
  - destruct (decide (node_name = ""%string)) as [->|Hne];
      [rewrite run_simulation_select; apply Hst|].
    destruct (decide (node_name ∉ Py.dict_keys (nodes st)
                      ∨ node_name ∈ removed_nodes st)) as [Hbad|Hok].
    + rewrite run_simulation_unavailable by done. apply Hst.
    + assert (node_name ∈ Py.dict_keys (nodes st)) as Hk
        by (destruct (decide (node_name ∈ Py.dict_keys (nodes st))); tauto).
      rewrite run_simulation_done by tauto. simpl.
      intros [->%elem_of_singleton|Hx]%elem_of_union; [done|by apply Hst].
  - rewrite restore_node_eq. case_bool_decide; [|apply Hst]. simpl.
    intros [Hx _]%elem_of_difference. by apply Hst.
  - simpl. by intros ?%elem_of_empty.
Qed.

(** X22. Whatever sequence of handler calls follows [seed_example_data],
    the state stays well-formed (the stored names are distinct and not
    empty, the collaborations are distinct canonical pairs of stored names),
    and only stored names are marked as removed. *)
Theorem reachable_invariant `{Nx.Algorithms} (st : State) :
  reachable st → wf_state st ∧ removed_stored st.
Proof.
  induction 1 as [|st a _ [IHwf IHrem]].
  - split; [apply wf_initial_state|]. by intros x ?%elem_of_empty.
  - split; [by apply wf_perform|by apply removed_stored_perform].
Qed.

(** ** The analysis functions on the stored state *)

Lemma active_graph_has_edge st a b :
  Nx.has_edge a b (active_graph_of st) = true
  ↔ ((a, b) ∈ collaborations st ∨ (b, a) ∈ collaborations st)
    ∧ (a ∉ removed_nodes st) ∧ (b ∉ removed_nodes st).
Proof.
  split.
  - intros [Hin|Hin]%has_edge_true;
      apply active_graph_edges in Hin as (? & ? & ?); auto.
  - intros ([Hin|Hin] & Ha & Hb).
    + by apply active_graph_edge.
    + assert (Nx.has_edge b a (active_graph_of st) = true) as Hba
        by (by apply active_graph_edge).
      apply has_edge_true in Hba. apply has_edge_true. tauto.
Qed.

Lemma active_names_after_removal x st :
  active_names (with_removed_nodes (λ removed, {[x]} ∪ removed) st)
  = filter (λ y, y ≠ x) (active_names st).
Proof.
  unfold active_names. rewrite list_filter_filter. simpl.
  apply list_filter_iff. intros y.
  rewrite elem_of_union, elem_of_singleton. tauto.
Qed.

Lemma active_collaborations_after_removal x st :
  active_collaborations (with_removed_nodes (λ removed, {[x]} ∪ removed) st)
  = filter (λ e, ¬ touches x e) (active_collaborations st).
Proof.
  unfold active_collaborations. rewrite list_filter_filter. simpl.
  apply list_filter_iff. intros [a b]. unfold touches. simpl.
  rewrite !elem_of_union, !elem_of_singleton. tauto.
Qed.

Section AnalysisOnState.
Context `{Nx.Algorithms}.

(** C4. [calculate_centrality_metrics] works on the graph of the
    non-removed part of the network: its edges are the stored
    collaborations with both ends not removed, and in a well-formed state
    its nodes are the non-removed stored names. It returns the empty mapping
    when that graph has no node or no edge; otherwise its keys are exactly
    the nodes of that graph, and the entry of each node holds the node's
    degree centrality, its betweenness centrality and, as combined score,
    0.5 times the one plus 0.5 times the other. *)
Theorem centrality_metrics_correct (st : State) :
  ∃ G, active_graph st = (inr G, st)
  ∧ (wf_state st → Nx.g_nodes G = active_names st)
  ∧ (wf_state st → Nx.g_edges G = active_collaborations st)
  ∧ (∀ a b, Nx.has_edge a b G = true
            ↔ ((a, b) ∈ collaborations st ∨ (b, a) ∈ collaborations st)
              ∧ (a ∉ removed_nodes st) ∧ (b ∉ removed_nodes st))
  ∧ (Nx.number_of_nodes G = 0 ∨ Nx.number_of_edges G = 0 →
     calculate_centrality_metrics st = (inr [], st))
  ∧ (Nx.number_of_nodes G ≠ 0 → Nx.number_of_edges G ≠ 0 →
     ∃ combined,
       calculate_centrality_metrics st = (inr combined, st)
       ∧ Py.dict_keys combined = Nx.g_nodes G
       ∧ ∀ node, node ∈ Nx.g_nodes G →
           ∃ entry,
             Py.dict_get node combined = Some entry
             ∧ grado entry
               = Py.dict_get_default node 0%float (Nx.degree_centrality G)
             ∧ intermediacion entry
               = Py.dict_get_default node 0%float
                   (Nx.betweenness_centrality G)
             ∧ score_total entry
               = combined_score_spec (grado entry) (intermediacion entry)).
Proof.
  exists (active_graph_of st). split; [apply active_graph_eq|].
  split; [apply active_graph_nodes|].
  split; [apply active_graph_edges_eq|].
  split; [apply active_graph_has_edge|].
  pose proof (centrality_eq st) as Heq. cbv zeta in Heq. split.
  - intros Hzero. rewrite Heq.
    replace (_ || _) with true; [done|].
    symmetry. apply orb_true_iff. rewrite !Z.eqb_eq. done.
  - intros Hn He. rewrite Heq.
    replace (_ || _) with false.
    2: { symmetry. apply orb_false_iff. by rewrite !Z.eqb_neq. }
    eexists. split; [done|]. split; [apply dict_keys_map|].
    intros node Hnode. eexists. split; [by apply dict_get_map|]. simpl.
    repeat split. unfold combined_score_spec.
    by rewrite !(float_mul_comm 0.5).
Qed.

(** C5. [run_simulation] on a name that is not stored, or that is already
    removed, ends with a failure message and leaves the graph state as it
    was (the message is "no está disponible", after the empty selection has
    been turned away with the prompt to select a node). On a stored,
    non-removed name it adds the name to [removed_nodes], changes nothing
    else, and reports the metrics of the active graph before and after the
    removal, with [comp_change] the components after minus before and
    [edge_change] the edges before minus after. The two graphs have as
    edges the stored collaborations with both ends not removed; in a
    well-formed state the report counts, before the removal, the
    non-removed stored names and the collaborations between them, and after
    it one name fewer and the collaborations that do not touch the removed
    name. *)
Theorem run_simulation_correct (node_name : string) (st : State) :
  (node_name ∉ Py.dict_keys (nodes st) ∨ node_name ∈ removed_nodes st →
   ∃ notice,
     run_simulation node_name st = (inr notice, st)
     ∧ (notice = SimUnavailable ∨ notice = SimSelectNode)
     ∧ (node_name ≠ ""%string → notice = SimUnavailable))
  ∧ (node_name ≠ ""%string →
     node_name ∈ Py.dict_keys (nodes st) →
     node_name ∉ removed_nodes st →
     ∃ report st' G_before G_after,
       run_simulation node_name st = (inr (SimDone report), st')
       ∧ removed_nodes st' = {[node_name]} ∪ removed_nodes st
       ∧ nodes st' = nodes st
       ∧ collaborations st' = collaborations st
       ∧ active_graph st = (inr G_before, st)
       ∧ active_graph st' = (inr G_after, st')
       ∧ metrics_before report = calculate_network_metrics G_before
       ∧ metrics_after report = calculate_network_metrics G_after
       ∧ comp_change report
         = componentes (metrics_after report)
           - componentes (metrics_before report)
       ∧ edge_change report
         = aristas (metrics_before report) - aristas (metrics_after report)
       ∧ (∀ a b, Nx.has_edge a b G_before = true
                 ↔ ((a, b) ∈ collaborations st ∨ (b, a) ∈ collaborations st)
                   ∧ (a ∉ removed_nodes st) ∧ (b ∉ removed_nodes st))
       ∧ (∀ a b, Nx.has_edge a b G_after = true
                 ↔ ((a, b) ∈ collaborations st ∨ (b, a) ∈ collaborations st)
                   ∧ (a ∉ {[node_name]} ∪ removed_nodes st)
                   ∧ (b ∉ {[node_name]} ∪ removed_nodes st))
       ∧ (wf_state st →
          G_before
          = Nx.mkGraph (active_names st) (active_collaborations st)
          ∧ G_after
            = Nx.mkGraph (filter (λ n, n ≠ node_name) (active_names st))
                (filter (λ e, ¬ touches node_name e)
                   (active_collaborations st))
          ∧ metrics_before report
            = mkMetrics (Py.len_list (active_names st))
                (Py.len_list (active_collaborations st))
                (Nx.number_connected_components G_before)
          ∧ metrics_after report
            = mkMetrics (Py.len_list (active_names st) - 1)
                (Py.len_list (filter (λ e, ¬ touches node_name e)
                                (active_collaborations st)))
                (if Py.len_list (active_names st) =? 1 then 0
                 else Nx.number_connected_components G_after)
          ∧ edge_change report
            = Py.len_list (filter (touches node_name)
                             (active_collaborations st)))).
Proof.
  split.
  - intros Hbad. destruct (decide (node_name = ""%string)) as [->|Hne].
    + exists SimSelectNode. split; [apply run_simulation_select|].
      split; [by right|done].
    + exists SimUnavailable. split; [by apply run_simulation_unavailable|].
      split; [by left|done].
  - intros Hne Hk Hr.
    pose proof (run_simulation_done node_name st Hne Hk Hr) as Hrun.
    cbv zeta in Hrun.
    set (st' := with_removed_nodes (λ removed, {[node_name]} ∪ removed) st)
      in *.
    eexists _, st', (active_graph_of st), (active_graph_of st').
    split; [exact Hrun|].
    do 3 (split; [done|]).
    do 2 (split; [apply active_graph_eq|]).
    do 4 (split; [done|]).
    split; [apply active_graph_has_edge|].
    split; [apply (active_graph_has_edge st')|].
    intros Hwf.
    assert (wf_state st') as Hwf' by (by apply wf_with_removed_nodes).
    assert (∀ s, wf_state s →
              active_graph_of s
              = Nx.mkGraph (active_names s) (active_collaborations s))
      as Hgraph.
    { intros s Hs. rewrite <- (active_graph_nodes s Hs),
        <- (active_graph_edges_eq s Hs). by destruct (active_graph_of s). }
    assert (node_name ∈ active_names st) as Hact
      by (by apply list_elem_of_filter).
    assert (NoDup (active_names st)) as Hnd by (apply NoDup_filter, Hwf).
    pose proof (length_filter_ne node_name _ Hnd Hact) as Hlen.
    pose proof (length_filter_split (touches node_name)
                  (active_collaborations st)) as Hsplit.
    rewrite (Hgraph st Hwf), (Hgraph st' Hwf').
    unfold st'.
    rewrite active_names_after_removal, active_collaborations_after_removal.
    split; [done|]. split; [done|].
    cbn [metrics_before metrics_after edge_change].
    unfold calculate_network_metrics, Nx.number_of_nodes, Nx.number_of_edges.
    cbn [Nx.g_nodes Nx.g_edges aristas].
    assert (Py.len_list (filter (λ y, y ≠ node_name) (active_names st))
            = Py.len_list (active_names st) - 1) as Hminus
      by (unfold Py.len_list; lia).
    assert ((Py.len_list (active_names st) =? 0) = false) as ->
      by (apply Z.eqb_neq; unfold Py.len_list; lia).
    rewrite Hminus.
    replace (Py.len_list (active_names st) - 1 =? 0)
      with (Py.len_list (active_names st) =? 1)
      by (destruct (Z.eqb_spec (Py.len_list (active_names st)) 1),
            (Z.eqb_spec (Py.len_list (active_names st) - 1) 0); lia).
    split; [done|].
    destruct (Py.len_list (active_names st) =? 1) eqn:Hone.
    + apply Z.eqb_eq in Hone.
      assert (filter (λ y, y ≠ node_name) (active_names st) = []) as Hnil
        by (apply length_zero_iff_nil; unfold Py.len_list in *; lia).
      assert (filter (λ e, ¬ touches node_name e)
                (active_collaborations st) = []) as Hnone.
      { apply filter_none. intros [a b] Hin Hnot.
        apply list_elem_of_filter in Hin as [[Ha _] Hin]. simpl in Ha.
        destruct (wf_endpoints _ Hwf a b Hin) as [Hka _].
        assert (a ∈ filter (λ y, y ≠ node_name) (active_names st)) as Hbad.
        { apply list_elem_of_filter. split.
          - intros ->. apply Hnot. by left.
          - by apply list_elem_of_filter. }
        rewrite Hnil in Hbad. by apply elem_of_nil in Hbad. }
      rewrite Hnone. cbn [aristas]. split; [by rewrite Hone|].
      pose proof (f_equal length Hnone) as Hzero. simpl in Hzero.
      unfold Py.len_list in *. lia.
    + cbn [aristas]. split; [done|]. unfold Py.len_list in *. lia.
Qed.

End AnalysisOnState.

(** ** The suggestions, candidate by candidate *)

Lemma elem_of_suggestion_for st centrality n1 n2 s :
  s ∈ suggestion_for st centrality n1 n2
  ↔ ∃ info1 info2,
      Py.dict_get n1 (nodes st) = Some info1
      ∧ Py.dict_get n2 (nodes st) = Some info2
      ∧ (normalize_pair n1 n2 ∉ collaborations st)
      ∧ intereses info1 ∩ intereses info2 ≠ ∅
      ∧ s = (n1, n2,
             gap_filling_score_spec (intereses info1) (intereses info2)
               (centrality_of centrality n1) (centrality_of centrality n2),
             ("Intereses: "
              ++ Py.join ", "
                   (Py.sorted (intereses info1 ∩ intereses info2)))%string).
Proof.
  assert (match centrality with
          | [] => 0%float
          | _ :: _ => (Py.max_float (centrality_of centrality n1)
                         (centrality_of centrality n2) * 0.5)%float
          end
          = (0.5 * Py.max_float (centrality_of centrality n1)
                     (centrality_of centrality n2))%float) as Hbonus.
  { destruct centrality as [|entry centrality]; [done|].
    apply float_mul_comm. }
  unfold suggestion_for, Py.list_contains.
  destruct (Py.dict_get n1 (nodes st)) as [info1|] eqn:H1.
  2: { rewrite elem_of_nil. split; [done|]. by intros (? & ? & ? & _). }
  destruct (Py.dict_get n2 (nodes st)) as [info2|] eqn:H2.
  2: { rewrite elem_of_nil. split; [done|]. by intros (? & ? & _ & ? & _). }
  case_bool_decide as Hin; simpl.
  { rewrite elem_of_nil. split; [done|].
    by intros (? & ? & _ & _ & ? & _). }
  destruct (Py.truthy_set _) eqn:Hcommon.
  - apply truthy_set_true in Hcommon. rewrite list_elem_of_singleton.
    rewrite Hbonus. split.
    + intros ->. by exists info1, info2.
    + by intros (i1 & i2 & [= <-] & [= <-] & _ & _ & ->).
  - apply truthy_set_false in Hcommon. rewrite elem_of_nil.
    split; [done|]. intros (i1 & i2 & [= <-] & [= <-] & _ & Hne & _).
    done.
Qed.

Section SuggestionCandidates.
Context `{Nx.Algorithms}.

(** C3. [suggest_gap_filling_connections] sorts the entries of its
    candidate pairs by score and keeps the first [top_n]. Every two
    non-removed stored names, the first before the second in insertion
    order, that are not a collaboration yet and have a common interest give
    one candidate entry: its score is
    [|common| / max(|interests1|, |interests2|)] plus 0.5 times the larger of
    the two combined centralities, a name without an entry in the centrality
    mapping counting as 0, and its reason lists the common interests sorted
    and joined by commas. There are no other entries: a pair whose interest
    sets are disjoint is not in the output at all. When fewer than [top_n]
    entries are returned, every candidate entry is among them. *)
Theorem gap_filling_entries (top_n : Z) (st : State) :
  ∃ centrality suggestions,
    calculate_centrality_metrics st = (inr centrality, st)
    ∧ suggest_gap_filling_connections top_n st = (inr suggestions, st)
    ∧ (∀ s, s ∈ suggestions → suggested st centrality s)
    ∧ (∀ n1 n2 info1 info2 score reason,
         Py.dict_get n1 (nodes st) = Some info1 →
         Py.dict_get n2 (nodes st) = Some info2 →
         intereses info1 ∩ intereses info2 = ∅ →
         (n1, n2, score, reason) ∉ suggestions)
    ∧ ∃ candidates,
        suggestions
        = Py.slice_to top_n (sort_desc (λ x, snd (fst x)) candidates)
        ∧ (∀ s, s ∈ candidates → suggested st centrality s)
        ∧ (∀ i j n1 n2 info1 info2,
             (i < j)%nat →
             active_names st !! i = Some n1 →
             active_names st !! j = Some n2 →
             Py.dict_get n1 (nodes st) = Some info1 →
             Py.dict_get n2 (nodes st) = Some info2 →
             normalize_pair n1 n2 ∉ collaborations st →
             intereses info1 ∩ intereses info2 ≠ ∅ →
             (n1, n2,
              gap_filling_score_spec (intereses info1) (intereses info2)
                (centrality_of centrality n1) (centrality_of centrality n2),
              ("Intereses: "
               ++ Py.join ", "
                    (Py.sorted (intereses info1 ∩ intereses info2)))%string)
             ∈ candidates)
        ∧ (Py.len_list suggestions < top_n →
           ∀ s, s ∈ candidates → s ∈ suggestions).
Proof.
  set (candidates :=
         pair_loop (active_names st) (suggestion_for st (centrality_value st))).
  assert (∀ s, s ∈ candidates → suggested st (centrality_value st) s)
    as Hcandidates.
  { intros [[[n1 n2] score] reason]
      (i & j & m1 & m2 & _ & Hi & Hj & Hs)%elem_of_pair_loop.
    apply elem_of_suggestion_for
      in Hs as (info1 & info2 & H1 & H2 & Hnew & Hcommon & [= -> -> -> ->]).
    apply list_elem_of_lookup_2, list_elem_of_filter in Hi as [Hr1 Hk1].
    apply list_elem_of_lookup_2, list_elem_of_filter in Hj as [Hr2 Hk2].
    repeat (split; [done|]). by exists info1, info2. }
  assert (∀ s, s ∈ Py.slice_to top_n
                     (sort_desc (λ x : suggestion, snd (fst x)) candidates) →
               s ∈ candidates) as Hsub
    by (by intros s ?%elem_of_slice_to%elem_of_sort_desc).
  exists (centrality_value st). eexists.
  split; [apply centrality_value_eq|]. split; [apply suggest_eq|].
  fold candidates.
  split; [intros s Hs; by apply Hcandidates, Hsub|].
  split.
  { intros n1 n2 info1 info2 score reason H1 H2 Hdisjoint Hin.
    destruct (Hcandidates _ (Hsub _ Hin))
      as (_ & _ & _ & i1 & i2 & Hi1 & Hi2 & Hcommon & _).
    congruence. }
  exists candidates. split; [done|]. split; [done|]. split.
  - intros i j n1 n2 info1 info2 Hij Hi Hj H1 H2 Hnew Hcommon.
    apply elem_of_pair_loop. exists i, j, n1, n2.
    repeat (split; [done|]). apply elem_of_suggestion_for.
    by exists info1, info2.
  - intros Hlen s Hs. rewrite slice_to_all by done.
    by apply elem_of_sort_desc.
Qed.

End SuggestionCandidates.

(** ** Worked examples of the further properties *)

Lemma small_interests_trio : small_interests trio.
Proof.
  intros n info Hget%dict_get_elem.
  assert (Forall (λ kv, Py.len_set (intereses kv.2) < 2 ^ 52) (nodes trio))
    as Hall by (apply (bool_decide_unpack _); vm_compute; exact I).
  by apply (proj1 (Forall_forall _ _) Hall (n, info)).
Qed.

Lemma add_collaboration_twice_witness :
  add_collaboration "C" "B" (snd (add_collaboration "B" "C" trio))
  = (inr AddDuplicate, snd (add_collaboration "B" "C" trio)).
Proof.
  assert (add_collaboration "B" "C" trio
          = (inr (AddDone ("B", "C")%string),
             snd (add_collaboration "B" "C" trio))) as Hadd
    by (vm_compute; reflexivity).
  exact (proj2 (add_collaboration_twice _ _ _ _ _ Hadd)).
Defined.

Lemma add_then_delete_restores_witness :
  delete_collaboration "C" "B" (snd (add_collaboration "B" "C" trio))
  = (inr (DeleteDone ("B", "C")%string), trio).
Proof.
  assert (add_collaboration "B" "C" trio
          = (inr (AddDone ("B", "C")%string),
             snd (add_collaboration "B" "C" trio))) as Hadd
    by (vm_compute; reflexivity).
  exact (add_then_delete_restores "B" "C" trio _ _ ("C", "B")%string
           Hadd (or_intror eq_refl)).
Defined.

Lemma network_metrics_count_witness :
  wf_state trio
  ∧ ∃ G,
      active_graph trio = (inr G, trio)
      ∧ nodos (calculate_network_metrics (H := NxExamples.algorithms) G)
        = Py.len_list (active_names trio)
      ∧ aristas (calculate_network_metrics (H := NxExamples.algorithms) G)
        = Py.len_list (active_collaborations trio).
Proof.
  split; [apply wf_trio|].
  apply (network_metrics_count (H := NxExamples.algorithms) trio), wf_trio.
Defined.

Lemma run_simulation_deltas_witness :
  wf_state trio
  ∧ ∃ report st',
      run_simulation (H := NxExamples.algorithms) "A" trio
      = (inr (SimDone report), st')
      ∧ nodos (metrics_after report) = nodos (metrics_before report) - 1
      ∧ 0 ≤ edge_change report.
Proof.
  split; [apply wf_trio|].
  assert (run_simulation (H := NxExamples.algorithms) "A" trio
          = (inr (SimDone (mkReport (mkMetrics 3 1 2) (mkMetrics 2 0 2) 0 1)),
             snd (run_simulation (H := NxExamples.algorithms) "A" trio)))
    as Hrun by (vm_compute; reflexivity).
  destruct (run_simulation_deltas (H := NxExamples.algorithms)
              "A" trio _ _ wf_trio Hrun) as (Hnodes & _ & Hedges).
  eexists _, _. split; [exact Hrun|]. split; assumption.
Defined.

Lemma recommend_sorted_witness :
  small_interests initial_state
  ∧ ∃ recs,
      recommend_interdisciplinary_connections 5 initial_state
      = (inr recs, initial_state)
      ∧ descending snd recs.
Proof.
  split; [apply small_interests_initial_state|].
  eexists. split; [apply recommend_eq|].
  exact (recommend_sorted 5 initial_state _ small_interests_initial_state
           (recommend_eq 5 initial_state)).
Defined.

Lemma recommend_complete_witness :
  ∃ recs,
    recommend_interdisciplinary_connections 10 trio = (inr recs, trio)
    ∧ (("C", "B", 3%float)%string ∈ recs ∨ ("B", "C", 3%float)%string ∈ recs).
Proof.
  eexists. split; [apply recommend_eq|].
  apply (recommend_complete 10 trio _ "C" "B" 3 (recommend_eq 10 trio)).
  - vm_compute. reflexivity.
  - apply (bool_decide_unpack _). vm_compute. exact I.
  - apply (bool_decide_unpack _). vm_compute. exact I.
  - discriminate.
  - apply (bool_decide_unpack _). vm_compute. exact I.
  - vm_compute. reflexivity.
  - reflexivity.
Defined.

Lemma disjoint_interests_score_witness :
  small_interests trio
  ∧ calculate_interdisciplinary_score "B" "C" trio
    = (inr (if bool_decide ("Int."%string = "Med."%string)
            then 0%float else 3%float), trio).
Proof.
  split; [apply small_interests_trio|].
  assert (Py.dict_get "B" (nodes trio) = Some (mkInfo "Int." {["IA"]}))
    as HB by (vm_compute; reflexivity).
  assert (Py.dict_get "C" (nodes trio) = Some (mkInfo "Med." {["Datos"]}))
    as HC by (vm_compute; reflexivity).
  assert (({["IA"]} : gset string) ∩ {["Datos"]} = ∅) as Hdisj
    by (apply (bool_decide_unpack _); vm_compute; exact I).
  exact (proj1 (disjoint_interests_score "B" "C" trio _ _
                  small_interests_trio HB HC Hdisj)).
Defined.

Lemma stored_connection_not_recommended_witness :
  ∃ recs,
    recommend_interdisciplinary_connections 10
      (snd (add_collaboration "B" "C" trio))
    = (inr recs, snd (add_collaboration "B" "C" trio))
    ∧ (("B", "C", 3%float)%string ∉ recs)
    ∧ (("C", "B", 3%float)%string ∉ recs).
Proof.
  eexists. split; [apply recommend_eq|].
  apply (stored_connection_not_recommended "B" "C" trio
           (snd (add_collaboration "B" "C" trio)) 10 _ 3);
    [|apply recommend_eq].
  right. exists ("B", "C")%string. vm_compute. reflexivity.
Defined.

Lemma reachable_invariant_witness :
  reachable (H := NxExamples.algorithms) elena_removed
  ∧ wf_state elena_removed ∧ removed_stored elena_removed.
Proof.
  split; [apply elena_removed_reachable|].
  apply (reachable_invariant (H := NxExamples.algorithms)),
    elena_removed_reachable.
Defined.

(** ** Worked examples of the analysis functions *)

Lemma wf_quartet : wf_state quartet.
Proof.
  split.
  - apply (bool_decide_unpack _). vm_compute. exact I.
  - apply (bool_decide_unpack _). vm_compute. exact I.
  - intros a b [[= -> ->]|[]%elem_of_nil]%elem_of_cons.
    split; apply (bool_decide_unpack _); vm_compute; exact I.
  - by intros a b [[= -> ->]|[]%elem_of_nil]%elem_of_cons.
  - apply (bool_decide_unpack _). vm_compute. exact I.
Qed.

Lemma small_interests_quartet : small_interests quartet.
Proof.
  intros n info Hget%dict_get_elem.
  assert (Forall (λ kv, Py.len_set (intereses kv.2) < 2 ^ 52) (nodes quartet))
    as Hall by (apply (bool_decide_unpack _); vm_compute; exact I).
  by apply (proj1 (Forall_forall _ _) Hall (n, info)).
Qed.

Lemma wf_path4 : wf_state path4.
Proof.
  split.
  - apply (bool_decide_unpack _). vm_compute. exact I.
  - apply (bool_decide_unpack _). vm_compute. exact I.
  - intros a b Hin.
    assert (Forall (λ e, e.1 ∈ Py.dict_keys (nodes path4)
                         ∧ e.2 ∈ Py.dict_keys (nodes path4))
              (collaborations path4)) as Hall
      by (apply (bool_decide_unpack _); vm_compute; exact I).
    by apply (proj1 (Forall_forall _ _) Hall (a, b)).
  - intros a b Hin.
    assert (Forall (λ e, Py.str_le e.1 e.2 = true) (collaborations path4))
      as Hall by (apply (bool_decide_unpack _); vm_compute; exact I).
    by apply (proj1 (Forall_forall _ _) Hall (a, b)).
  - apply (bool_decide_unpack _). vm_compute. exact I.
Qed.

(** Among A, B, C and D with the one collaboration A - B: the pair A - D
    shares two of D's three interests and gets 2/3 plus half of A's combined
    score 1/6; B and C share nothing and get no entry. *)
Lemma gap_filling_entries_witness :
  ∃ suggestions,
    suggest_gap_filling_connections (H := NxExamples.algorithms) 10 quartet
    = (inr suggestions, quartet)
    ∧ ("A", "D", 0.75%float, "Intereses: Datos, IA")%string ∈ suggestions
    ∧ (∀ score reason, ("B", "C", score, reason)%string ∉ suggestions).
Proof.
  destruct (gap_filling_entries (H := NxExamples.algorithms) 10 quartet)
    as (centrality & suggestions & Hc & Hrun & _ & Hdisjoint
        & candidates & _ & _ & Hcandidate & Hfull).
  assert (centrality = centrality_value (H := NxExamples.algorithms) quartet)
    as ->.
  { pose proof (eq_trans (eq_sym Hc) (centrality_value_eq quartet)) as Heq.
    apply (f_equal fst) in Heq. cbn [fst] in Heq.
    exact (inj inr _ _ Heq). }
  assert (Py.len_list suggestions < 10) as Hlen.
  { pose proof (eq_trans (eq_sym Hrun) (suggest_eq 10 quartet)) as Heq.
    apply (f_equal fst) in Heq. cbn [fst] in Heq.
    rewrite (inj inr _ _ Heq). vm_compute. reflexivity. }
  exists suggestions. split; [exact Hrun|]. split.
  - apply (Hfull Hlen).
    assert ((0 < 3)%nat) as Hij by lia.
    assert (active_names quartet !! 0%nat = Some "A"%string) as Hi
      by (vm_compute; reflexivity).
    assert (active_names quartet !! 3%nat = Some "D"%string) as Hj
      by (vm_compute; reflexivity).
    assert (Py.dict_get "A" (nodes quartet)
            = Some (mkInfo "Ing." {["IA"; "Datos"]})) as HA
      by (vm_compute; reflexivity).
    assert (Py.dict_get "D" (nodes quartet)
            = Some (mkInfo "Mat." {["IA"; "Datos"; "Web"]})) as HD
      by (vm_compute; reflexivity).
    assert (normalize_pair "A" "D" ∉ collaborations quartet) as Hnew
      by (apply (bool_decide_unpack _); vm_compute; exact I).
    assert (intereses (mkInfo "Ing." {["IA"; "Datos"]})
            ∩ intereses (mkInfo "Mat." {["IA"; "Datos"; "Web"]}) ≠ ∅)
      as Hcommon by (apply (bool_decide_unpack _); vm_compute; exact I).
    pose proof (Hcandidate _ _ _ _ _ _ Hij Hi Hj HA HD Hnew Hcommon) as Hin.
    assert (("A", "D", 0.75%float, "Intereses: Datos, IA")%string
            = ("A", "D",
               gap_filling_score_spec
                 (intereses (mkInfo "Ing." {["IA"; "Datos"]}))
                 (intereses (mkInfo "Mat." {["IA"; "Datos"; "Web"]}))
                 (centrality_of
                    (centrality_value (H := NxExamples.algorithms) quartet)
                    "A")
                 (centrality_of
                    (centrality_value (H := NxExamples.algorithms) quartet)
                    "D"),
               "Intereses: "
               +:+ Py.join ", "
                     (Py.sorted
                        (intereses (mkInfo "Ing." {["IA"; "Datos"]})
                         ∩ intereses
                             (mkInfo "Mat." {["IA"; "Datos"; "Web"]}))))%string)
      as -> by (vm_compute; reflexivity).
    exact Hin.
  - intros score reason.
    apply (Hdisjoint "B" "C" (mkInfo "Int." {["IA"]})
             (mkInfo "Med." {["Datos"]}))%string.
    + vm_compute. reflexivity.
    + vm_compute. reflexivity.
    + apply (bool_decide_unpack _). vm_compute. exact I.
Defined.

(** The same four people: the active graph has the four nodes and the edge
    A - B, so the mapping is not empty; A has degree centrality 1/3,
    betweenness 0 and combined score 1/6. *)
Lemma centrality_metrics_correct_witness :
  wf_state quartet
  ∧ ∃ combined entry,
      calculate_centrality_metrics (H := NxExamples.algorithms) quartet
      = (inr combined, quartet)
      ∧ Py.dict_keys combined = ["A"; "B"; "C"; "D"]%string
      ∧ Py.dict_get "A" combined = Some entry
      ∧ grado entry = 0x1.5555555555555p-2%float
      ∧ intermediacion entry = 0%float
      ∧ score_total entry = 0x1.5555555555555p-3%float.
Proof.
  split; [apply wf_quartet|].
  destruct (centrality_metrics_correct (H := NxExamples.algorithms) quartet)
    as (G & _ & Hnodes & Hedges & _ & _ & Hfull).
  specialize (Hnodes wf_quartet). specialize (Hedges wf_quartet).
  destruct G as [ns es]. cbn [Nx.g_nodes Nx.g_edges] in Hnodes, Hedges.
  subst ns es.
  assert (Nx.number_of_nodes
            (Nx.mkGraph (active_names quartet) (active_collaborations quartet))
          ≠ 0) as Hn by (vm_compute; discriminate).
  assert (Nx.number_of_edges
            (Nx.mkGraph (active_names quartet) (active_collaborations quartet))
          ≠ 0) as He by (vm_compute; discriminate).
  destruct (Hfull Hn He) as (combined & Hrun & Hkeys & Hentries).
  assert ("A"%string
          ∈ Nx.g_nodes (Nx.mkGraph (active_names quartet)
                          (active_collaborations quartet))) as HA
    by (apply (bool_decide_unpack _); vm_compute; exact I).
  destruct (Hentries _ HA) as (entry & Hget & Hgrado & Hinter & Hscore).
  exists combined, entry. split; [exact Hrun|].
  split; [rewrite Hkeys; vm_compute; reflexivity|].
  split; [exact Hget|].
  split; [rewrite Hgrado; vm_compute; reflexivity|].
  split; [rewrite Hinter; vm_compute; reflexivity|].
  rewrite Hscore, Hgrado, Hinter. vm_compute. reflexivity.
Defined.

(** Removing B from the path A - B - C - D: 4 nodes, 3 edges and 1 component
    before; 3 nodes, 1 edge and 2 components after; one component more and
    two edges fewer. *)
Lemma run_simulation_correct_witness :
  wf_state path4
  ∧ ∃ st',
      run_simulation (H := NxExamples.algorithms) "B" path4
      = (inr (SimDone (mkReport (mkMetrics 4 3 1) (mkMetrics 3 1 2) 1 2)), st')
      ∧ removed_nodes st' = {["B"%string]} ∪ removed_nodes path4.
Proof.
  split; [apply wf_path4|].
  assert ("B"%string ≠ ""%string) as Hne by discriminate.
  assert ("B"%string ∈ Py.dict_keys (nodes path4)) as Hk
    by (apply (bool_decide_unpack _); vm_compute; exact I).
  assert ("B"%string ∉ removed_nodes path4) as Hr
    by (apply (bool_decide_unpack _); vm_compute; exact I).
  destruct (proj2 (run_simulation_correct (H := NxExamples.algorithms)
                     "B" path4) Hne Hk Hr)
    as (report & st' & G_before & G_after & Hrun & Hrem & _ & _ & _ & _
        & _ & _ & Hcomp & Hedge & _ & _ & Hcounts).
  destruct (Hcounts wf_path4) as (-> & -> & Hbefore & Hafter & _).
  exists st'. split; [|exact Hrem].
  destruct report as [before after comp edge].
  cbn [metrics_before metrics_after comp_change edge_change]
    in Hcomp, Hedge, Hbefore, Hafter.
  subst before after comp edge. rewrite Hrun. vm_compute. reflexivity.
Defined.

(** With Ana and María both removed, the stored collaboration Ana - Sofía
    is no edge of the active graph; it is one again once Ana is restored,
    Sofía not being removed. Simulating the removal of Sofía as well leaves
    the stored collaborations as they are. *)
Lemma removal_keeps_collaborations_witness :
  "Ana"%string ∈ removed_nodes two_removed
  ∧ ("Ana", "Sofía")%string ∈ collaborations two_removed
  ∧ ¬ active_edge two_removed "Ana" "Sofía"
  ∧ active_edge (snd (restore_node "Ana" two_removed)) "Ana" "Sofía"
  ∧ collaborations
      (snd (run_simulation (H := NxExamples.algorithms) "Sofía" two_removed))
    = collaborations two_removed.
Proof.
  assert ("Ana"%string ∈ removed_nodes two_removed) as Hx
    by (apply (bool_decide_unpack _); vm_compute; exact I).
  assert (("Ana", "Sofía")%string ∈ collaborations two_removed) as Hin
    by (apply (bool_decide_unpack _); vm_compute; exact I).
  split; [exact Hx|]. split; [exact Hin|]. split.
  { intros [Hedge|Hedge]%active_edge_iff%has_edge_true; revert Hedge;
      apply (removed_has_no_active_edge _ "Ana" _ _ Hx);
      [left|right]; reflexivity. }
  split.
  - destruct (removal_keeps_collaborations (H := NxExamples.algorithms)
                two_removed "Ana") as (_ & _ & _ & _ & Hrestore).
    apply (Hrestore Hx "Ana" "Sofía" Hin)%string.
    + left. reflexivity.
    + apply (bool_decide_unpack _). vm_compute. exact I.
    + apply (bool_decide_unpack _). vm_compute. exact I.
  - exact (proj1 (removal_keeps_collaborations (H := NxExamples.algorithms)
                    two_removed "Sofía")).
Defined.

(** Among A, B, C and D with the one collaboration A - B the loops collect
    A - C, A - D, B - D, C - D; sorting puts A - D first. *)
Lemma suggest_sorted_witness :
  small_interests quartet
  ∧ centralities_nonneg (H := NxExamples.algorithms) quartet
  ∧ ∃ suggestions,
      suggest_gap_filling_connections (H := NxExamples.algorithms) 10 quartet
      = (inr suggestions, quartet)
      ∧ map (λ s : suggestion, fst (fst s)) suggestions
        = [("A", "D"); ("A", "C"); ("B", "D"); ("C", "D")]%string
      ∧ descending (λ x, snd (fst x)) suggestions.
Proof.
  assert (centralities_nonneg (H := NxExamples.algorithms) quartet) as Hcent.
  { split; apply (bool_decide_unpack _); vm_compute; exact I. }
  split; [apply small_interests_quartet|]. split; [exact Hcent|].
  eexists. split; [apply suggest_eq|]. split; [vm_compute; reflexivity|].
  exact (suggest_sorted (H := NxExamples.algorithms) 10 quartet _
           small_interests_quartet Hcent (suggest_eq 10 quartet)).
Defined.
